(** * The GuardDuty finding enrichment handler (app/ai_generator/index.py)

    A shallow embedding of the Lambda handler and of the functions it calls,
    with the requests sent to the AWS clients recorded in a trace, and the
    properties of the pipeline proved over it.

    Python text is a sequence of code points, Python values are a tagged
    union, exceptions are an error result, and the calls to boto3 clients
    are answered by a [World] the theorems quantify over.  Functions of the
    Python libraries (json, fpdf, repr, isoformat) are fields of a
    [Runtime] record: the handler is verified for every library
    behaviour.  The addition of a delay to a time is computed on the
    calendar. *)

From Stdlib Require Import ZArith NArith List String Ascii Bool Lia.
From Stdlib Require Import Strings.Byte DecimalString QArith.
From Stdlib Require Import Floats.
Import ListNotations.

Local Open Scope Z_scope.
Local Open Scope list_scope.

(** ** Text *)

(** A Python [str] is a sequence of Unicode code points. *)
Definition char := N.
Definition str := list char.

(** A string literal of the source (ASCII only in this program). *)
Definition lit (s : string) : str :=
  List.map N_of_ascii (list_ascii_of_string s).

Definition dquote : char := 34%N.
Definition newline : char := 10%N.
Definition space : char := 32%N.

Definition str_eqb (a b : str) : bool :=
  if list_eq_dec N.eq_dec a b then true else false.

(** [str.isspace()] on one code point; [str.strip()] and the regular
    expression class \s (on text patterns) use the same set. *)
Definition is_space (c : char) : bool :=
  ((9 <=? c) && (c <=? 13) || (28 <=? c) && (c <=? 32)
   || (c =? 133) || (c =? 160) || (c =? 5760)
   || (8192 <=? c) && (c <=? 8202)
   || (c =? 8232) || (c =? 8233) || (c =? 8239) || (c =? 8287)
   || (c =? 12288))%N.

Fixpoint lstrip (s : str) : str :=
  match s with
  | c :: s' => if is_space c then lstrip s' else s
  | [] => []
  end.

Definition rstrip (s : str) : str := rev (lstrip (rev s)).

(** [s.strip()] *)
Definition strip (s : str) : str := rstrip (lstrip s).

(** [s.replace(old, new)] for a pattern [old] of one character. *)
Definition replace (old : char) (new : str) (s : str) : str :=
  flat_map (fun c => if (c =? old)%N then new else [c]) s.

(** [s.split(sep)] for a separator of one character: never empty. *)
Fixpoint split (sep : char) (s : str) : list str :=
  match s with
  | [] => [[]]
  | c :: s' =>
      if (c =? sep)%N then [] :: split sep s'
      else match split sep s' with
           | piece :: rest => (c :: piece) :: rest
           | [] => [[c]]
           end
  end.

(** [s.startswith(p)] *)
Fixpoint startswith (p s : str) : bool :=
  match p, s with
  | [], _ => true
  | a :: p', b :: s' => (a =? b)%N && startswith p' s'
  | _ :: _, [] => false
  end.

(** The length of the match of the pattern \n\s*\n at the head of [s],
    if it matches there.  The star is greedy: the match ends at the last
    newline of the run of whitespace that follows the first newline. *)
Fixpoint last_newline (run : str) (pos : nat) (found : option nat) : option nat :=
  match run with
  | c :: run' =>
      if is_space c
      then last_newline run' (S pos) (if (c =? newline)%N then Some (S pos) else found)
      else found
  | [] => found
  end.

Definition match_blank_line (s : str) : option nat :=
  match s with
  | c :: s' => if (c =? newline)%N then last_newline s' 1%nat None else None
  | [] => None
  end.

(** [re.split(r"\n\s*\n", s)]: the pieces between the matches, which are
    searched from left to right and do not overlap.  [skip] counts the
    characters of the current match still to pass, [cur] is the piece
    being read, reversed. *)
Fixpoint re_split_from (s : str) (skip : nat) (cur : str) : list str :=
  match s with
  | [] => [rev cur]
  | c :: s' =>
      match skip with
      | S k => re_split_from s' k cur
      | O =>
          match match_blank_line s with
          | Some n => rev cur :: re_split_from s' (Nat.pred n) []
          | None => re_split_from s' O (c :: cur)
          end
      end
  end.

Definition re_split_blank_lines (s : str) : list str := re_split_from s O [].

(** The decimal digits of an integer, as [str(n)] and an f-string give. *)
Definition str_of_Z (n : Z) : str :=
  lit (DecimalString.NilZero.string_of_int (Z.to_int n)).

(** [text.encode("latin1")]: one byte per code point below 256. *)
Fixpoint encode_latin1 (s : str) : option (list byte) :=
  match s with
  | [] => Some []
  | c :: s' =>
      match Byte.of_N c, encode_latin1 s' with
      | Some b, Some bs => Some (b :: bs)
      | _, _ => None
      end
  end.

(** ** Values *)

(** [decimal.Decimal]: sign, coefficient and exponent, or a special value. *)
Inductive Decimal :=
| Dfinite (negative : bool) (coefficient : N) (exponent : Z)
| Dinfinity (negative : bool)
| DNaN.

(** A naive [datetime.datetime]. *)
Record datetime := {
  year : Z; month : Z; day : Z;
  hour : Z; minute : Z; second : Z; microsecond : Z
}.

(** [calendar.isleap(y)] *)
Definition is_leap (y : Z) : bool :=
  (y mod 4 =? 0) && (negb (y mod 100 =? 0) || (y mod 400 =? 0)).

(** The number of days of the month [m] of the year [y]. *)
Definition days_in_month (y m : Z) : Z :=
  if m =? 2 then (if is_leap y then 29 else 28)
  else if (m =? 4) || (m =? 6) || (m =? 9) || (m =? 11) then 30
  else 31.

(** The time one second after [t]. *)
Definition next_second (t : datetime) : datetime :=
  if second t <? 59
  then {| year := year t; month := month t; day := day t; hour := hour t;
          minute := minute t; second := second t + 1;
          microsecond := microsecond t |}
  else if minute t <? 59
  then {| year := year t; month := month t; day := day t; hour := hour t;
          minute := minute t + 1; second := 0; microsecond := microsecond t |}
  else if hour t <? 23
  then {| year := year t; month := month t; day := day t; hour := hour t + 1;
          minute := 0; second := 0; microsecond := microsecond t |}
  else if day t <? days_in_month (year t) (month t)
  then {| year := year t; month := month t; day := day t + 1; hour := 0;
          minute := 0; second := 0; microsecond := microsecond t |}
  else if month t <? 12
  then {| year := year t; month := month t + 1; day := 1; hour := 0;
          minute := 0; second := 0; microsecond := microsecond t |}
  else {| year := year t + 1; month := 1; day := 1; hour := 0;
          minute := 0; second := 0; microsecond := microsecond t |}.

(** [t + timedelta(seconds=n)] for a delay [n] that is not negative.
    (The addition overflows in the last minutes of the year 9999 only.) *)
Definition add_seconds (t : datetime) (n : Z) : datetime :=
  Nat.iter (Z.to_nat n) next_second t.

(** The values the handler sees: JSON data as [json.loads] and boto3 give
    it, with the [Decimal] and [datetime] objects that
    [convert_to_json_serializable] removes.  A [dict] keeps the order of
    insertion and has text keys. *)
#[local] Set Warnings "-register-all".
Inductive pyval :=
| PNone
| PBool (b : bool)
| PInt (n : Z)
| PFloat (f : float)
| PStr (s : str)
| PDecimal (d : Decimal)
| PDatetime (t : datetime)
| PList (l : list pyval)
| PDict (d : list (str * pyval)).

(** JSON data: a value without [Decimal] and without [datetime], at any
    depth.  These are the values that [json.dumps] serialises; on
    another value it raises TypeError. *)
Fixpoint json_clean (v : pyval) : bool :=
  match v with
  | PDecimal _ | PDatetime _ => false
  | PList l => forallb json_clean l
  | PDict d => forallb (fun kv : str * pyval => let (_, x) := kv in json_clean x) d
  | _ => true
  end.

(** The exceptions of a run.  Every one of them derives from [Exception];
    [ClientError] carries [e.response["Error"]["Code"]]. *)
Inductive exn :=
| ClientError (code : str)
| KeyError (key : str)
| IndexError
| TypeError
| AttributeError
| ValueError (message : str)
| JSONDecodeError
| InvalidOperation
| UnicodeEncodeError
| Exception (message : str).

Inductive outcome (A : Type) :=
| Ok (a : A)
| Raise (e : exn).
Arguments Ok {A} a.
Arguments Raise {A} e.

Fixpoint dict_get (k : str) (d : list (str * pyval)) : option pyval :=
  match d with
  | [] => None
  | (k', v) :: d' => if str_eqb k' k then Some v else dict_get k d'
  end.

(** [d[k] = v] *)
Fixpoint dict_set (k : str) (v : pyval) (d : list (str * pyval)) : list (str * pyval) :=
  match d with
  | [] => [(k, v)]
  | (k', v') :: d' =>
      if str_eqb k' k then (k', v) :: d' else (k', v') :: dict_set k v d'
  end.

(** [v[k]] for a text key. *)
Definition py_getitem (v : pyval) (k : str) : outcome pyval :=
  match v with
  | PDict d => match dict_get k d with Some x => Ok x | None => Raise (KeyError k) end
  | _ => Raise TypeError
  end.

(** [v[0]] *)
Definition py_first (v : pyval) : outcome pyval :=
  match v with
  | PList (x :: _) => Ok x
  | PList [] => Raise IndexError
  | PStr (c :: _) => Ok (PStr [c])
  | PStr [] => Raise IndexError
  | PDict _ => Raise (KeyError (lit "0"))
  | _ => Raise TypeError
  end.

(** [v.get(k, default)] *)
Definition py_get (v : pyval) (k : str) (default : pyval) : outcome pyval :=
  match v with
  | PDict d => match dict_get k d with Some x => Ok x | None => Ok default end
  | _ => Raise AttributeError
  end.

(** [v.strip()] *)
Definition py_strip (v : pyval) : outcome str :=
  match v with
  | PStr s => Ok (strip s)
  | _ => Raise AttributeError
  end.

(** The value of a finite [Decimal] as a rational. *)
Definition Decimal_value (negative : bool) (coefficient : N) (exponent : Z) : Q :=
  let c := if negative then (- Z.of_N coefficient)%Z else Z.of_N coefficient in
  match exponent with
  | Zneg p => Qmake c (Pos.pow 10 p)
  | _ => Qmake (c * 10 ^ exponent) 1
  end.

(** [v < 4.0].  Numbers compare by value, whatever their type; a [bool] is
    an [int]; an order comparison with a [Decimal] NaN raises. *)
Definition lt_4_0 (v : pyval) : outcome bool :=
  match v with
  | PFloat f => Ok (f <? 4.0)%float
  | PInt n => Ok (n <? 4)
  | PBool _ => Ok true
  | PDecimal (Dfinite s c e) =>
      Ok (match Qcompare (Decimal_value s c e) (4 # 1) with Lt => true | _ => false end)
  | PDecimal (Dinfinity negative) => Ok negative
  | PDecimal DNaN => Raise InvalidOperation
  | _ => Raise TypeError
  end.

(** Truth value of [v] in a condition. *)
Definition truthy (v : pyval) : bool :=
  match v with
  | PNone => false
  | PBool b => b
  | PInt n => negb (n =? 0)
  | PFloat f => negb (f =? 0.0)%float
  | PStr s => match s with [] => false | _ => true end
  | PDecimal (Dfinite _ c _) => negb (c =? 0)%N
  | PDecimal _ => true
  | PDatetime _ => true
  | PList l => match l with [] => false | _ => true end
  | PDict d => match d with [] => false | _ => true end
  end.

(** [v == s] for a text [s]: only an equal text is equal to it. *)
Definition eq_str (v : pyval) (s : str) : bool :=
  match v with
  | PStr t => str_eqb t s
  | _ => false
  end.

(** ** The PDF library and the AWS clients *)

(** The calls made on the [FPDF] object. *)
Inductive fpdf_op :=
| FPDF_new
| set_auto_page_break (auto : bool) (margin : Z)
| add_page
| set_font (family style : str) (size : Z)
| set_text_color (r g b : Z)
| ln (h : Z)
| cell (w h : Z) (txt : pyval) (ln : bool) (align : str) (link : str)
| multi_cell (w h : Z) (txt : pyval).

Inductive service := detective | guardduty | bedrock_runtime | s3 | sns | events.

Record target := { Id : str; Arn : str; Input : str }.

(** The operations the source calls on a boto3 client, with their
    keyword arguments. *)
Inductive operation :=
| get_findings (DetectorId : pyval) (FindingIds : list pyval)
| list_graphs
| list_members (GraphArn : pyval)
| invoke_model (modelId accept body : str)
| put_rule (Name ScheduleExpression State : str)
| put_targets (Rule : str) (Targets : list target)
| put_object (Bucket Key : str) (Body : list byte) (ContentType : str)
| generate_presigned_url (ClientMethod Bucket Key : str) (ExpiresIn : Z)
| publish (TopicArn Message Subject MessageStructure : str)
| delete_rule (Name : pyval).

(** A request: an operation called on the client of a service. *)
Record request := { client : service; op : operation }.

Definition service_eqb (a b : service) : bool :=
  match a, b with
  | detective, detective | guardduty, guardduty
  | bedrock_runtime, bedrock_runtime | s3, s3 | sns, sns | events, events => true
  | _, _ => false
  end.

(** What the Python libraries compute.  The development holds for every
    such library. *)
Record Runtime := {
  (** [json.dumps(v)] and [json.dumps(v, indent=4)], on JSON data *)
  json_dumps : pyval -> str;
  json_dumps_indent4 : pyval -> str;
  (** [json.loads(s)]; [None] when it raises [JSONDecodeError] *)
  json_loads : str -> option pyval;
  (** the text of a value that is not a [str], in an f-string *)
  repr : pyval -> str;
  (** [str(e)] for an exception raised by a library *)
  library_message : exn -> str;
  (** [float(d)] *)
  float_of_Decimal : Decimal -> float;
  (** [t.isoformat()] *)
  isoformat : datetime -> str;
  (** the exception a call on the [FPDF] object raises, if any, after
      the calls already made on it *)
  fpdf_raises : list fpdf_op -> fpdf_op -> option exn;
  (** [pdf.output(dest="S")] after the calls made on the object; the
      library stamps the document with the time that it reads itself *)
  fpdf_output : datetime -> list fpdf_op -> outcome str
}.

(** What a run finds outside the program: the process environment, the
    answers of the AWS services (which may depend on the requests already
    made), the clock as the program reads it ([datetime.utcnow()]) and as
    the PDF library reads it later, when it writes the document
    ([datetime.now()]), the random source and the identifier generator. *)
Record World := {
  environ : list (str * str);
  respond : list request -> request -> outcome pyval;
  utcnow : datetime;
  now : datetime;
  random_source : Z;
  uuid4 : str
}.

(** The Lambda context object. *)
Record LambdaContext := { function_name : str }.

(** [random.randint(a, b)]: an integer N with a <= N <= b. *)
Definition randint (w : World) (a b : Z) : Z :=
  a + random_source w mod (b - a + 1).

(** [os.getenv(k)] *)
Fixpoint getenv (env : list (str * str)) (k : str) : option str :=
  match env with
  | [] => None
  | (k', v) :: env' => if str_eqb k' k then Some v else getenv env' k
  end.

(** ** Stateful computations that may raise *)

(** A computation over a log of type [S]: the log is kept when the
    computation raises. *)
Definition SE (S A : Type) : Type := S -> outcome A * S.

Definition ret {S A} (a : A) : SE S A := fun t => (Ok a, t).
Definition raise {S A} (e : exn) : SE S A := fun t => (Raise e, t).
Definition bind {S A B} (m : SE S A) (k : A -> SE S B) : SE S B :=
  fun t => match m t with
           | (Ok a, t') => k a t'
           | (Raise e, t') => (Raise e, t')
           end.
Definition lift {S A} (o : outcome A) : SE S A := fun t => (o, t).

(** [try: m except Exception as e: h e] *)
Definition try_except {S A} (m : SE S A) (h : exn -> SE S A) : SE S A :=
  fun t => match m t with
           | (Ok a, t') => (Ok a, t')
           | (Raise e, t') => h e t'
           end.

Declare Scope se_scope.
Delimit Scope se_scope with se.
Notation "x <- m ;; k" := (bind m (fun x => k))
  (at level 61, m at next level, right associativity) : se_scope.
Notation "m ;;; k" := (bind m (fun _ => k))
  (at level 61, right associativity) : se_scope.
Local Open Scope se_scope.

(** A run of the handler logs the requests it makes. *)
Definition M := SE (list request).

(** The rendering logs the calls on the [FPDF] object. *)
Definition PDF := SE (list fpdf_op).

(** ** The program *)

Record response := { statusCode : Z; body : str }.

Section Program.

Variable rt : Runtime.
Variable w : World.

(** The text of [v] inside an f-string. *)
Definition fstr (v : pyval) : str :=
  match v with
  | PStr s => s
  | _ => repr rt v
  end.

(** [str(e)] *)
Definition str_of_exn (e : exn) : str :=
  match e with
  | ValueError m | Exception m => m
  | _ => library_message rt e
  end.

(** [len(v)] *)
Definition py_len (v : pyval) : outcome Z :=
  match v with
  | PStr s => Ok (Z.of_nat (List.length s))
  | PList l => Ok (Z.of_nat (List.length l))
  | PDict d => Ok (Z.of_nat (List.length d))
  | _ => Raise TypeError
  end.

(** [stream.read().decode("utf-8")]: a [PStr] stands for a stream with
    that decoded content. *)
Definition read_decode (v : pyval) : outcome str :=
  match v with
  | PStr s => Ok s
  | _ => Raise AttributeError
  end.

(** A call of an operation on a client: the world answers it and the
    request is logged, whether it succeeds or raises. *)
Definition call (c : service) (o : operation) : M pyval :=
  fun t => let r := {| client := c; op := o |} in (respond w t r, t ++ [r]).

Fixpoint convert_to_json_serializable (data : pyval) : pyval :=
  match data with
  | PDict d =>
      PDict (List.map (fun kv : str * pyval =>
                         let (key, value) := kv in
                         (key, convert_to_json_serializable value)) d)
  | PList l => PList (List.map convert_to_json_serializable l)
  | PDecimal d => PFloat (float_of_Decimal rt d)
  | PDatetime t => PStr (isoformat rt t)
  | _ => data
  end.

Definition get_guardduty_finding (client : service) (detector_id finding_id : pyval)
  : M pyval :=
  try_except
    (found <- call client (get_findings detector_id [finding_id]) ;;
     findings <- lift (py_getitem found (lit "Findings")) ;;
     lift (py_first findings))
    (fun e => raise e).

Definition get_graph_arn (client : service) : M pyval :=
  try_except
    (graphs <- call client list_graphs ;;
     graph_list <- lift (py_get graphs (lit "GraphList") (PList [])) ;;
     if negb (truthy graph_list)
     then raise (Exception (lit "No graphs found in Amazon Detective."))
     else
       graph_list <- lift (py_getitem graphs (lit "GraphList")) ;;
       graph <- lift (py_first graph_list) ;;
       lift (py_getitem graph (lit "Arn")))
    (fun e => raise e).

Definition get_all_detective_entities (client : service) (graph_arn : pyval)
  : M pyval :=
  try_except
    (members <- call client (list_members graph_arn) ;;
     all_members <- lift (py_get members (lit "MemberDetails") (PList [])) ;;
     lift (py_len all_members) ;;;
     ret all_members)
    (fun e => raise e).

(** The schedule expression of the one-time rule. *)
Definition cron_expression (future_time : datetime) : str :=
  lit "cron(" ++ str_of_Z (minute future_time) ++ lit " "
  ++ str_of_Z (hour future_time) ++ lit " "
  ++ str_of_Z (day future_time) ++ lit " "
  ++ str_of_Z (month future_time) ++ lit " ?"
  ++ lit " " ++ str_of_Z (year future_time) ++ lit ")".

Definition retry_rule_name (event_id : str) : str :=
  lit "RetryLambdaInvocation-" ++ event_id.

Definition schedule_retry (event : pyval) (context : LambdaContext) : M pyval :=
  let client := events in
  let delay_seconds := randint w 1 600 in
  let future_time := add_seconds (utcnow w) delay_seconds in
  let event_id := uuid4 w in
  extracted <-
    try_except
      (account_id <- lift (py_getitem event (lit "account")) ;;
       region <- lift (py_getitem event (lit "region")) ;;
       detail <- lift (py_getitem event (lit "detail")) ;;
       finding_id <- lift (py_getitem detail (lit "id")) ;;
       detail <- lift (py_getitem event (lit "detail")) ;;
       service <- lift (py_getitem detail (lit "service")) ;;
       detector_id <- lift (py_getitem service (lit "detectorId")) ;;
       ret (account_id, region, finding_id, detector_id))
      (fun e => match e with
                | KeyError _ => raise (ValueError (lit "Invalid event structure"))
                | _ => raise e
                end) ;;
  let '(account_id, region, finding_id, detector_id) := extracted in
  try_except
    (let rule_name := retry_rule_name event_id in
     call client (put_rule rule_name (cron_expression future_time) (lit "ENABLED")) ;;;
     let lambda_arn :=
       lit "arn:aws:lambda:" ++ fstr region ++ lit ":" ++ fstr account_id
       ++ lit ":function:" ++ function_name context in
     version <- lift (py_getitem event (lit "version")) ;;
     id <- lift (py_getitem event (lit "id")) ;;
     detail_type <- lift (py_getitem event (lit "detail-type")) ;;
     source <- lift (py_getitem event (lit "source")) ;;
     time <- lift (py_getitem event (lit "time")) ;;
     resources <- lift (py_getitem event (lit "resources")) ;;
     detail <- lift (py_getitem event (lit "detail")) ;;
     schemaVersion <- lift (py_getitem detail (lit "schemaVersion")) ;;
     detail <- lift (py_getitem event (lit "detail")) ;;
     partition <- lift (py_getitem detail (lit "partition")) ;;
     let replay :=
       PDict [ (lit "version", version); (lit "id", id);
               (lit "detail-type", detail_type); (lit "source", source);
               (lit "account", account_id); (lit "time", time);
               (lit "region", region); (lit "resources", resources);
               (lit "detail",
                 PDict [ (lit "schemaVersion", schemaVersion);
                         (lit "accountId", account_id);
                         (lit "region", region);
                         (lit "partition", partition);
                         (lit "id", finding_id);
                         (lit "service", PDict [(lit "detectorId", detector_id)]);
                         (lit "retryRuleName", PStr (retry_rule_name event_id)) ]) ] in
     call client (put_targets rule_name
                    [ {| Id := event_id; Arn := lambda_arn;
                         Input := json_dumps rt replay |} ]) ;;;
     ret (PStr (lit "rescheduled")))
    (fun e => ret PNone).

(** The instruction sent to the model. *)
Definition prompt (finding detective_entities : pyval) : str :=
  lit "You are a cybersecurity assistant that specializes in providing actionable"
  ++ lit " solutions for security threats detected by AWS services. Here is the"
  ++ lit " GuardDuty finding and relevant enrichment data from Amazon Detective:"
  ++ lit " " ++ json_dumps_indent4 rt finding ++ lit ". "
  ++ lit "Detective entities involved:"
  ++ lit " " ++ json_dumps_indent4 rt detective_entities ++ lit ". "
  ++ lit "Based on this information,determine if this was a successful breach or a blocked attempt. Also,"
  ++ lit " provide information on the entities involved and if a security group is"
  ++ lit " impacted and needs intervention.Also, provide specific actions I should take"
  ++ lit " to remediate this issue and prevent future occurrences. "
  ++ lit "The actions should come with a section header containing "
  ++ [dquote] ++ lit "Remediation Actions:" ++ [dquote].

(** The arguments of the request body: the fixed ones, then one for each
    environment variable named body_args_..., parsed as JSON when it can
    be. *)
Definition body_args (finding detective_entities : pyval) : list (str * pyval) :=
  fold_left
    (fun args kv =>
       let '(key, value) := kv in
       if startswith (lit "body_args_") key
       then let arg_name := skipn 10 key in
            dict_set arg_name
              (match json_loads rt value with
               | Some v => v
               | None => PStr value
               end) args
       else args)
    (environ w)
    [ (lit "messages",
        PList [ PDict [ (lit "role", PStr (lit "user"));
                        (lit "content", PStr (prompt finding detective_entities)) ] ]);
      (lit "max_tokens", PInt 5000);
      (* 0.7, as the binary64 value closest to it *)
      (lit "temperature", PFloat 0x1.6666666666666p-1%float) ].

Definition model_id : str :=
  match getenv (environ w) (lit "BEDROCK_MODEL_ID") with
  | Some m => m
  | None => lit "anthropic.claude-3-5-sonnet-20240620-v1:0"
  end.

Definition invoke_bedrock_model (client : service)
  (finding detective_entities event : pyval) (context : LambdaContext) : M pyval :=
  try_except
    (ai_response <-
       call client (invoke_model model_id (lit "application/json")
                      (json_dumps rt (PDict (body_args finding detective_entities)))) ;;
     stream <- lift (py_getitem ai_response (lit "body")) ;;
     text <- lift (read_decode stream) ;;
     ai_insights <- lift (match json_loads rt text with
                          | Some v => Ok v
                          | None => Raise JSONDecodeError
                          end) ;;
     content <- lift (py_get ai_insights (lit "content") (PList [PDict []])) ;;
     block <- lift (py_first content) ;;
     lift (py_get block (lit "text") (PStr [])))
    (fun e =>
       match e with
       | ClientError code =>
           if str_eqb code (lit "ThrottlingException")
           then schedule_retry event context
           else raise e
       | _ => raise e
       end).

(** *** Rendering *)

(** A call on the [FPDF] object: it raises what the library raises
    there, or is logged. *)
Definition pdf_call (o : fpdf_op) : PDF unit :=
  fun log => match fpdf_raises rt log o with
             | Some e => (Raise e, log)
             | None => (Ok tt, log ++ [o])
             end.

Fixpoint pdf_calls (ops : list fpdf_op) : PDF unit :=
  match ops with
  | [] => ret tt
  | o :: ops' => pdf_call o ;;; pdf_calls ops'
  end.

(** [for x in xs: body x] *)
Fixpoint for_each {S A} (xs : list A) (body : A -> SE S unit) : SE S unit :=
  match xs with
  | [] => ret tt
  | x :: xs' => body x ;;; for_each xs' body
  end.

Definition Arial : str := lit "Arial".
Definition Bold : str := lit "B".
Definition Regular : str := lit "".

Definition primary_headers : list str :=
  [lit "Analysis:"; lit "Remediation Actions:"; lit "Recommended Actions:"].

Definition secondary_headers : list str :=
  [lit "Entities Involved:"; lit "Security Group Impact:"; lit "Attempt Status:"].

(** [s in headers] *)
Definition str_in (s : str) (headers : list str) : bool :=
  existsb (str_eqb s) headers.

(** The body of the loop over the lines of the analysis: the calls made
    for one line. *)
Definition render_line (line : str) : list fpdf_op :=
  if str_in (strip line) primary_headers
  then [ set_font Arial Bold 12;
         cell 0 10 (PStr (strip line)) true (lit "") (lit "") ]
  else if str_in (strip line) secondary_headers
  then [ set_font Arial Bold 10;
         cell 0 10 (PStr (strip line)) true (lit "") (lit "") ]
  else [ set_font Arial Regular 10;
         multi_cell 0 10 (PStr (strip line)) ].

Definition guardduty_link (region finding_id : pyval) : str :=
  lit "https://" ++ fstr region ++ lit ".console.aws.amazon.com/guardduty/home?region="
  ++ fstr region ++ lit "#/findings?"
  ++ lit "search=id%3D" ++ fstr finding_id ++ lit "&macros=current".

Definition detective_link (region finding_id : pyval) : str :=
  lit "https://" ++ fstr region ++ lit ".console.aws.amazon.com/detective/home?region="
  ++ fstr region ++ lit "#search?"
  ++ lit "searchType=Finding&searchText=" ++ fstr finding_id.

Definition summary_text : str :=
  lit "The above insights and recommendations provide detailed information on mitigating the"
  ++ lit " identified threat. Please ensure the recommended security actions are promptly applied to"
  ++ lit " minimize future risks.".

(** The calls of [generate_pdf] on the [FPDF] object, and the bytes of
    the document. *)
Definition generate_pdf_calls (ai_insights guardduty_finding : pyval)
  : PDF (list byte) :=
  pdf_call FPDF_new ;;;
  pdf_call (set_auto_page_break true 15) ;;;
  pdf_call add_page ;;;
  pdf_call (set_font Arial Bold 16) ;;;
  pdf_call (cell 200 10 (PStr (lit "GuardDuty Finding Report")) true (lit "C") (lit "")) ;;;
  type <- lift (py_get guardduty_finding (lit "Type") (PStr (lit "N/A"))) ;;
  pdf_call (cell 200 10 type true (lit "C") (lit "")) ;;;
  pdf_call (set_font Arial Regular 12) ;;;
  pdf_call (cell 200 10 (PStr (lit "Generated on: " ++ isoformat rt (utcnow w)))
              true (lit "C") (lit "")) ;;;
  pdf_call (ln 10) ;;;
  pdf_call (set_font Arial Bold 14) ;;;
  pdf_call (cell 200 10 (PStr (lit "GuardDuty Finding Details")) true (lit "") (lit "")) ;;;
  pdf_call (set_font Arial Regular 12) ;;;
  type <- lift (py_get guardduty_finding (lit "Type") (PStr (lit "N/A"))) ;;
  id <- lift (py_get guardduty_finding (lit "Id") (PStr (lit "N/A"))) ;;
  severity <- lift (py_get guardduty_finding (lit "Severity") (PStr (lit "N/A"))) ;;
  account_id <- lift (py_get guardduty_finding (lit "AccountId") (PStr (lit "N/A"))) ;;
  region <- lift (py_get guardduty_finding (lit "Region") (PStr (lit "N/A"))) ;;
  let finding_details :=
    lit "Finding Type: " ++ fstr type ++ [newline]
    ++ lit "Finding ID: " ++ fstr id ++ [newline]
    ++ lit "Severity: " ++ fstr severity ++ [newline]
    ++ lit "Account ID: " ++ fstr account_id ++ [newline]
    ++ lit "Region: " ++ fstr region ++ [newline] in
  pdf_call (multi_cell 0 10 (PStr finding_details)) ;;;
  region <- lift (py_get guardduty_finding (lit "Region") (PStr (lit "us-east-1"))) ;;
  finding_id <- lift (py_get guardduty_finding (lit "Id") (PStr (lit "unknown"))) ;;
  pdf_call (ln 10) ;;;
  pdf_call (set_font Arial Bold 12) ;;;
  pdf_call (cell 200 10 (PStr (lit "Relevant Links")) true (lit "") (lit "")) ;;;
  pdf_call (set_font Arial Regular 12) ;;;
  pdf_call (set_text_color 0 0 255) ;;;
  pdf_call (cell 200 10 (PStr (lit "View Finding in GuardDuty Console")) true (lit "")
              (guardduty_link region finding_id)) ;;;
  pdf_call (cell 200 10 (PStr (lit "View Finding in Detective Console")) true (lit "")
              (detective_link region finding_id)) ;;;
  pdf_call (set_text_color 0 0 0) ;;;
  pdf_call (ln 10) ;;;
  pdf_call (set_font Arial Bold 14) ;;;
  pdf_call (cell 200 10 (PStr (lit "AI Insights")) true (lit "") (lit "")) ;;;
  stripped <- lift (py_strip ai_insights) ;;
  let insights_lines := re_split_blank_lines stripped in
  for_each insights_lines
    (fun section =>
       for_each (split newline section)
         (fun line => pdf_calls (render_line line)) ;;;
       pdf_call (ln 5)) ;;;
  pdf_call (ln 10) ;;;
  pdf_call (set_font Arial Bold 14) ;;;
  pdf_call (cell 200 10 (PStr (lit "Conclusion and Recommended Actions"))
              true (lit "") (lit "")) ;;;
  pdf_call (set_font Arial Regular 12) ;;;
  pdf_call (multi_cell 0 10 (PStr summary_text)) ;;;
  document <- (fun log => (fpdf_output rt (now w) log, log)) ;;
  lift (match encode_latin1 document with
        | Some pdf_output => Ok pdf_output
        | None => Raise UnicodeEncodeError
        end).

(** [generate_pdf]: the document buffer, read from its start. *)
Definition generate_pdf (ai_insights guardduty_finding : pyval) : outcome (list byte) :=
  fst (generate_pdf_calls ai_insights guardduty_finding []).

(** *** Publishing *)

Definition upload_pdf_to_s3 (client : service) (pdf_buffer : list byte)
  (file_name bucket_name : str) : M pyval :=
  try_except
    (call client (put_object bucket_name file_name pdf_buffer (lit "application/pdf")) ;;;
     pre_signed_url <-
       call client (generate_presigned_url (lit "get_object") bucket_name file_name 3600) ;;
     ret pre_signed_url)
    (fun e => raise e).

(** The URL as the notification carries it. *)
Definition encode_url (pre_signed_url : str) : str :=
  replace space (lit "%20") (strip pre_signed_url).

Definition email_message (encoded_url : str) : str :=
  lit "New GuardDuty finding. Enriched PDF with AI remediation's can be downloaded here: "
  ++ encoded_url.

Definition message_structure (encoded_url : str) : pyval :=
  PDict [ (lit "default",
            PStr (lit "New GuardDuty finding with enriched PDF. Click the link to download."));
          (lit "email", PStr (email_message encoded_url)) ].

Definition send_sns_notification (client : service) (pre_signed_url : pyval)
  (topic_arn : str) : M unit :=
  try_except
    (stripped <- lift (py_strip pre_signed_url) ;;
     let pre_signed_url := replace space (lit "%20") stripped in
     call client (publish topic_arn (json_dumps rt (message_structure pre_signed_url))
                    (lit "GuardDuty Finding Enrichment Report") (lit "json")) ;;;
     ret tt)
    (fun e => raise e).

Definition remove_retry_event_rule (client : service) (event_rule_name : pyval) : M unit :=
  try_except
    (call client (delete_rule event_rule_name) ;;; ret tt)
    (fun e => ret tt).

(** *** The handler *)

Definition skip_message (finding_id severity : pyval) : str :=
  lit "Finding " ++ fstr finding_id ++ lit " has severity of " ++ fstr severity
  ++ lit " not processing".

(** [if not v] for the value of [os.getenv]: unset or empty. *)
Definition unset (v : option str) : bool :=
  match v with
  | None | Some [] => true
  | Some _ => false
  end.

Definition env_value (v : option str) : str :=
  match v with
  | Some s => s
  | None => []
  end.

(** The body of the [try] of the handler: a result returned from inside
    it, or the analysis text with which the run goes on after it. *)
Definition process (event : pyval) (context : LambdaContext)
  (s3_bucket_name sns_topic_arn : str) : M (response + pyval) :=
  let detective_client := detective in
  let guardduty_client := guardduty in
  let bedrock_client := bedrock_runtime in
  let s3_client := s3 in
  let sns_client := sns in
  detail <- lift (py_getitem event (lit "detail")) ;;
  finding_id <- lift (py_getitem detail (lit "id")) ;;
  detail <- lift (py_getitem event (lit "detail")) ;;
  service <- lift (py_getitem detail (lit "service")) ;;
  detector_id <- lift (py_getitem service (lit "detectorId")) ;;
  finding <- get_guardduty_finding guardduty_client detector_id finding_id ;;
  severity <- lift (py_getitem finding (lit "Severity")) ;;
  low <- lift (lt_4_0 severity) ;;
  if low
  then ret (inl {| statusCode := 200;
                   body := json_dumps rt (PStr (skip_message finding_id severity)) |})
  else
    graph_arn <- get_graph_arn detective_client ;;
    detective_entities <- get_all_detective_entities detective_client graph_arn ;;
    let finding := convert_to_json_serializable finding in
    let detective_entities := convert_to_json_serializable detective_entities in
    ai_insights <-
      invoke_bedrock_model bedrock_client finding detective_entities event context ;;
    if eq_str ai_insights (lit "rescheduled")
    then ret (inl {| statusCode := 200;
                     body := json_dumps rt (PStr (lit "Event scheduled.")) |})
    else
      pdf_buffer <- lift (generate_pdf ai_insights finding) ;;
      let file_name := fstr finding_id ++ lit ".pdf" in
      pre_signed_url <- upload_pdf_to_s3 s3_client pdf_buffer file_name s3_bucket_name ;;
      send_sns_notification sns_client pre_signed_url sns_topic_arn ;;;
      detail <- lift (py_getitem event (lit "detail")) ;;
      retry_rule_name <- lift (py_get detail (lit "retryRuleName") PNone) ;;
      (if truthy retry_rule_name
       then remove_retry_event_rule sns_client retry_rule_name
       else ret tt) ;;;
      ret (inr ai_insights).

(** The first statement of [lambda_handler] (index.py:451), which logs
    the event: [json.dumps(event, indent=4)] raises TypeError for an
    event that is not JSON data. *)
Definition received (event : pyval) : M unit :=
  if json_clean event then ret tt else raise TypeError.

(** The statements of [lambda_handler] that follow the log of the event
    (index.py:452-520): [Raise] is an exception that leaves the handler.
    The event of a Lambda invocation is decoded from JSON, so the log
    does not raise on it; [lambda_handler_entry] below is the handler
    from its first statement, on any value. *)
Definition lambda_handler (event : pyval) (context : LambdaContext) : M response :=
  let sns_topic_arn := getenv (environ w) (lit "AI_REPORTS_TOPIC_ARN") in
  let s3_bucket_name := getenv (environ w) (lit "AI_REPORTS_BUCKET_NAME") in
  if unset s3_bucket_name
  then raise (ValueError (lit "Environment variable AI_REPORTS_BUCKET_NAME is not set"))
  else if unset sns_topic_arn
  then raise (ValueError (lit "Environment variable AI_REPORTS_TOPIC_ARN is not set"))
  else
    done <-
      try_except
        (process event context (env_value s3_bucket_name) (env_value sns_topic_arn))
        (fun e =>
           ret (inl {| statusCode := 500;
                       body := json_dumps rt
                                 (PStr (lit "Error in processing: " ++ str_of_exn e)) |})) ;;
    match done with
    | inl result => ret result
    | inr ai_insights =>
        ret {| statusCode := 200; body := json_dumps rt ai_insights |}
    end.

(** [lambda_handler] from its first statement. *)
Definition lambda_handler_entry (event : pyval) (context : LambdaContext) : M response :=
  received event ;;; lambda_handler event context.

End Program.

(** ** The functions that the handler does not call *)

(** [str(data)] of a float does not raise, so the branch that returns
    "0" is never taken. *)
Fixpoint convert_to_string (rt : Runtime) (data : pyval) : pyval :=
  match data with
  | PDict d =>
      PDict (List.map (fun kv : str * pyval =>
                         let (key, value) := kv in
                         (key, convert_to_string rt value)) d)
  | PList l => PList (List.map (convert_to_string rt) l)
  | PFloat f => PStr (fstr rt (PFloat f))
  | _ => data
  end.

(** The operations of the Detective client that only these functions
    call, with their keyword arguments. *)
Inductive detective_read :=
| GetMembers (GraphArn : pyval) (AccountIds : list pyval)
| ListDatasourcePackages (GraphArn : pyval).

Section DetectiveReads.

(** The answers of the graph source, which may depend on the reads
    already made. *)
Variable answer : list detective_read -> detective_read -> outcome pyval.

Definition read (o : detective_read) : SE (list detective_read) pyval :=
  fun t => (answer t o, t ++ [o]).

Definition get_entity_details (graph_arn account_id : pyval)
  : SE (list detective_read) pyval :=
  try_except
    (entity_data <- read (GetMembers graph_arn [account_id]) ;;
     members <- lift (py_getitem entity_data (lit "MemberDetails")) ;;
     lift (py_first members))
    (fun e => raise e).

Definition list_datasource_packages (graph_arn : pyval)
  : SE (list detective_read) pyval :=
  try_except
    (packages <- read (ListDatasourcePackages graph_arn) ;;
     lift (py_getitem packages (lit "DatasourcePackages")))
    (fun e => ret PNone).

End DetectiveReads.

(** ** A sample library, event and world

    The data of the repository's tests (app/tests/conftest.py), with a
    small library in place of the Python one, to run the handler on. *)

Module Sample.

Definition quoted (s : str) : str := [dquote] ++ s ++ [dquote].

(** A compact serialiser, for text that needs no escape. *)
Fixpoint dumps (v : pyval) : str :=
  match v with
  | PNone => lit "null"
  | PBool true => lit "true"
  | PBool false => lit "false"
  | PInt n => str_of_Z n
  | PFloat _ => lit "<float>"
  | PStr s => quoted s
  | PDecimal _ => lit "<Decimal>"
  | PDatetime _ => lit "<datetime>"
  | PList l =>
      lit "[" ++
      (fix items (l : list pyval) : str :=
         match l with
         | [] => []
         | [x] => dumps x
         | x :: l' => dumps x ++ lit ", " ++ items l'
         end) l ++ lit "]"
  | PDict d =>
      lit "{" ++
      (fix items (d : list (str * pyval)) : str :=
         match d with
         | [] => []
         | [(k, x)] => quoted k ++ lit ": " ++ dumps x
         | (k, x) :: d' => quoted k ++ lit ": " ++ dumps x ++ lit ", " ++ items d'
         end) d ++ lit "}"
  end.

Definition insights : pyval := PStr (lit "Test AI Insights").

(** The response bodies of the model that the sample library parses. *)
Definition body_with_text : str :=
  dumps (PDict [(lit "content", PList [PDict [(lit "text", insights)]])]).
Definition body_without_text : str :=
  dumps (PDict [(lit "content", PList [PDict [(lit "type", PStr (lit "text"))]])]).
Definition body_without_content : str :=
  dumps (PDict [(lit "id", PStr (lit "msg_01"))]).
Definition body_with_empty_content : str :=
  dumps (PDict [(lit "content", PList [])]).

Definition loads (s : str) : option pyval :=
  if str_eqb s body_with_text
  then Some (PDict [(lit "content", PList [PDict [(lit "text", insights)]])])
  else if str_eqb s body_without_text
  then Some (PDict [(lit "content", PList [PDict [(lit "type", PStr (lit "text"))]])])
  else if str_eqb s body_without_content
  then Some (PDict [(lit "id", PStr (lit "msg_01"))])
  else if str_eqb s body_with_empty_content
  then Some (PDict [(lit "content", PList [])])
  else None.

Definition iso (t : datetime) : str :=
  str_of_Z (year t) ++ lit "-" ++ str_of_Z (month t) ++ lit "-" ++ str_of_Z (day t)
  ++ lit "T" ++ str_of_Z (hour t) ++ lit ":" ++ str_of_Z (minute t) ++ lit ":"
  ++ str_of_Z (second t).

Definition runtime : Runtime :=
  {| json_dumps := dumps;
     json_dumps_indent4 := dumps;
     json_loads := loads;
     repr := dumps;
     library_message := fun _ => lit "error";
     float_of_Decimal := fun _ => 0%float;
     isoformat := iso;
     fpdf_raises := fun _ _ => None;
     fpdf_output := fun now log =>
       Ok (lit "%PDF-1.3 " ++ iso now ++ lit " "
           ++ str_of_Z (Z.of_nat (List.length log))) |}.

Definition FINDING_ID : str := lit "test_finding_id".
Definition DETECTOR_ID : str := lit "sample-detector".
Definition ACCOUNT_ID : str := lit "123456789012".
Definition REGION : str := lit "us-east-1".
Definition S3_BUCKET_NAME : str := lit "test-bucket".
Definition SNS_TOPIC_ARN : str := lit "arn:aws:sns:us-east-1:123456789012:my-test-topic".
Definition MARKER : str := lit "RetryLambdaInvocation-0001".

Definition detail (marker : list (str * pyval)) : pyval :=
  PDict ([ (lit "schemaVersion", PStr (lit "2.0"));
           (lit "accountId", PStr ACCOUNT_ID);
           (lit "region", PStr REGION);
           (lit "id", PStr FINDING_ID);
           (lit "partition", PStr (lit "aws"));
           (lit "service", PDict [ (lit "serviceName", PStr (lit "guardduty"));
                                   (lit "detectorId", PStr DETECTOR_ID) ]) ]
         ++ marker).

Definition event_with (marker : list (str * pyval)) : pyval :=
  PDict [ (lit "version", PStr (lit "0"));
          (lit "id", PStr (lit "sample-event-id"));
          (lit "detail-type", PStr (lit "GuardDuty Finding"));
          (lit "source", PStr (lit "aws.guardduty"));
          (lit "account", PStr ACCOUNT_ID);
          (lit "time", PStr (lit "2024-10-18T11:40:01Z"));
          (lit "region", PStr REGION);
          (lit "resources", PList []);
          (lit "detail", detail marker) ].

Definition EVENT : pyval := event_with [].

(** The event that a retry rule replays. *)
Definition RETRY_EVENT : pyval := event_with [(lit "retryRuleName", PStr MARKER)].

Definition context : LambdaContext := {| function_name := lit "test" |}.

Definition finding (severity : pyval) : pyval :=
  PDict [ (lit "Id", PStr FINDING_ID);
          (lit "Severity", severity);
          (lit "Type", PStr (lit "UnauthorizedAccess:EC2/SSHBruteForce"));
          (lit "AccountId", PStr ACCOUNT_ID);
          (lit "Region", PStr REGION) ].

Definition MEMBER_DETAILS : pyval :=
  PList [ PDict [ (lit "AccountId", PStr ACCOUNT_ID);
                  (lit "Email", PStr (lit "test@example.com")) ] ].

Definition environment : list (str * str) :=
  [ (lit "AWS_REGION", REGION);
    (lit "AI_REPORTS_TOPIC_ARN", SNS_TOPIC_ARN);
    (lit "AI_REPORTS_BUCKET_NAME", S3_BUCKET_NAME);
    (lit "BEDROCK_MODEL_ID", lit "anthropic.claude-3-5-sonnet-20240620-v1:0");
    (lit "body_args_anthropic_version", lit "dummy") ].

(** The answers of the services: the finding has the given severity, the
    model answers [model], the scheduler answers [scheduler], and the
    notification client has no operation to delete a rule. *)
Definition answers (severity : pyval) (model scheduler : outcome pyval)
  (history : list request) (r : request) : outcome pyval :=
  match op r with
  | get_findings _ _ => Ok (PDict [(lit "Findings", PList [finding severity])])
  | list_graphs =>
      Ok (PDict [ (lit "GraphList", PList [PDict [(lit "Arn", PStr (lit "test_graph_arn"))]]);
                  (lit "NextToken", PNone) ])
  | list_members _ =>
      Ok (PDict [(lit "MemberDetails", MEMBER_DETAILS); (lit "NextToken", PNone)])
  | invoke_model _ _ _ => model
  | put_rule _ _ _ | put_targets _ _ => scheduler
  | put_object _ _ _ _ => Ok PNone
  | generate_presigned_url _ _ _ _ => Ok (PStr (lit "https://dummyurl"))
  | publish _ _ _ _ => Ok PNone
  | delete_rule _ =>
      if service_eqb (client r) events then Ok PNone else Raise AttributeError
  end.

Definition world_with (env : list (str * str)) (severity : pyval)
  (model scheduler : outcome pyval) : World :=
  {| environ := env;
     respond := answers severity model scheduler;
     utcnow := {| year := 2024; month := 10; day := 18;
                  hour := 11; minute := 40; second := 1; microsecond := 0 |};
     now := {| year := 2024; month := 10; day := 18;
               hour := 11; minute := 40; second := 2; microsecond := 0 |};
     random_source := 1234;
     uuid4 := lit "52fdfc07-2182-154f-163f-5f0f9a621d72" |}.

(** The requests of a run of the sample event up to the analysis. *)
Definition enrichment_requests : list request :=
  [ {| client := guardduty; op := get_findings (PStr DETECTOR_ID) [PStr FINDING_ID] |};
    {| client := detective; op := list_graphs |};
    {| client := detective; op := list_members (PStr (lit "test_graph_arn")) |} ].

Definition answer_of (text : str) : outcome pyval :=
  Ok (PDict [(lit "body", PStr text)]).

Definition throttled : outcome pyval := Raise (ClientError (lit "ThrottlingException")).

(** The world of test_lambda_handler, with a finding of severity 6. *)
Definition world : World :=
  world_with environment (PInt 6) (answer_of body_with_text) (Ok PNone).

End Sample.

(** ** The vocabulary of the properties *)

(** [m] only adds requests that satisfy [P] to the log. *)
Definition emits {A} (P : request -> Prop) (m : M A) : Prop :=
  forall t, exists t', snd (m t) = t ++ t' /\ Forall P t'.

(** Both configuration values are set, and not empty. *)
Definition configured (w : World) (bucket topic : str) : Prop :=
  getenv (environ w) (lit "AI_REPORTS_BUCKET_NAME") = Some bucket /\ bucket <> []
  /\ getenv (environ w) (lit "AI_REPORTS_TOPIC_ARN") = Some topic /\ topic <> [].

(** The event carries detail.id and detail.service.detectorId. *)
Definition carries_ids (event finding_id detector_id : pyval) : Prop :=
  exists detail service,
    py_getitem event (lit "detail") = Ok detail
    /\ py_getitem detail (lit "id") = Ok finding_id
    /\ py_getitem detail (lit "service") = Ok service
    /\ py_getitem service (lit "detectorId") = Ok detector_id.

(** What the handler makes of the outcome of the body of its [try]. *)
Definition result_of (rt : Runtime) (done : outcome (response + pyval)) : response :=
  match done with
  | Ok (inl result) => result
  | Ok (inr ai_insights) =>
      {| statusCode := 200; body := json_dumps rt ai_insights |}
  | Raise e =>
      {| statusCode := 500;
         body := json_dumps rt (PStr (lit "Error in processing: " ++ str_of_exn rt e)) |}
  end.

(** The requests before the analysis and what they returned: the finding
    passed the severity gate and the graph members were read. *)
Definition enriched (w : World) (event finding_id finding entities : pyval)
  (t : list request) : Prop :=
  exists detector_id severity graph_arn t1 t2,
    carries_ids event finding_id detector_id
    /\ get_guardduty_finding w guardduty detector_id finding_id [] = (Ok finding, t1)
    /\ py_getitem finding (lit "Severity") = Ok severity
    /\ lt_4_0 severity = Ok false
    /\ get_graph_arn w detective t1 = (Ok graph_arn, t2)
    /\ get_all_detective_entities w detective graph_arn t2 = (Ok entities, t).

(** The run from the result of the analysis on. *)
Definition after_analysis (rt : Runtime) (w : World) (event : pyval)
  (s3_bucket_name sns_topic_arn : str) (finding_id finding ai_insights : pyval)
  : M (response + pyval) :=
  if eq_str ai_insights (lit "rescheduled")
  then ret (inl {| statusCode := 200;
                   body := json_dumps rt (PStr (lit "Event scheduled.")) |})
  else
    pdf_buffer <- lift (generate_pdf rt w ai_insights finding) ;;
    let file_name := fstr rt finding_id ++ lit ".pdf" in
    pre_signed_url <- upload_pdf_to_s3 w s3 pdf_buffer file_name s3_bucket_name ;;
    send_sns_notification rt w sns pre_signed_url sns_topic_arn ;;;
    detail <- lift (py_getitem event (lit "detail")) ;;
    retry_rule_name <- lift (py_get detail (lit "retryRuleName") PNone) ;;
    (if truthy retry_rule_name
     then remove_retry_event_rule w sns retry_rule_name
     else ret tt) ;;;
    ret (inr ai_insights).

(** A heading: the text in bold, at the size of its level, in one cell. *)
Definition heading (size : Z) (text : str) : list fpdf_op :=
  [ set_font Arial Bold size; cell 0 10 (PStr text) true (lit "") (lit "") ].

(** A body paragraph: the text in the normal style, in a flowing cell. *)
Definition paragraph (text : str) : list fpdf_op :=
  [ set_font Arial Regular 10; multi_cell 0 10 (PStr text) ].

Definition is_primary_header (s : str) : Prop :=
  s = lit "Analysis:" \/ s = lit "Remediation Actions:" \/ s = lit "Recommended Actions:".

Definition is_secondary_header (s : str) : Prop :=
  s = lit "Entities Involved:" \/ s = lit "Security Group Impact:"
  \/ s = lit "Attempt Status:".

(** The request that creates the one-time rule. *)
Definition rule_request (rt : Runtime) (w : World) (delay_seconds : Z) : request :=
  {| client := events;
     op := put_rule (retry_rule_name (uuid4 w))
             (cron_expression (add_seconds (utcnow w) delay_seconds))
             (lit "ENABLED") |}.

(** The request that gives the rule its target. *)
Definition targets_request (w : World) (targets : list target) : request :=
  {| client := events; op := put_targets (retry_rule_name (uuid4 w)) targets |}.

(** The request of the analysis, for a finding and graph members as the
    services returned them. *)
Definition analysis_request (rt : Runtime) (w : World) (finding entities : pyval)
  : request :=
  {| client := bedrock_runtime;
     op := invoke_model (model_id w) (lit "application/json")
             (json_dumps rt
                (PDict (body_args rt w (convert_to_json_serializable rt finding)
                          (convert_to_json_serializable rt entities)))) |}.

Definition has_key (v : pyval) (k : str) : Prop := exists x, py_getitem v k = Ok x.

(** The event has the fields that the replayed event copies. *)
Definition replayable (event : pyval) : Prop :=
  has_key event (lit "account") /\ has_key event (lit "region")
  /\ has_key event (lit "version") /\ has_key event (lit "id")
  /\ has_key event (lit "detail-type") /\ has_key event (lit "source")
  /\ has_key event (lit "time") /\ has_key event (lit "resources")
  /\ exists detail, py_getitem event (lit "detail") = Ok detail
       /\ has_key detail (lit "schemaVersion") /\ has_key detail (lit "partition").

(** The scheduler accepts the requests made to it. *)
Definition scheduler_accepts (w : World) : Prop :=
  (forall history name expression state, exists r,
      respond w history {| client := events; op := put_rule name expression state |}
      = Ok r)
  /\ (forall history rule targets, exists r,
      respond w history {| client := events; op := put_targets rule targets |} = Ok r).

(** The registration of the retry fails: the creation of the rule
    raises, or giving the rule its target does. *)
Definition registration_fails (rt : Runtime) (w : World) (t : list request) : Prop :=
  (exists e, respond w t (rule_request rt w (randint w 1 600)) = Raise e)
  \/ (exists e, forall targets,
        respond w (t ++ [rule_request rt w (randint w 1 600)])
          (targets_request w targets) = Raise e).

(** [v >= 4.0] for a number [v]. *)
Definition ge_4_0 (v : pyval) : bool :=
  match v with
  | PFloat f => (4.0 <=? f)%float
  | PInt n => 4 <=? n
  | PDecimal (Dfinite s c e) =>
      match Qcompare (Decimal_value s c e) (4 # 1) with Lt => false | _ => true end
  | PDecimal (Dinfinity negative) => negb negative
  | _ => false
  end.

(** The analysis returned a text to publish. *)
Definition analysed (rt : Runtime) (w : World) (event : pyval) (context : LambdaContext)
  (finding_id finding ai_insights : pyval) (t : list request) : Prop :=
  exists entities t0,
    enriched w event finding_id finding entities t0
    /\ invoke_bedrock_model rt w bedrock_runtime
         (convert_to_json_serializable rt finding)
         (convert_to_json_serializable rt entities) event context t0
       = (Ok ai_insights, t)
    /\ eq_str ai_insights (lit "rescheduled") = false.

(** The object key of the report. *)
Definition report_key (rt : Runtime) (finding_id : pyval) : str :=
  fstr rt finding_id ++ lit ".pdf".

Definition put_request (rt : Runtime) (bucket : str) (finding_id : pyval)
  (pdf : list byte) : request :=
  {| client := s3;
     op := put_object bucket (report_key rt finding_id) pdf (lit "application/pdf") |}.

Definition presign_request (rt : Runtime) (bucket : str) (finding_id : pyval) : request :=
  {| client := s3;
     op := generate_presigned_url (lit "get_object") bucket
             (report_key rt finding_id) 3600 |}.

Definition notification_request (rt : Runtime) (topic url : str) : request :=
  {| client := sns;
     op := publish topic (json_dumps rt (message_structure (encode_url url)))
             (lit "GuardDuty Finding Enrichment Report") (lit "json") |}.

(** The event carries a retry marker. *)
Definition carries_marker (event name : pyval) : Prop :=
  exists detail,
    py_getitem event (lit "detail") = Ok detail
    /\ py_get detail (lit "retryRuleName") PNone = Ok name
    /\ truthy name = true.

(** The run from the upload of the report on. *)
Definition publish_and_clean (rt : Runtime) (w : World) (event : pyval)
  (s3_bucket_name sns_topic_arn : str) (finding_id ai_insights : pyval)
  (pdf_buffer : list byte) : M (response + pyval) :=
  pre_signed_url <-
    upload_pdf_to_s3 w s3 pdf_buffer (report_key rt finding_id) s3_bucket_name ;;
  send_sns_notification rt w sns pre_signed_url sns_topic_arn ;;;
  detail <- lift (py_getitem event (lit "detail")) ;;
  retry_rule_name <- lift (py_get detail (lit "retryRuleName") PNone) ;;
  (if truthy retry_rule_name
   then remove_retry_event_rule w sns retry_rule_name
   else ret tt) ;;;
  ret (inr ai_insights).

(** The world of the tests, where the object store returns [url]. *)
Definition world_with_url (url : str) : World :=
  {| environ := Sample.environment;
     respond := fun history r =>
       match op r with
       | generate_presigned_url _ _ _ _ => Ok (PStr url)
       | _ => Sample.answers (PInt 6) (Sample.answer_of Sample.body_with_text)
                (Ok PNone) history r
       end;
     utcnow := utcnow Sample.world;
     now := now Sample.world;
     random_source := 0;
     uuid4 := uuid4 Sample.world |}.

(** The world of the tests where Detective is not enabled: the graph
    source lists no graph. *)
Definition world_without_graph : World :=
  {| environ := Sample.environment;
     respond := fun history r =>
       match op r with
       | list_graphs => Ok (PDict [(lit "GraphList", PList [])])
       | _ => respond Sample.world history r
       end;
     utcnow := utcnow Sample.world;
     now := now Sample.world;
     random_source := random_source Sample.world;
     uuid4 := uuid4 Sample.world |}.

Definition sample_pdf : list byte :=
  match generate_pdf Sample.runtime Sample.world Sample.insights
          (Sample.finding (PInt 6)) with
  | Ok pdf => pdf
  | Raise _ => []
  end.

(** A computation that never returns a value. *)
Definition never_returns {S A} (m : SE S A) : Prop :=
  forall s, exists e s', m s = (Raise e, s').

(** The PDF library raises on no call. *)
Definition quiet (rt : Runtime) : Prop :=
  forall log o, fpdf_raises rt log o = None.

(** The calls that render the analysis text: the lines of each group of
    lines, then a separator. *)
Definition analysis_calls (text : str) : list fpdf_op :=
  flat_map (fun section => flat_map render_line (split newline section) ++ [ln 5])
    (re_split_blank_lines (strip text)).

(** The calls that close the document. *)
Definition closing_calls : list fpdf_op :=
  [ ln 10; set_font Arial Bold 14;
    cell 200 10 (PStr (lit "Conclusion and Recommended Actions")) true (lit "") (lit "");
    set_font Arial Regular 12; multi_cell 0 10 (PStr summary_text) ].

(** A value without float, at any depth. *)
Fixpoint float_free (v : pyval) : bool :=
  match v with
  | PFloat _ => false
  | PList l => forallb float_free l
  | PDict d => forallb (fun kv : str * pyval => let (_, x) := kv in float_free x) d
  | _ => true
  end.

(** The keys of a [dict], in order. *)
Definition keys (d : list (str * pyval)) : list str := List.map fst d.

(** [f] on the value of an outcome. *)
Definition outcome_map {A B} (f : A -> B) (o : outcome A) : outcome B :=
  match o with
  | Ok a => Ok (f a)
  | Raise e => Raise e
  end.

(** The value that an environment variable gives to a body argument:
    its text parsed as JSON when it can be, the text itself otherwise. *)
Definition parsed (rt : Runtime) (value : str) : pyval :=
  match json_loads rt value with
  | Some v => v
  | None => PStr value
  end.

(** The body of the loop over the environment in [invoke_bedrock_model]. *)
Definition add_body_arg (rt : Runtime) (args : list (str * pyval)) (kv : str * str)
  : list (str * pyval) :=
  let '(key, value) := kv in
  if startswith (lit "body_args_") key
  then dict_set (skipn 10 key) (parsed rt value) args
  else args.

(** The sample library, with every text parsed as [v]. *)
Definition runtime_parsing (v : pyval) : Runtime :=
  {| json_dumps := Sample.dumps;
     json_dumps_indent4 := Sample.dumps;
     json_loads := fun _ => Some v;
     repr := Sample.dumps;
     library_message := library_message Sample.runtime;
     float_of_Decimal := float_of_Decimal Sample.runtime;
     isoformat := Sample.iso;
     fpdf_raises := fun _ _ => None;
     fpdf_output := fpdf_output Sample.runtime |}.

(** The status of a result returned from inside the [try] is 200. *)
Definition returned_ok (done : response + pyval) : Prop :=
  match done with
  | inl result => statusCode result = 200
  | inr _ => True
  end.

(** Every value that [m] returns satisfies [P]. *)
Definition returns {S A} (P : A -> Prop) (m : SE S A) : Prop :=
  forall t a t', m t = (Ok a, t') -> P a.

(** The value of a field of the finding, or its default. *)
Definition field (finding : list (str * pyval)) (k : str) (default : pyval) : pyval :=
  match dict_get k finding with
  | Some x => x
  | None => default
  end.

(** The calls of [generate_pdf] before the analysis text, for a finding
    that is a dict. *)
Definition opening_calls (rt : Runtime) (w : World) (finding : list (str * pyval))
  : list fpdf_op :=
  [ FPDF_new; set_auto_page_break true 15; add_page;
    set_font Arial Bold 16;
    cell 200 10 (PStr (lit "GuardDuty Finding Report")) true (lit "C") (lit "");
    cell 200 10 (field finding (lit "Type") (PStr (lit "N/A"))) true (lit "C") (lit "");
    set_font Arial Regular 12;
    cell 200 10 (PStr (lit "Generated on: " ++ isoformat rt (utcnow w)))
      true (lit "C") (lit "");
    ln 10;
    set_font Arial Bold 14;
    cell 200 10 (PStr (lit "GuardDuty Finding Details")) true (lit "") (lit "");
    set_font Arial Regular 12;
    multi_cell 0 10
      (PStr (lit "Finding Type: "
             ++ fstr rt (field finding (lit "Type") (PStr (lit "N/A"))) ++ [newline]
             ++ lit "Finding ID: "
             ++ fstr rt (field finding (lit "Id") (PStr (lit "N/A"))) ++ [newline]
             ++ lit "Severity: "
             ++ fstr rt (field finding (lit "Severity") (PStr (lit "N/A"))) ++ [newline]
             ++ lit "Account ID: "
             ++ fstr rt (field finding (lit "AccountId") (PStr (lit "N/A"))) ++ [newline]
             ++ lit "Region: "
             ++ fstr rt (field finding (lit "Region") (PStr (lit "N/A"))) ++ [newline]));
    ln 10;
    set_font Arial Bold 12;
    cell 200 10 (PStr (lit "Relevant Links")) true (lit "") (lit "");
    set_font Arial Regular 12;
    set_text_color 0 0 255;
    cell 200 10 (PStr (lit "View Finding in GuardDuty Console")) true (lit "")
      (guardduty_link rt (field finding (lit "Region") (PStr (lit "us-east-1")))
         (field finding (lit "Id") (PStr (lit "unknown"))));
    cell 200 10 (PStr (lit "View Finding in Detective Console")) true (lit "")
      (detective_link rt (field finding (lit "Region") (PStr (lit "us-east-1")))
         (field finding (lit "Id") (PStr (lit "unknown"))));
    set_text_color 0 0 0;
    ln 10;
    set_font Arial Bold 14;
    cell 200 10 (PStr (lit "AI Insights")) true (lit "") (lit "") ].

(** The calls of [generate_pdf] for a text and a finding that is a dict. *)
Definition document_calls (rt : Runtime) (w : World) (text : str)
  (finding : list (str * pyval)) : list fpdf_op :=
  opening_calls rt w finding ++ analysis_calls text ++ closing_calls.

(** The text of a value in an f-string: a text as it is, another value
    as the library prints it. *)
Definition shown (rt : Runtime) (v : pyval) : str :=
  match v with
  | PStr s => s
  | _ => repr rt v
  end.







(** An analysis text with headers of both levels, and a line that is a
    header but for its case. *)
Definition scenario : str :=
  lit "Analysis:" ++ [newline] ++ lit "Breach detected." ++ [newline]
  ++ lit " Attempt Status: " ++ [newline; newline]
  ++ lit "Remediation Actions:" ++ [newline] ++ lit "remediation actions:".

(** The lines of a text, by groups: the groups are separated by blank
    lines, the lines of a group by line breaks. *)
Definition line_groups (text : str) : list (list str) :=
  List.map (split newline) (re_split_blank_lines (strip text)).

(** The block of calls that renders a line: a heading in the primary
    style for a primary header, a heading in the secondary style for a
    secondary header, a body paragraph for any other line; each carries
    the trimmed text of the line. *)
Definition line_block (line : str) (b : list fpdf_op) : Prop :=
  (is_primary_header (strip line) /\ b = heading 12 (strip line))
  \/ (is_secondary_header (strip line) /\ b = heading 10 (strip line))
  \/ (~ is_primary_header (strip line) /\ ~ is_secondary_header (strip line)
      /\ b = paragraph (strip line)).

(** The calls of a rendering whose lines are rendered by [blocks], group
    by group, with a separator after each group. *)
Definition rendered_groups (blocks : list (list (list fpdf_op))) : list fpdf_op :=
  flat_map (fun group => List.concat group ++ [ln 5]) blocks.


(** ** Running a computation *)

Section Running.

Context {S A B : Type}.

Lemma bind_Ok (m : SE S A) (k : A -> SE S B) t a t' :
  m t = (Ok a, t') -> bind m k t = k a t'.
Proof. intros H. unfold bind. now rewrite H. Qed.

Lemma bind_Raise (m : SE S A) (k : A -> SE S B) t e t' :
  m t = (Raise e, t') -> bind m k t = (Raise e, t').
Proof. intros H. unfold bind. now rewrite H. Qed.

Lemma bind_lift (o : outcome A) (k : A -> SE S B) t a :
  o = Ok a -> bind (lift o) k t = k a t.
Proof. intros ->. reflexivity. Qed.

Lemma try_except_Ok (m : SE S A) h t a t' :
  m t = (Ok a, t') -> try_except m h t = (Ok a, t').
Proof. intros H. unfold try_except. now rewrite H. Qed.

Lemma try_except_Raise (m : SE S A) h t e t' :
  m t = (Raise e, t') -> try_except m h t = h e t'.
Proof. intros H. unfold try_except. now rewrite H. Qed.

(** A handler that raises the exception again changes nothing. *)
Lemma try_except_reraise (m : SE S A) t :
  try_except m (fun e => raise e) t = m t.
Proof. unfold try_except, raise. destruct (m t) as [[a | e] t']; reflexivity. Qed.

End Running.

Lemma str_eqb_refl (s : str) : str_eqb s s = true.
Proof. unfold str_eqb. destruct (list_eq_dec N.eq_dec s s); congruence. Qed.

Lemma str_eqb_eq (a b : str) : str_eqb a b = true <-> a = b.
Proof.
  unfold str_eqb. destruct (list_eq_dec N.eq_dec a b); split; congruence.
Qed.

Lemma str_in_In (s : str) (headers : list str) :
  str_in s headers = true <-> In s headers.
Proof.
  unfold str_in. rewrite existsb_exists. split.
  - intros [h [Hin Heq]]. apply str_eqb_eq in Heq. now subst.
  - intros Hin. exists s. split; [assumption | apply str_eqb_refl].
Qed.

(** ** The requests of a computation *)

Section Requests.

Variable w : World.

Lemma emits_ret {A} P (a : A) : emits P (ret a).
Proof. intros t. exists []. rewrite app_nil_r. auto. Qed.

Lemma emits_raise {A} P e : emits P (@raise _ A e).
Proof. intros t. exists []. rewrite app_nil_r. auto. Qed.

Lemma emits_lift {A} P (o : outcome A) : emits P (lift o).
Proof. intros t. exists []. rewrite app_nil_r. auto. Qed.

Lemma emits_call (P : request -> Prop) c o :
  P {| client := c; op := o |} -> emits P (call w c o).
Proof. intros H t. exists [{| client := c; op := o |}]. simpl. auto. Qed.

Lemma emits_bind {A B} P (m : M A) (k : A -> M B) :
  emits P m -> (forall a, emits P (k a)) -> emits P (bind m k).
Proof.
  intros Hm Hk t. unfold bind. destruct (Hm t) as [t1 [E1 F1]].
  destruct (m t) as [[a | e] t'] eqn:E; simpl in E1; subst t'.
  - destruct (Hk a (t ++ t1)) as [t2 [E2 F2]]. exists (t1 ++ t2).
    rewrite E2, app_assoc. split; [reflexivity | now apply Forall_app].
  - exists t1. auto.
Qed.

Lemma emits_try_except {A} P (m : M A) h :
  emits P m -> (forall e, emits P (h e)) -> emits P (try_except m h).
Proof.
  intros Hm Hh t. unfold try_except. destruct (Hm t) as [t1 [E1 F1]].
  destruct (m t) as [[a | e] t'] eqn:E; simpl in E1; subst t'.
  - exists t1. auto.
  - destruct (Hh e (t ++ t1)) as [t2 [E2 F2]]. exists (t1 ++ t2).
    rewrite E2, app_assoc. split; [reflexivity | now apply Forall_app].
Qed.

Lemma emits_if {A} P (b : bool) (m1 m2 : M A) :
  emits P m1 -> emits P m2 -> emits P (if b then m1 else m2).
Proof. destruct b; auto. Qed.

End Requests.

(** The requests of the functions that make one call. *)
Ltac one_call :=
  intros; rewrite ?try_except_reraise; unfold bind, call, lift, ret, raise;
  repeat match goal with
         | |- context [match ?x with _ => _ end] => destruct x; simpl; try reflexivity
         end.

Lemma get_guardduty_finding_requests w c detector_id finding_id t :
  snd (get_guardduty_finding w c detector_id finding_id t)
  = t ++ [{| client := c; op := get_findings detector_id [finding_id] |}].
Proof. unfold get_guardduty_finding. one_call. Qed.

Lemma get_graph_arn_requests w c t :
  snd (get_graph_arn w c t) = t ++ [{| client := c; op := list_graphs |}].
Proof. unfold get_graph_arn. one_call. Qed.

Lemma get_all_detective_entities_requests w c graph_arn t :
  snd (get_all_detective_entities w c graph_arn t)
  = t ++ [{| client := c; op := list_members graph_arn |}].
Proof. unfold get_all_detective_entities. one_call. Qed.

(** ** The handler and the body of its [try] *)

Lemma unset_false (s : str) : s <> [] -> unset (Some s) = false.
Proof. destruct s; [congruence | reflexivity]. Qed.

Lemma lambda_handler_process rt w event context bucket topic t :
  configured w bucket topic ->
  lambda_handler rt w event context t
  = (Ok (result_of rt (fst (process rt w event context bucket topic t))),
     snd (process rt w event context bucket topic t)).
Proof.
  intros (Hb & Hb' & Ht & Ht'). unfold lambda_handler.
  rewrite Hb, Ht, (unset_false _ Hb'), (unset_false _ Ht'). simpl env_value.
  unfold bind, try_except, ret.
  destruct (process rt w event context bucket topic t) as [[[r | ai] | e] t'];
    reflexivity.
Qed.

Ltac step_lift :=
  match goal with
  | H : ?o = Ok _ |- context [bind (lift ?o) _ _] => rewrite (bind_lift o _ _ _ H)
  end.

Ltac step_call :=
  match goal with
  | H : ?m ?t = (Ok _, _) |- context [bind ?m _ ?t] => rewrite (bind_Ok m _ t _ _ H)
  end.

Lemma process_enriched rt w event context bucket topic finding_id finding entities t :
  enriched w event finding_id finding entities t ->
  process rt w event context bucket topic []
  = bind (invoke_bedrock_model rt w bedrock_runtime
            (convert_to_json_serializable rt finding)
            (convert_to_json_serializable rt entities) event context)
         (after_analysis rt w event bucket topic finding_id
            (convert_to_json_serializable rt finding)) t.
Proof.
  intros (detector_id & severity & graph_arn & t1 & t2
          & (detail & service & Hd & Hi & Hs & Hdet) & Hf & Hsev & Hlow & Hg & He).
  unfold process. repeat step_lift. step_call. repeat step_lift.
  step_call. step_call. reflexivity.
Qed.

Lemma enriched_requests w event finding_id finding entities t :
  enriched w event finding_id finding entities t ->
  exists detector_id graph_arn,
    t = [ {| client := guardduty; op := get_findings detector_id [finding_id] |};
          {| client := detective; op := list_graphs |};
          {| client := detective; op := list_members graph_arn |} ].
Proof.
  intros (detector_id & severity & graph_arn & t1 & t2 & _ & Hf & _ & _ & Hg & He).
  exists detector_id, graph_arn.
  apply (f_equal snd) in Hf, Hg, He. simpl in Hf, Hg, He.
  rewrite get_guardduty_finding_requests in Hf.
  rewrite get_graph_arn_requests in Hg.
  rewrite get_all_detective_entities_requests in He.
  subst. reflexivity.
Qed.

(** ** The severity gate *)

(** C1. A run whose fetched finding has a severity below 4.0 makes no
    request besides the fetch of the finding (none to the graph source,
    the model, the object store, the notification topic or the
    scheduler), and returns status 200 with, as body, the JSON text of
    the sentence "Finding <id> has severity of <severity> not
    processing", which names the finding and its severity. *)
Theorem low_severity_is_skipped rt w event context bucket topic
    finding_id detector_id finding severity t1 :
  configured w bucket topic ->
  carries_ids event finding_id detector_id ->
  get_guardduty_finding w guardduty detector_id finding_id [] = (Ok finding, t1) ->
  py_getitem finding (lit "Severity") = Ok severity ->
  lt_4_0 severity = Ok true ->
  lambda_handler rt w event context []
  = (Ok {| statusCode := 200;
           body := json_dumps rt
                     (PStr (lit "Finding " ++ shown rt finding_id
                            ++ lit " has severity of " ++ shown rt severity
                            ++ lit " not processing")) |},
     [ {| client := guardduty; op := get_findings detector_id [finding_id] |} ]).
Proof.
  intros Hcfg (detail & service & Hd & Hi & Hs & Hdet) Hf Hsev Hlow.
  rewrite (lambda_handler_process _ _ _ _ _ _ _ Hcfg).
  assert (Ht1 : t1 = [ {| client := guardduty; op := get_findings detector_id [finding_id] |} ]).
  { apply (f_equal snd) in Hf. simpl in Hf.
    now rewrite get_guardduty_finding_requests in Hf. }
  unfold process. repeat step_lift. step_call. repeat step_lift.
  subst t1. reflexivity.
Qed.

Lemma low_severity_is_skipped_witness :
  lambda_handler Sample.runtime
    (Sample.world_with Sample.environment (PInt 3)
       (Sample.answer_of Sample.body_with_text) (Ok PNone))
    Sample.EVENT Sample.context []
  = (Ok {| statusCode := 200;
           body := [dquote]
                   ++ lit "Finding test_finding_id has severity of 3 not processing"
                   ++ [dquote] |},
     [ {| client := guardduty;
          op := get_findings (PStr (lit "sample-detector"))
                  [PStr (lit "test_finding_id")] |} ]).
Proof.
  etransitivity.
  - apply (low_severity_is_skipped Sample.runtime
             (Sample.world_with Sample.environment (PInt 3)
                (Sample.answer_of Sample.body_with_text) (Ok PNone))
             Sample.EVENT Sample.context
             Sample.S3_BUCKET_NAME Sample.SNS_TOPIC_ARN (PStr Sample.FINDING_ID)
             (PStr Sample.DETECTOR_ID)
             (Sample.finding (PInt 3))
             (PInt 3)
             [ {| client := guardduty;
                  op := get_findings (PStr Sample.DETECTOR_ID)
                          [PStr Sample.FINDING_ID] |} ]).
    + repeat split; try reflexivity; discriminate.
    + eexists. eexists. repeat split; reflexivity.
    + reflexivity.
    + reflexivity.
    + reflexivity.
  - vm_compute. reflexivity.
Defined.

(** ** Missing configuration *)

(** C10. When AI_REPORTS_BUCKET_NAME or AI_REPORTS_TOPIC_ARN is unset or
    empty, the handler raises a ValueError that nothing catches, before
    any request is made: its outcome is the exception, not a result with
    status 500. *)
Theorem missing_configuration_raises rt w event context t :
  unset (getenv (environ w) (lit "AI_REPORTS_BUCKET_NAME")) = true
  \/ unset (getenv (environ w) (lit "AI_REPORTS_TOPIC_ARN")) = true ->
  exists message,
    lambda_handler rt w event context t = (Raise (ValueError message), t).
Proof.
  intros H. unfold lambda_handler.
  destruct (unset (getenv (environ w) (lit "AI_REPORTS_BUCKET_NAME"))) eqn:Hb.
  - eexists. reflexivity.
  - destruct H as [H | H]; [discriminate |]. rewrite H. eexists. reflexivity.
Qed.

Lemma missing_configuration_raises_witness :
  exists message,
    lambda_handler Sample.runtime
      (Sample.world_with [(lit "AI_REPORTS_BUCKET_NAME", Sample.S3_BUCKET_NAME);
                          (lit "AI_REPORTS_TOPIC_ARN", [])]
         (PInt 6) (Sample.answer_of Sample.body_with_text) (Ok PNone))
      Sample.EVENT Sample.context []
    = (Raise (ValueError message), []).
Proof.
  apply (missing_configuration_raises Sample.runtime
           (Sample.world_with [(lit "AI_REPORTS_BUCKET_NAME", Sample.S3_BUCKET_NAME);
                               (lit "AI_REPORTS_TOPIC_ARN", [])]
              (PInt 6) (Sample.answer_of Sample.body_with_text) (Ok PNone))).
  right. reflexivity.
Defined.

(** ** Rendering *)

Lemma primary_headers_spec s : In s primary_headers <-> is_primary_header s.
Proof.
  unfold primary_headers, is_primary_header. simpl.
  intuition congruence.
Qed.

Lemma secondary_headers_spec s : In s secondary_headers <-> is_secondary_header s.
Proof.
  unfold secondary_headers, is_secondary_header. simpl.
  intuition congruence.
Qed.

Lemma primary_not_secondary s : is_primary_header s -> ~ is_secondary_header s.
Proof.
  intros [H | [H | H]] [H' | [H' | H']]; subst s; vm_compute in H'; discriminate.
Qed.

Lemma heading_not_paragraph size text text' : heading size text <> paragraph text'.
Proof. unfold heading, paragraph. intros H. discriminate. Qed.

Lemma render_line_line_block (line : str) : line_block line (render_line line).
Proof.
  unfold line_block, render_line.
  destruct (str_in (strip line) primary_headers) eqn:E.
  - left. split; [| reflexivity]. now apply primary_headers_spec, str_in_In.
  - destruct (str_in (strip line) secondary_headers) eqn:E'.
    + right. left. split; [| reflexivity].
      now apply secondary_headers_spec, str_in_In.
    + right. right. repeat split.
      * intros H. apply primary_headers_spec, str_in_In in H. congruence.
      * intros H. apply secondary_headers_spec, str_in_In in H. congruence.
Qed.

Lemma Forall2_map_r {A B} (R : A -> B -> Prop) (f : A -> B) (l : list A) :
  (forall x, R x (f x)) -> Forall2 R l (List.map f l).
Proof. intros H. induction l; cbn [List.map]; constructor; auto. Qed.

(** *** A rendering that returns a document *)

Lemma py_get_dict d k default :
  py_get (PDict d) k default
  = Ok (match dict_get k d with Some x => x | None => default end).
Proof. cbn [py_get]. destruct (dict_get k d); reflexivity. Qed.

Section RenderedDocument.

Variable rt : Runtime.
Variable w : World.

Lemma bind_Ok_inv {S A B} (m : SE S A) (k : A -> SE S B) t b t' :
  bind m k t = (Ok b, t') ->
  exists a t1, m t = (Ok a, t1) /\ k a t1 = (Ok b, t').
Proof.
  unfold bind. destruct (m t) as [[a | e] t1]; [eauto | discriminate].
Qed.

Lemma bind_lift_inv {S A B} (o : outcome A) (k : A -> SE S B) t b t' :
  bind (lift o) k t = (Ok b, t') -> exists a, o = Ok a /\ k a t = (Ok b, t').
Proof.
  unfold bind, lift. destruct o as [a | e]; [eauto | discriminate].
Qed.

Lemma pdf_call_Ok o log u log' :
  pdf_call rt o log = (Ok u, log') -> log' = log ++ [o].
Proof.
  unfold pdf_call. destruct (fpdf_raises rt log o); intros H; now inversion H.
Qed.

Lemma pdf_calls_Ok ops log u log' :
  pdf_calls rt ops log = (Ok u, log') -> log' = log ++ ops.
Proof.
  revert log. induction ops as [| o ops IH]; intros log; cbn [pdf_calls].
  - unfold ret. intros H. inversion H. now rewrite app_nil_r.
  - intros H. apply bind_Ok_inv in H. destruct H as (x & t1 & H1 & H2).
    apply pdf_call_Ok in H1. subst t1. apply IH in H2. subst log'.
    now rewrite <- app_assoc.
Qed.

Lemma render_lines_Ok lines log u log' :
  for_each lines (fun line => pdf_calls rt (render_line line)) log = (Ok u, log') ->
  log' = log ++ flat_map render_line lines.
Proof.
  revert log. induction lines as [| line lines IH]; intros log;
    cbn [for_each flat_map].
  - unfold ret. intros H. inversion H. now rewrite app_nil_r.
  - intros H. apply bind_Ok_inv in H. destruct H as (x & t1 & H1 & H2).
    apply pdf_calls_Ok in H1. subst t1. apply IH in H2. subst log'.
    now rewrite <- app_assoc.
Qed.

Lemma render_sections_Ok sections log u log' :
  for_each sections
    (fun section =>
       for_each (split newline section)
         (fun line => pdf_calls rt (render_line line)) ;;;
       pdf_call rt (ln 5)) log
  = (Ok u, log') ->
  log' = log ++ flat_map (fun section =>
                            flat_map render_line (split newline section) ++ [ln 5])
                  sections.
Proof.
  revert log. induction sections as [| section sections IH]; intros log;
    cbn [for_each flat_map].
  - unfold ret. intros H. inversion H. now rewrite app_nil_r.
  - intros H. apply bind_Ok_inv in H. destruct H as (x & t1 & H1 & H2).
    apply bind_Ok_inv in H1. destruct H1 as (y & t2 & H1 & H3).
    apply render_lines_Ok in H1. apply pdf_call_Ok in H3. subst t2 t1.
    apply IH in H2. subst log'. now rewrite <- !app_assoc.
Qed.

Ltac rendered H :=
  repeat first
    [ let Hc := fresh "Hc" in
      apply bind_Ok_inv in H; destruct H as (? & ? & Hc & H);
      first [ apply pdf_call_Ok in Hc | apply render_sections_Ok in Hc ];
      subst
    | let Hv := fresh "Hv" in
      apply bind_lift_inv in H; destruct H as (? & Hv & H);
      inversion Hv; subst; clear Hv ].

(** When [generate_pdf] returns a document, the analysis is a text, the
    finding is a dict, and the calls made on the [FPDF] object are those
    of the opening, of the lines of the text and of the closing. *)
Lemma generate_pdf_calls_Ok ai_insights guardduty_finding pdf calls :
  generate_pdf_calls rt w ai_insights guardduty_finding [] = (Ok pdf, calls) ->
  exists text finding,
    ai_insights = PStr text
    /\ guardduty_finding = PDict finding
    /\ calls = document_calls rt w text finding.
Proof.
  intros H.
  destruct guardduty_finding as [| b | n | f | s | d | d | l | finding];
    try (exfalso; unfold generate_pdf_calls in H; rendered H; fail).
  destruct ai_insights as [| b | n | f | text | d | d | l | d];
    try (exfalso; unfold generate_pdf_calls in H;
         repeat first
           [ rewrite (bind_lift _ _ _ _ (py_get_dict _ _ _)) in H
           | let Hc := fresh "Hc" in
             apply bind_Ok_inv in H; destruct H as (? & ? & Hc & H);
             apply pdf_call_Ok in Hc; subst ];
         apply bind_lift_inv in H; destruct H as (? & Hv & _); discriminate).
  exists text, finding. repeat split.
  unfold generate_pdf_calls in H.
  repeat first
    [ rewrite (bind_lift _ _ _ _ (py_get_dict _ _ _)) in H
    | let Hc := fresh "Hc" in
      apply bind_Ok_inv in H; destruct H as (? & ? & Hc & H);
      first [ apply pdf_call_Ok in Hc | apply render_sections_Ok in Hc ];
      subst ].
  cbn [py_strip] in H. rewrite (bind_lift _ _ _ _ eq_refl) in H.
  repeat (let Hc := fresh "Hc" in
          apply bind_Ok_inv in H; destruct H as (? & ? & Hc & H);
          first [ apply pdf_call_Ok in Hc | apply render_sections_Ok in Hc
                | injection Hc as _ <- ];
          subst).
  unfold lift in H. apply (f_equal snd) in H. cbn [snd] in H. subst calls.
  unfold document_calls, opening_calls, analysis_calls, closing_calls, field.
  now rewrite <- !app_assoc.
Qed.

End RenderedDocument.

(** The calls for the lines of a text are the blocks of its lines. *)
Lemma analysis_calls_groups (text : str) :
  analysis_calls text
  = rendered_groups (List.map (List.map render_line) (line_groups text)).
Proof.
  unfold analysis_calls, rendered_groups, line_groups.
  induction (re_split_blank_lines (strip text)) as [| section sections IH];
    [reflexivity |].
  cbn [List.map flat_map]. now rewrite IH, flat_map_concat_map.
Qed.

(** C3. In a rendering that returns a document, the calls between those
    of the opening and those of the closing render the lines of the
    analysis text, in order and group by group: a line that is, once
    trimmed, one of the six headers (compared as text, case included) is
    rendered as a heading, in the primary style (bold, size 12) for
    "Analysis:", "Remediation Actions:" and "Recommended Actions:" and in
    the secondary style (bold, size 10) for "Entities Involved:",
    "Security Group Impact:" and "Attempt Status:"; every other line is
    rendered as a body paragraph of its trimmed text.  A heading is
    never a body paragraph. *)
Theorem header_lines_render_as_headings rt w ai_insights guardduty_finding pdf calls :
  generate_pdf_calls rt w ai_insights guardduty_finding [] = (Ok pdf, calls) ->
  exists text finding blocks,
    ai_insights = PStr text
    /\ guardduty_finding = PDict finding
    /\ calls = opening_calls rt w finding ++ rendered_groups blocks ++ closing_calls
    /\ Forall2 (Forall2 line_block) (line_groups text) blocks
    /\ (forall size header body, heading size header <> paragraph body).
Proof.
  intros H.
  destruct (generate_pdf_calls_Ok rt w _ _ _ _ H) as (text & finding & -> & -> & ->).
  exists text, finding, (List.map (List.map render_line) (line_groups text)).
  repeat split.
  - unfold document_calls. now rewrite analysis_calls_groups.
  - apply Forall2_map_r. intros group. apply Forall2_map_r.
    apply render_line_line_block.
  - intros size header body. apply heading_not_paragraph.
Qed.

Lemma header_lines_render_as_headings_witness :
  exists blocks,
    snd (generate_pdf_calls Sample.runtime Sample.world (PStr scenario)
           (Sample.finding (PInt 6)) [])
    = opening_calls Sample.runtime Sample.world
        [ (lit "Id", PStr Sample.FINDING_ID);
          (lit "Severity", PInt 6);
          (lit "Type", PStr (lit "UnauthorizedAccess:EC2/SSHBruteForce"));
          (lit "AccountId", PStr Sample.ACCOUNT_ID);
          (lit "Region", PStr Sample.REGION) ]
      ++ rendered_groups blocks ++ closing_calls
    /\ Forall2 (Forall2 line_block) (line_groups scenario) blocks.
Proof.
  destruct (generate_pdf_calls Sample.runtime Sample.world (PStr scenario)
              (Sample.finding (PInt 6)) []) as [[pdf | e] calls] eqn:Hrun.
  - destruct (header_lines_render_as_headings _ _ _ _ _ _ Hrun)
      as (text & finding & blocks & Ht & Hf & Hcalls & Hblocks & _).
    injection Ht as <-. injection Hf as <-.
    exists blocks. split; [exact Hcalls | exact Hblocks].
  - vm_compute in Hrun. discriminate.
Defined.

(** The calls of the rendering of the sample text: the line that is a
    header but for its case is a body paragraph. *)
Example scenario_rendering :
  snd (generate_pdf_calls Sample.runtime Sample.world (PStr scenario)
         (Sample.finding (PInt 6)) [])
  = opening_calls Sample.runtime Sample.world
      [ (lit "Id", PStr Sample.FINDING_ID);
        (lit "Severity", PInt 6);
        (lit "Type", PStr (lit "UnauthorizedAccess:EC2/SSHBruteForce"));
        (lit "AccountId", PStr Sample.ACCOUNT_ID);
        (lit "Region", PStr Sample.REGION) ]
    ++ [ set_font (lit "Arial") (lit "B") 12;
         cell 0 10 (PStr (lit "Analysis:")) true (lit "") (lit "");
         set_font (lit "Arial") (lit "") 10;
         multi_cell 0 10 (PStr (lit "Breach detected."));
         set_font (lit "Arial") (lit "B") 10;
         cell 0 10 (PStr (lit "Attempt Status:")) true (lit "") (lit "");
         ln 5;
         set_font (lit "Arial") (lit "B") 12;
         cell 0 10 (PStr (lit "Remediation Actions:")) true (lit "") (lit "");
         set_font (lit "Arial") (lit "") 10;
         multi_cell 0 10 (PStr (lit "remediation actions:"));
         ln 5 ]
    ++ closing_calls.
Proof. vm_compute. reflexivity. Qed.

(** ** Rescheduling on throttling *)







Ltac run :=
  cbv [bind lift try_except ret raise call]; cbv beta iota zeta;
  repeat match goal with
         | H : ?o = _ |- context [match ?o with _ => _ end] =>
             rewrite H; cbv beta iota zeta
         end.


Lemma invoke_bedrock_model_throttled rt w finding entities event context t :
  respond w t (analysis_request rt w finding entities)
  = Raise (ClientError (lit "ThrottlingException")) ->
  invoke_bedrock_model rt w bedrock_runtime
    (convert_to_json_serializable rt finding)
    (convert_to_json_serializable rt entities) event context t
  = schedule_retry rt w event context (t ++ [analysis_request rt w finding entities]).
Proof.
  intros H. unfold invoke_bedrock_model, analysis_request in *.
  unfold try_except, bind, call. rewrite H. cbv beta iota zeta.
  now rewrite str_eqb_refl.
Qed.

Lemma sample_enriched severity model scheduler :
  lt_4_0 severity = Ok false ->
  enriched (Sample.world_with Sample.environment severity model scheduler)
    Sample.EVENT (PStr Sample.FINDING_ID) (Sample.finding severity)
    Sample.MEMBER_DETAILS
    Sample.enrichment_requests.
Proof.
  intros H. exists (PStr Sample.DETECTOR_ID), severity, (PStr (lit "test_graph_arn")).
  do 2 eexists. split.
  - do 2 eexists. repeat split; reflexivity.
  - repeat split; try reflexivity. assumption.
Defined.

Lemma sample_replayable marker : replayable (Sample.event_with marker).
Proof.
  unfold replayable, has_key.
  repeat (split; [eexists; reflexivity |]).
  eexists. repeat split; eexists; reflexivity.
Defined.

(** ** A registration that fails *)

Lemma schedule_retry_swallows rt w event context finding_id detector_id t :
  carries_ids event finding_id detector_id ->
  has_key event (lit "account") ->
  has_key event (lit "region") ->
  registration_fails rt w t ->
  exists t', schedule_retry rt w event context t = (Ok PNone, t').
Proof.
  intros (detail & service & Hd & Hi & Hs & Hdet) [a Ha] [r Hr] Hfail.
  unfold schedule_retry, registration_fails, rule_request, targets_request in *.
  run. destruct Hfail as [[e He] | [e He]].
  - rewrite He. eexists. reflexivity.
  - match goal with
    | |- context [match respond w ?h ?q with _ => _ end] => destruct (respond w h q)
    end; [| eexists; reflexivity].
    repeat match goal with
           | |- context [match py_getitem ?v ?k with _ => _ end] =>
               destruct (py_getitem v k); cbv beta iota zeta
           end;
      try (eexists; reflexivity).
    rewrite He. eexists. reflexivity.
Qed.

(** C4, as the code has it.  When the registration of the retry fails,
    the scheduling call does not raise, and returns None to its caller,
    which is not the text "rescheduled" that the handler looks for. *)
Theorem failed_registration_returns_None rt w event context
    finding_id detector_id t :
  carries_ids event finding_id detector_id ->
  has_key event (lit "account") ->
  has_key event (lit "region") ->
  registration_fails rt w t ->
  exists t', schedule_retry rt w event context t = (Ok PNone, t')
             /\ eq_str PNone (lit "rescheduled") = false.
Proof.
  intros Hids Ha Hr Hfail.
  destruct (schedule_retry_swallows rt w event context finding_id detector_id t
              Hids Ha Hr Hfail) as [t' H].
  exists t'. split; [exact H | reflexivity].
Qed.

Lemma failed_registration_returns_None_witness :
  exists t',
    schedule_retry Sample.runtime
      (Sample.world_with Sample.environment (PFloat 4.0) Sample.throttled
         (Raise (ClientError (lit "AccessDeniedException"))))
      Sample.EVENT Sample.context [] = (Ok PNone, t')
    /\ eq_str PNone (lit "rescheduled") = false.
Proof.
  apply (failed_registration_returns_None Sample.runtime
           (Sample.world_with Sample.environment (PFloat 4.0) Sample.throttled
              (Raise (ClientError (lit "AccessDeniedException"))))
           Sample.EVENT Sample.context (PStr Sample.FINDING_ID) (PStr Sample.DETECTOR_ID)).
  - do 2 eexists. repeat split; reflexivity.
  - eexists. reflexivity.
  - eexists. reflexivity.
  - left. eexists. reflexivity.
Defined.

(** C4, as the specification has it, fails: in the sample world whose
    scheduler refuses the creation of the rule, the scheduling call does
    not return "rescheduled". *)
Lemma failed_registration_is_not_rescheduled :
  registration_fails Sample.runtime
    (Sample.world_with Sample.environment (PFloat 4.0) Sample.throttled
       (Raise (ClientError (lit "AccessDeniedException")))) []
  /\ fst (schedule_retry Sample.runtime
            (Sample.world_with Sample.environment (PFloat 4.0) Sample.throttled
               (Raise (ClientError (lit "AccessDeniedException"))))
            Sample.EVENT Sample.context [])
     <> Ok (PStr (lit "rescheduled")).
Proof.
  split.
  - left. eexists. reflexivity.
  - vm_compute. discriminate.
Qed.

(** ** Enrichment, then analysis *)

Lemma Prim2SF_4_0 : Prim2SF 4.0 = S754_finite false 4503599627370496 (-50).
Proof. vm_compute. reflexivity. Qed.

Lemma float_ge_not_lt (f : float) :
  (4.0 <=? f)%float = true -> (f <? 4.0)%float = false.
Proof.
  rewrite leb_spec, ltb_spec, Prim2SF_4_0. unfold SFleb, SFltb.
  generalize 4503599627370496%positive (-50)%Z. intros m4 e4.
  destruct (Prim2SF f) as [s | s | | s m e]; cbn [SFcompare]; try congruence.
  - destruct s; congruence.
  - destruct s; try congruence.
    rewrite (Z.compare_antisym e4 e).
    destruct (e4 ?= e)%Z; cbn [CompOpp]; try congruence.
    change (Pos.compare_cont Eq m4 m) with (m4 ?= m)%positive.
    change (Pos.compare_cont Eq m m4) with (m ?= m4)%positive.
    rewrite (Pos.compare_antisym m4 m).
    destruct (m4 ?= m)%positive; cbn [CompOpp]; congruence.
Qed.

(** The gate lets a severity of 4.0 or more through. *)
Lemma ge_4_0_passes (v : pyval) : ge_4_0 v = true -> lt_4_0 v = Ok false.
Proof.
  destruct v as [| b | n | f | s | [s c e | s |] | d | l | d]; simpl; try discriminate.
  - intros H. f_equal. apply Z.leb_le in H. apply Z.ltb_ge. assumption.
  - intros H. f_equal. now apply float_ge_not_lt.
  - destruct (Qcompare (Decimal_value s c e) (4 # 1)); congruence.
  - destruct s; simpl; congruence.
Qed.

Ltac emits_tac :=
  repeat first
    [ apply emits_ret | apply emits_raise | apply emits_lift
    | apply emits_call; simpl; tauto
    | apply emits_bind; [| intros]
    | apply emits_try_except; [| intros]
    | match goal with
      | |- emits _ (if ?b then _ else _) => destruct b
      | |- emits _ (match ?x with _ => _ end) => destruct x
      end ].

Lemma schedule_retry_emits rt w event context :
  emits (fun r => client r = events) (schedule_retry rt w event context).
Proof. unfold schedule_retry. emits_tac. Qed.

(** The analysis makes one request to the model, and then only
    requests to the scheduler. *)
Lemma invoke_bedrock_model_requests rt w finding entities event context t :
  exists rest,
    snd (invoke_bedrock_model rt w bedrock_runtime
           (convert_to_json_serializable rt finding)
           (convert_to_json_serializable rt entities) event context t)
    = t ++ [analysis_request rt w finding entities] ++ rest
    /\ Forall (fun r => client r = events) rest.
Proof.
  unfold invoke_bedrock_model, analysis_request.
  unfold try_except, bind at 1, call.
  set (a := {| client := bedrock_runtime; op := _ |}).
  destruct (respond w t a) as [ai_response | e].
  - match goal with
    | |- context [snd (match ?m (t ++ [a]) with _ => _ end)] =>
        assert (H : emits (fun r => client r = events) m) by emits_tac;
        destruct (H (t ++ [a])) as [rest [E F]];
        destruct (m (t ++ [a])) as [[x | e] t']
    end; simpl in E; subst t'.
    + exists rest. simpl. now rewrite <- app_assoc.
    + destruct e;
        try (exists rest; simpl; now rewrite <- app_assoc).
      destruct (str_eqb code (lit "ThrottlingException")).
      * destruct (schedule_retry_emits rt w event context ((t ++ [a]) ++ rest))
          as [rest' [E' F']].
        exists (rest ++ rest'). rewrite E', <- !app_assoc. split; [reflexivity |].
        now apply Forall_app.
      * exists rest. simpl. now rewrite <- app_assoc.
  - destruct e; try (exists []; simpl; split; [reflexivity | constructor]).
    destruct (str_eqb code (lit "ThrottlingException")).
    + destruct (schedule_retry_emits rt w event context (t ++ [a])) as [rest [E F]].
      exists rest. rewrite E, <- app_assoc. auto.
    + exists []. simpl. split; [reflexivity | constructor].
Qed.

Lemma after_analysis_emits rt w event bucket topic finding_id finding ai_insights :
  emits (fun r => client r = s3 \/ client r = sns)
    (after_analysis rt w event bucket topic finding_id finding ai_insights).
Proof.
  unfold after_analysis, upload_pdf_to_s3, send_sns_notification,
    remove_retry_event_rule.
  emits_tac.
Qed.

(** C8, as the code has it.  When the fetched finding has a severity of
    4.0 or more (4.0 included), the run asks the graph source for the
    graphs right after the fetch.  When the enrichment succeeds (a graph
    is found and its members are read), the run then sends the analysis
    request to the model, once: the requests that follow go to the
    scheduler, the object store or the notification topic.  When the
    enrichment fails (no graph is found, or the graph source raises), the
    run stops there with status 500 and sends no analysis request. *)
Theorem severe_finding_is_enriched_then_analysed rt w event context bucket topic
    finding_id detector_id finding severity t1 :
  configured w bucket topic ->
  carries_ids event finding_id detector_id ->
  get_guardduty_finding w guardduty detector_id finding_id [] = (Ok finding, t1) ->
  py_getitem finding (lit "Severity") = Ok severity ->
  ge_4_0 severity = true ->
  (forall e t2,
      get_graph_arn w detective t1 = (Raise e, t2) ->
      lambda_handler rt w event context []
      = (Ok {| statusCode := 500;
               body := json_dumps rt
                         (PStr (lit "Error in processing: " ++ str_of_exn rt e)) |},
         [ {| client := guardduty; op := get_findings detector_id [finding_id] |};
           {| client := detective; op := list_graphs |} ]))
  /\ (forall graph_arn t2 e t3,
      get_graph_arn w detective t1 = (Ok graph_arn, t2) ->
      get_all_detective_entities w detective graph_arn t2 = (Raise e, t3) ->
      lambda_handler rt w event context []
      = (Ok {| statusCode := 500;
               body := json_dumps rt
                         (PStr (lit "Error in processing: " ++ str_of_exn rt e)) |},
         [ {| client := guardduty; op := get_findings detector_id [finding_id] |};
           {| client := detective; op := list_graphs |};
           {| client := detective; op := list_members graph_arn |} ]))
  /\ (forall graph_arn t2 entities t3,
      get_graph_arn w detective t1 = (Ok graph_arn, t2) ->
      get_all_detective_entities w detective graph_arn t2 = (Ok entities, t3) ->
      exists rest,
        snd (lambda_handler rt w event context [])
        = [ {| client := guardduty; op := get_findings detector_id [finding_id] |};
            {| client := detective; op := list_graphs |};
            {| client := detective; op := list_members graph_arn |};
            analysis_request rt w finding entities ] ++ rest
        /\ Forall (fun r => client r = events \/ client r = s3 \/ client r = sns) rest).
Proof.
  intros Hcfg Hids Hf Hsev Hge.
  pose proof (ge_4_0_passes _ Hge) as Hlow.
  assert (Ht1 : t1 = [ {| client := guardduty; op := get_findings detector_id [finding_id] |} ]).
  { apply (f_equal snd) in Hf. simpl in Hf.
    now rewrite get_guardduty_finding_requests in Hf. }
  split; [| split].
  - intros e t2 Hg.
    assert (Ht2 : t2 = t1 ++ [ {| client := detective; op := list_graphs |} ]).
    { apply (f_equal snd) in Hg. simpl in Hg.
      now rewrite get_graph_arn_requests in Hg. }
    rewrite (lambda_handler_process _ _ _ _ _ _ _ Hcfg).
    destruct Hids as (detail & service & Hd & Hi & Hs & Hdet).
    unfold process. repeat step_lift. step_call. repeat step_lift.
    rewrite (bind_Raise _ _ _ _ _ Hg). subst t2 t1. reflexivity.
  - intros graph_arn t2 e t3 Hg He.
    assert (Ht3 : t3 = [ {| client := guardduty; op := get_findings detector_id [finding_id] |};
                         {| client := detective; op := list_graphs |};
                         {| client := detective; op := list_members graph_arn |} ]).
    { apply (f_equal snd) in Hg, He. simpl in Hg, He.
      rewrite get_graph_arn_requests in Hg.
      rewrite get_all_detective_entities_requests in He.
      subst. reflexivity. }
    rewrite (lambda_handler_process _ _ _ _ _ _ _ Hcfg).
    destruct Hids as (detail & service & Hd & Hi & Hs & Hdet).
    unfold process. repeat step_lift. step_call. repeat step_lift.
    step_call. rewrite (bind_Raise _ _ _ _ _ He). subst t3. reflexivity.
  - intros graph_arn t2 entities t3 Hg He.
    assert (Hen : enriched w event finding_id finding entities t3).
    { exists detector_id, severity, graph_arn, t1, t2.
      repeat split; assumption. }
    assert (Ht3 : t3 = [ {| client := guardduty; op := get_findings detector_id [finding_id] |};
                         {| client := detective; op := list_graphs |};
                         {| client := detective; op := list_members graph_arn |} ]).
    { apply (f_equal snd) in Hg, He. simpl in Hg, He.
      rewrite get_graph_arn_requests in Hg.
      rewrite get_all_detective_entities_requests in He.
      subst. reflexivity. }
    rewrite (lambda_handler_process _ _ _ _ _ _ _ Hcfg). cbn [snd].
    rewrite (process_enriched _ _ _ _ _ _ _ _ _ _ Hen).
    destruct (invoke_bedrock_model_requests rt w finding entities event context t3)
      as [rest [E F]].
    unfold bind.
    destruct (invoke_bedrock_model rt w bedrock_runtime _ _ event context t3)
      as [[ai_insights | e] t4]; cbn [snd] in E; subst t4.
    + destruct (after_analysis_emits rt w event bucket topic finding_id
                  (convert_to_json_serializable rt finding) ai_insights
                  (t3 ++ [analysis_request rt w finding entities] ++ rest))
        as [rest' [E' F']].
      exists (rest ++ rest'). rewrite E', Ht3. split.
      * reflexivity.
      * apply Forall_app. split.
        -- eapply Forall_impl; [| exact F]. simpl. tauto.
        -- eapply Forall_impl; [| exact F']. simpl. tauto.
    + exists rest. rewrite Ht3. split; [reflexivity |].
      eapply Forall_impl; [| exact F]. simpl. tauto.
Qed.

Lemma severe_finding_is_enriched_then_analysed_witness :
  exists rest,
    snd (lambda_handler Sample.runtime
           (Sample.world_with Sample.environment (PFloat 4.0)
              (Sample.answer_of Sample.body_with_text) (Ok PNone))
           Sample.EVENT Sample.context [])
    = [ {| client := guardduty;
           op := get_findings (PStr Sample.DETECTOR_ID) [PStr Sample.FINDING_ID] |};
        {| client := detective; op := list_graphs |};
        {| client := detective; op := list_members (PStr (lit "test_graph_arn")) |};
        analysis_request Sample.runtime
          (Sample.world_with Sample.environment (PFloat 4.0)
             (Sample.answer_of Sample.body_with_text) (Ok PNone))
          (Sample.finding (PFloat 4.0)) Sample.MEMBER_DETAILS ] ++ rest
    /\ Forall (fun r => client r = events \/ client r = s3 \/ client r = sns) rest.
Proof.
  destruct (severe_finding_is_enriched_then_analysed Sample.runtime
              (Sample.world_with Sample.environment (PFloat 4.0)
                 (Sample.answer_of Sample.body_with_text) (Ok PNone))
              Sample.EVENT Sample.context Sample.S3_BUCKET_NAME Sample.SNS_TOPIC_ARN
              (PStr Sample.FINDING_ID) (PStr Sample.DETECTOR_ID)
              (Sample.finding (PFloat 4.0)) (PFloat 4.0)
              [ {| client := guardduty;
                   op := get_findings (PStr Sample.DETECTOR_ID)
                           [PStr Sample.FINDING_ID] |} ])
    as (_ & _ & H).
  - repeat split; try reflexivity; discriminate.
  - do 2 eexists. repeat split; reflexivity.
  - reflexivity.
  - reflexivity.
  - reflexivity.
  - apply (H (PStr (lit "test_graph_arn"))
             [ {| client := guardduty;
                  op := get_findings (PStr Sample.DETECTOR_ID)
                          [PStr Sample.FINDING_ID] |};
               {| client := detective; op := list_graphs |} ]
             Sample.MEMBER_DETAILS Sample.enrichment_requests).
    + reflexivity.
    + reflexivity.
Defined.

(** C8, as the specification has it, fails: for the finding of severity
    6 of the tests, when the graph source lists no graph, the run ends
    after its request for the graphs, and no analysis is requested. *)
Lemma missing_graph_stops_before_analysis :
  ge_4_0 (PInt 6) = true
  /\ lambda_handler Sample.runtime world_without_graph Sample.EVENT Sample.context []
     = (Ok {| statusCode := 500;
              body := [dquote]
                      ++ lit "Error in processing: No graphs found in Amazon Detective."
                      ++ [dquote] |},
        [ {| client := guardduty;
             op := get_findings (PStr (lit "sample-detector"))
                     [PStr (lit "test_finding_id")] |};
          {| client := detective; op := list_graphs |} ]).
Proof.
  split; [reflexivity |]. vm_compute. reflexivity.
Qed.

(** ** A rendering without text *)

Section Rendering.

Variable rt : Runtime.
Variable w : World.

Lemma never_returns_bind {S A B} (m : SE S A) (k : A -> SE S B) :
  (forall a, never_returns (k a)) -> never_returns (bind m k).
Proof.
  intros Hk s. unfold bind. destruct (m s) as [[a | e] s'].
  - apply Hk.
  - now exists e, s'.
Qed.

Lemma never_returns_raise {S A B} e (k : A -> SE S B) :
  never_returns (bind (lift (Raise e)) k).
Proof. intros s. now exists e, s. Qed.

(** Rendering raises when the analysis gave no text. *)
Lemma generate_pdf_needs_text ai_insights guardduty_finding :
  (forall s, ai_insights <> PStr s) ->
  exists e, generate_pdf rt w ai_insights guardduty_finding = Raise e.
Proof.
  intros Hnot.
  assert (H : never_returns (generate_pdf_calls rt w ai_insights guardduty_finding)).
  { unfold generate_pdf_calls.
    destruct ai_insights; try (now destruct (Hnot s)); cbn [py_strip];
      repeat first [ apply never_returns_raise
                   | apply never_returns_bind; intros ]. }
  destruct (H []) as (e & s' & E). exists e. unfold generate_pdf. now rewrite E.
Qed.

End Rendering.

(** ** The requests of a run that publishes *)

Ltac cases :=
  repeat match goal with
         | |- context [match ?x with _ => _ end] =>
             lazymatch x with
             | context [match _ with _ => _ end] => fail
             | _ => destruct x; cbv beta iota zeta
             end
         end.

(** The scheduling call returns "rescheduled" or None. *)
Lemma schedule_retry_values rt w event context t v t' :
  schedule_retry rt w event context t = (Ok v, t') ->
  v = PNone \/ v = PStr (lit "rescheduled").
Proof.
  unfold schedule_retry. cbv [bind lift try_except ret raise call].
  cbv beta iota zeta. cases; intros H; inversion H; auto.
Qed.

(** An analysis that returns a text other than "rescheduled" made its
    request to the model and no other request. *)
Lemma invoke_bedrock_model_text rt w finding entities event context t s t' :
  invoke_bedrock_model rt w bedrock_runtime
    (convert_to_json_serializable rt finding)
    (convert_to_json_serializable rt entities) event context t
  = (Ok (PStr s), t') ->
  eq_str (PStr s) (lit "rescheduled") = false ->
  t' = t ++ [analysis_request rt w finding entities].
Proof.
  intros H Hne.
  assert (Hs : forall t0 v t1,
             schedule_retry rt w event context t0 = (Ok v, t1) -> v <> PStr s).
  { intros t0 v t1 E. destruct (schedule_retry_values _ _ _ _ _ _ _ E) as [-> | ->].
    - discriminate.
    - intros E'. injection E' as <-. cbn [eq_str] in Hne.
      now rewrite str_eqb_refl in Hne. }
  revert H. unfold invoke_bedrock_model, analysis_request.
  unfold try_except, bind at 1, call.
  set (a := {| client := bedrock_runtime; op := _ |}).
  set (t1 := t ++ [a]).
  destruct (respond w t a) as [answer | e].
  - unfold bind, lift.
    destruct answer; cbn [py_getitem];
      try (cbv [raise]; intros H; now inversion H).
    destruct (dict_get (lit "body") d) as [stream |];
      [| cbv [raise]; intros H; now inversion H].
    destruct stream; cbn [read_decode];
      try (cbv [raise]; intros H; now inversion H).
    destruct (json_loads rt s0) as [ai_insights |];
      [| cbv [raise]; intros H; now inversion H].
    destruct ai_insights as [| b | n | f | s1 | d1 | d1 | l | d1]; cbn [py_get];
      try (cbv [raise]; intros H; now inversion H).
    assert (Hblock : forall block,
               match py_get block (lit "text") (PStr []) with
               | Ok x => (Ok x, t1)
               | Raise e =>
                   match e with
                   | ClientError code =>
                       if str_eqb code (lit "ThrottlingException")
                       then schedule_retry rt w event context
                       else raise e
                   | _ => raise e
                   end t1
               end = (Ok (PStr s), t') -> t' = t1).
    { intros block. destruct block; cbn [py_get];
        try (cbv [raise]; intros H; now inversion H).
      destruct (dict_get (lit "text") d0); intros H; now inversion H. }
    destruct (dict_get (lit "content") d1) as [content |].
    + destruct content as [| b | n | f | [| c s1] | dc | dt | [| x l] | d'];
        cbn [py_first]; try (cbv [raise]; intros H; now inversion H);
        apply Hblock.
    + cbn [py_first]. apply Hblock.
  - destruct e; try (cbv [raise]; intros H; now inversion H).
    destruct (str_eqb code (lit "ThrottlingException")).
    + intros H. now destruct (Hs _ _ _ H).
    + cbv [raise]. intros H. now inversion H.
Qed.

(** A run that renders a document made four requests before: for the
    finding, the graphs, the members and the analysis. *)
Lemma analysed_requests rt w event context finding_id finding ai_insights pdf t :
  analysed rt w event context finding_id finding ai_insights t ->
  generate_pdf rt w ai_insights (convert_to_json_serializable rt finding) = Ok pdf ->
  exists detector_id graph_arn entities,
    t = [ {| client := guardduty; op := get_findings detector_id [finding_id] |};
          {| client := detective; op := list_graphs |};
          {| client := detective; op := list_members graph_arn |};
          analysis_request rt w finding entities ].
Proof.
  intros (entities & t0 & Hen & Hai & Hne) Hpdf.
  destruct (enriched_requests _ _ _ _ _ _ Hen) as (detector_id & graph_arn & ->).
  exists detector_id, graph_arn, entities.
  destruct ai_insights as [| b | n | f | s | d | d | l | d];
    try (exfalso;
         match type of Hpdf with
         | generate_pdf _ _ ?v ?f = _ =>
             destruct (generate_pdf_needs_text rt w v f) as [e He];
             [intros ?; discriminate | rewrite He in Hpdf; discriminate]
         end).
  now rewrite (invoke_bedrock_model_text _ _ _ _ _ _ _ _ _ Hai Hne).
Qed.

(** ** Publishing *)

Lemma process_analysed rt w event context bucket topic finding_id finding
    ai_insights pdf t :
  analysed rt w event context finding_id finding ai_insights t ->
  generate_pdf rt w ai_insights (convert_to_json_serializable rt finding) = Ok pdf ->
  process rt w event context bucket topic []
  = publish_and_clean rt w event bucket topic finding_id ai_insights pdf t.
Proof.
  intros (entities & t0 & Hen & Hai & Hne) Hpdf.
  rewrite (process_enriched _ _ _ _ _ _ _ _ _ _ Hen).
  rewrite (bind_Ok _ _ _ _ _ Hai). unfold after_analysis.
  rewrite Hne, (bind_lift _ _ _ _ Hpdf). reflexivity.
Qed.

Lemma replace_removes (old : char) (new s : str) :
  ~ In old new -> ~ In old (replace old new s).
Proof.
  intros Hnew Hin. unfold replace in Hin. apply in_flat_map in Hin.
  destruct Hin as [c [_ Hc]]. destruct (c =? old)%N eqn:E.
  - contradiction.
  - destruct Hc as [Hc | []]. subst c. now rewrite N.eqb_refl in E.
Qed.

Lemma encode_url_no_space (url : str) : ~ In space (encode_url url).
Proof.
  apply replace_removes. vm_compute. intuition discriminate.
Qed.

Lemma upload_pdf_to_s3_run rt w bucket finding_id pdf url r1 t :
  respond w t (put_request rt bucket finding_id pdf) = Ok r1 ->
  respond w (t ++ [put_request rt bucket finding_id pdf])
    (presign_request rt bucket finding_id) = Ok (PStr url) ->
  upload_pdf_to_s3 w s3 pdf (report_key rt finding_id) bucket t
  = (Ok (PStr url),
     t ++ [put_request rt bucket finding_id pdf; presign_request rt bucket finding_id]).
Proof.
  intros Hput Hurl. unfold upload_pdf_to_s3. rewrite try_except_reraise.
  unfold put_request, presign_request in *. unfold bind, call, ret.
  rewrite Hput, Hurl. now rewrite <- app_assoc.
Qed.

Lemma send_sns_notification_run rt w topic url t :
  send_sns_notification rt w sns (PStr url) topic t
  = (match respond w t (notification_request rt topic url) with
     | Ok _ => Ok tt
     | Raise e => Raise e
     end,
     t ++ [notification_request rt topic url]).
Proof.
  unfold send_sns_notification. rewrite try_except_reraise.
  unfold notification_request, encode_url, bind, call, ret, lift. cbn [py_strip].
  destruct (respond w t _); reflexivity.
Qed.

(** After the notification, only the deletion of a rule may follow. *)
Lemma cleanup_emits w event ai_insights :
  emits (fun r => exists name, r = {| client := sns; op := delete_rule name |})
    (detail <- lift (py_getitem event (lit "detail")) ;;
     retry_rule_name <- lift (py_get detail (lit "retryRuleName") PNone) ;;
     (if truthy retry_rule_name
      then remove_retry_event_rule w sns retry_rule_name
      else ret tt) ;;;
     ret (inr ai_insights) : M (response + pyval)).
Proof.
  unfold remove_retry_event_rule.
  repeat first
    [ apply emits_ret | apply emits_raise | apply emits_lift
    | apply emits_call; eexists; reflexivity
    | apply emits_bind; [| intros]
    | apply emits_try_except; [| intros]
    | match goal with
      | |- emits _ (if ?b then _ else _) => destruct b
      end ].
Qed.

Lemma In_lstrip c s : In c (lstrip s) -> In c s.
Proof.
  induction s as [| a s IH]; [auto |]. cbn [lstrip].
  destruct (is_space a); [right; auto | auto].
Qed.

Lemma In_strip c s : In c (strip s) -> In c s.
Proof.
  unfold strip, rstrip. intros H. apply in_rev in H. apply In_lstrip in H.
  apply in_rev in H. now apply In_lstrip.
Qed.

Lemma In_replace (c old : char) (new s : str) :
  In c (replace old new s) -> In c new \/ (In c s /\ c <> old).
Proof.
  unfold replace. intros H. apply in_flat_map in H. destruct H as [x [Hx Hc]].
  destruct (x =? old)%N eqn:E.
  - now left.
  - destruct Hc as [<- | []]. right. split; [assumption |].
    now apply N.eqb_neq.
Qed.

(** C9. A run that publishes a report writes its bytes to the bucket
    under the key made of the finding identifier and ".pdf", asks for a
    URL of that object that is valid 3600 seconds, and then sends one
    notification to the configured topic: a message with a default text
    and an email text that ends with the URL, trimmed and with its spaces
    replaced by %20.  The URL sent has no space, and no whitespace at all
    when the spaces are the only whitespace of the URL received.  Four
    requests come before, for the finding, the graphs, the members and
    the analysis, and nothing follows but the deletion of the retry
    rule. *)
Theorem report_is_published rt w event context bucket topic
    finding_id finding ai_insights pdf url r1 t :
  configured w bucket topic ->
  analysed rt w event context finding_id finding ai_insights t ->
  generate_pdf rt w ai_insights (convert_to_json_serializable rt finding) = Ok pdf ->
  respond w t (put_request rt bucket finding_id pdf) = Ok r1 ->
  respond w (t ++ [put_request rt bucket finding_id pdf])
    (presign_request rt bucket finding_id) = Ok (PStr url) ->
  exists detector_id graph_arn entities cleanup encoded_url,
    t = [ {| client := guardduty; op := get_findings detector_id [finding_id] |};
          {| client := detective; op := list_graphs |};
          {| client := detective; op := list_members graph_arn |};
          analysis_request rt w finding entities ]
    /\ snd (lambda_handler rt w event context [])
       = t ++ [ {| client := s3;
                   op := put_object bucket (shown rt finding_id ++ lit ".pdf") pdf
                           (lit "application/pdf") |};
                {| client := s3;
                   op := generate_presigned_url (lit "get_object") bucket
                           (shown rt finding_id ++ lit ".pdf") 3600 |};
                {| client := sns;
                   op := publish topic
                           (json_dumps rt
                              (PDict
                                 [ (lit "default",
                                     PStr (lit "New GuardDuty finding with enriched PDF. Click the link to download."));
                                   (lit "email",
                                     PStr (lit "New GuardDuty finding. Enriched PDF with AI remediation's can be downloaded here: "
                                           ++ encoded_url)) ]))
                           (lit "GuardDuty Finding Enrichment Report") (lit "json") |} ]
           ++ cleanup
    /\ Forall (fun r => exists name, r = {| client := sns; op := delete_rule name |})
         cleanup
    /\ encoded_url = replace space (lit "%20") (strip url)
    /\ ~ In space encoded_url
    /\ ((forall c, In c url -> is_space c = true -> c = space) ->
        forall c, In c encoded_url -> is_space c = false).
Proof.
  intros Hcfg Han Hpdf Hput Hurl.
  destruct (analysed_requests _ _ _ _ _ _ _ _ _ Han Hpdf)
    as (detector_id & graph_arn & entities & Ht).
  assert (Hrun : exists cleanup,
             snd (lambda_handler rt w event context [])
             = t ++ [ put_request rt bucket finding_id pdf;
                      presign_request rt bucket finding_id;
                      notification_request rt topic url ] ++ cleanup
             /\ Forall (fun r => exists name,
                           r = {| client := sns; op := delete_rule name |}) cleanup).
  { rewrite (lambda_handler_process _ _ _ _ _ _ _ Hcfg). cbn [snd].
    rewrite (process_analysed _ _ _ _ _ _ _ _ _ _ _ Han Hpdf).
    unfold publish_and_clean.
    rewrite (bind_Ok _ _ _ _ _ (upload_pdf_to_s3_run _ _ _ _ _ _ _ _ Hput Hurl)).
    pose proof (send_sns_notification_run rt w topic url
                  (t ++ [put_request rt bucket finding_id pdf;
                         presign_request rt bucket finding_id])) as Hsend.
    destruct (respond w _ (notification_request rt topic url)) as [r3 | e].
    + rewrite (bind_Ok _ _ _ _ _ Hsend).
      destruct (cleanup_emits w event ai_insights
                  ((t ++ [put_request rt bucket finding_id pdf;
                          presign_request rt bucket finding_id])
                   ++ [notification_request rt topic url])) as [cleanup [E F]].
      exists cleanup. rewrite E. split; [| assumption].
      rewrite <- !app_assoc. reflexivity.
    + rewrite (bind_Raise _ _ _ _ _ Hsend). exists []. split; [| constructor].
      cbn [snd]. rewrite <- !app_assoc. reflexivity. }
  destruct Hrun as [cleanup [E F]].
  exists detector_id, graph_arn, entities, cleanup,
    (replace space (lit "%20") (strip url)).
  split; [exact Ht |]. split; [exact E |]. split; [exact F |].
  split; [reflexivity |]. split.
  - apply replace_removes. vm_compute. intuition discriminate.
  - intros Hspaces c Hc. apply In_replace in Hc. destruct Hc as [Hc | [Hc Hne]].
    + vm_compute in Hc. destruct Hc as [<- | [<- | [<- | []]]]; reflexivity.
    + destruct (is_space c) eqn:Espace; [| reflexivity].
      destruct Hne. apply Hspaces; [| assumption]. now apply In_strip.
Qed.

Lemma sample_analysed url event :
  carries_ids event (PStr Sample.FINDING_ID) (PStr Sample.DETECTOR_ID) ->
  analysed Sample.runtime (world_with_url url) event Sample.context
    (PStr Sample.FINDING_ID) (Sample.finding (PInt 6)) Sample.insights
    (Sample.enrichment_requests
     ++ [analysis_request Sample.runtime (world_with_url url)
           (Sample.finding (PInt 6)) Sample.MEMBER_DETAILS]).
Proof.
  intros Hids. exists Sample.MEMBER_DETAILS, Sample.enrichment_requests.
  split; [| split; reflexivity].
  exists (PStr Sample.DETECTOR_ID), (PInt 6), (PStr (lit "test_graph_arn")).
  do 2 eexists. split; [exact Hids |]. repeat split; reflexivity.
Defined.

Lemma sample_carries_ids marker :
  carries_ids (Sample.event_with marker) (PStr Sample.FINDING_ID)
    (PStr Sample.DETECTOR_ID).
Proof. do 2 eexists. repeat split; reflexivity. Defined.

Lemma report_is_published_witness :
  exists cleanup,
    snd (lambda_handler Sample.runtime (world_with_url (lit " https://dummy url "))
           Sample.EVENT Sample.context [])
    = (Sample.enrichment_requests
       ++ [analysis_request Sample.runtime (world_with_url (lit " https://dummy url "))
             (Sample.finding (PInt 6)) Sample.MEMBER_DETAILS])
      ++ [ {| client := s3;
              op := put_object (lit "test-bucket") (lit "test_finding_id.pdf")
                      sample_pdf (lit "application/pdf") |};
           {| client := s3;
              op := generate_presigned_url (lit "get_object") (lit "test-bucket")
                      (lit "test_finding_id.pdf") 3600 |};
           {| client := sns;
              op := publish (lit "arn:aws:sns:us-east-1:123456789012:my-test-topic")
                      (Sample.dumps
                         (PDict
                            [ (lit "default",
                                PStr (lit "New GuardDuty finding with enriched PDF. Click the link to download."));
                              (lit "email",
                                PStr (lit "New GuardDuty finding. Enriched PDF with AI remediation's can be downloaded here: https://dummy%20url")) ]))
                      (lit "GuardDuty Finding Enrichment Report") (lit "json") |} ]
      ++ cleanup.
Proof.
  destruct (report_is_published Sample.runtime (world_with_url (lit " https://dummy url "))
              Sample.EVENT Sample.context Sample.S3_BUCKET_NAME Sample.SNS_TOPIC_ARN
              (PStr Sample.FINDING_ID) (Sample.finding (PInt 6)) Sample.insights
              sample_pdf (lit " https://dummy url ") PNone
              (Sample.enrichment_requests
               ++ [analysis_request Sample.runtime
                     (world_with_url (lit " https://dummy url "))
                     (Sample.finding (PInt 6)) Sample.MEMBER_DETAILS]))
    as (detector_id & graph_arn & entities & cleanup & encoded_url
        & _ & H & _ & He & _).
  - repeat split; try reflexivity; discriminate.
  - apply sample_analysed, sample_carries_ids.
  - reflexivity.
  - reflexivity.
  - reflexivity.
  - exists cleanup. rewrite H, He. vm_compute. reflexivity.
Defined.

(** ** Cleaning the retry rule *)

Lemma remove_retry_event_rule_run w c name t :
  remove_retry_event_rule w c name t
  = (Ok tt, t ++ [{| client := c; op := delete_rule name |}]).
Proof.
  unfold remove_retry_event_rule, try_except, bind, call, ret.
  destruct (respond w t _); reflexivity.
Qed.

(** C5, on the code.  A run whose event carries a retry marker and that
    published its report asks for the deletion of the rule of that name,
    and returns status 200 whatever the answer to that request is.  The
    request is made on the notification client (sns): no request of the
    run reaches the scheduler (events), where [schedule_retry] created
    the rule. *)
Theorem cleanup_is_requested_from_sns rt w event context bucket topic
    finding_id finding ai_insights pdf url r1 r3 name t :
  configured w bucket topic ->
  analysed rt w event context finding_id finding ai_insights t ->
  generate_pdf rt w ai_insights (convert_to_json_serializable rt finding) = Ok pdf ->
  respond w t (put_request rt bucket finding_id pdf) = Ok r1 ->
  respond w (t ++ [put_request rt bucket finding_id pdf])
    (presign_request rt bucket finding_id) = Ok (PStr url) ->
  respond w (t ++ [ put_request rt bucket finding_id pdf;
                    presign_request rt bucket finding_id ])
    (notification_request rt topic url) = Ok r3 ->
  carries_marker event name ->
  lambda_handler rt w event context []
  = (Ok {| statusCode := 200; body := json_dumps rt ai_insights |},
     t ++ [ put_request rt bucket finding_id pdf;
            presign_request rt bucket finding_id;
            notification_request rt topic url;
            {| client := sns; op := delete_rule name |} ])
  /\ Forall (fun r => client r <> events)
       (t ++ [ put_request rt bucket finding_id pdf;
               presign_request rt bucket finding_id;
               notification_request rt topic url;
               {| client := sns; op := delete_rule name |} ]).
Proof.
  intros Hcfg Han Hpdf Hput Hurl Hpub (detail & Hd & Hm & Htruthy). split.
  - assert (Hp : process rt w event context bucket topic []
                 = (Ok (inr ai_insights),
                    t ++ [ put_request rt bucket finding_id pdf;
                           presign_request rt bucket finding_id;
                           notification_request rt topic url;
                           {| client := sns; op := delete_rule name |} ])).
    { rewrite (process_analysed _ _ _ _ _ _ _ _ _ _ _ Han Hpdf).
      unfold publish_and_clean.
      rewrite (bind_Ok _ _ _ _ _ (upload_pdf_to_s3_run _ _ _ _ _ _ _ _ Hput Hurl)).
      pose proof (send_sns_notification_run rt w topic url
                    (t ++ [put_request rt bucket finding_id pdf;
                           presign_request rt bucket finding_id])) as Hsend.
      rewrite Hpub in Hsend. rewrite (bind_Ok _ _ _ _ _ Hsend).
      repeat step_lift. rewrite Htruthy.
      rewrite (bind_Ok _ _ _ _ _ (remove_retry_event_rule_run w sns name _)).
      unfold ret. rewrite <- !app_assoc. reflexivity. }
    rewrite (lambda_handler_process _ _ _ _ _ _ _ Hcfg), Hp. reflexivity.
  - destruct (analysed_requests _ _ _ _ _ _ _ _ _ Han Hpdf)
      as (detector_id & graph_arn & entities & ->).
    cbn [app].
    repeat (apply Forall_cons; [simpl; discriminate |]). apply Forall_nil.
Qed.

Lemma cleanup_is_requested_from_sns_witness :
  lambda_handler Sample.runtime (world_with_url (lit "https://dummyurl"))
    Sample.RETRY_EVENT Sample.context []
  = (Ok {| statusCode := 200; body := Sample.dumps Sample.insights |},
     (Sample.enrichment_requests
      ++ [analysis_request Sample.runtime (world_with_url (lit "https://dummyurl"))
            (Sample.finding (PInt 6)) Sample.MEMBER_DETAILS])
     ++ [ put_request Sample.runtime Sample.S3_BUCKET_NAME (PStr Sample.FINDING_ID)
            sample_pdf;
          presign_request Sample.runtime Sample.S3_BUCKET_NAME (PStr Sample.FINDING_ID);
          notification_request Sample.runtime Sample.SNS_TOPIC_ARN
            (lit "https://dummyurl");
          {| client := sns; op := delete_rule (PStr Sample.MARKER) |} ]).
Proof.
  apply (cleanup_is_requested_from_sns Sample.runtime
           (world_with_url (lit "https://dummyurl"))
           Sample.RETRY_EVENT Sample.context Sample.S3_BUCKET_NAME Sample.SNS_TOPIC_ARN
           (PStr Sample.FINDING_ID) (Sample.finding (PInt 6)) Sample.insights
           sample_pdf (lit "https://dummyurl") PNone PNone (PStr Sample.MARKER)).
  - repeat split; try reflexivity; discriminate.
  - apply sample_analysed, sample_carries_ids.
  - reflexivity.
  - reflexivity.
  - reflexivity.
  - reflexivity.
  - eexists. repeat split; reflexivity.
Defined.

(** ** A response without text *)

Lemma invoke_bedrock_model_answered rt w finding entities event context
    answer text ai_insights t :
  respond w t (analysis_request rt w finding entities) = Ok answer ->
  py_getitem answer (lit "body") = Ok (PStr text) ->
  json_loads rt text = Some ai_insights ->
  invoke_bedrock_model rt w bedrock_runtime
    (convert_to_json_serializable rt finding)
    (convert_to_json_serializable rt entities) event context t
  = (match py_get ai_insights (lit "content") (PList [PDict []]) with
     | Ok content =>
         match py_first content with
         | Ok block => py_get block (lit "text") (PStr [])
         | Raise e => Raise e
         end
     | Raise e => Raise e
     end,
     t ++ [analysis_request rt w finding entities]).
Proof.
  intros Hr Hb Hl. unfold invoke_bedrock_model, analysis_request in *.
  unfold try_except, bind, call, lift. rewrite Hr, Hb. cbn [read_decode].
  rewrite Hl.
  assert (Hblock : forall (P : outcome pyval -> Prop),
             (forall x, P (Ok x)) -> P (Raise AttributeError) ->
             forall block, P (py_get block (lit "text") (PStr []))).
  { intros P HOk HRaise block. destruct block; cbn [py_get]; auto.
    destruct (dict_get (lit "text") d); auto. }
  destruct ai_insights as [| b | n | f | s | d | d | l | d]; cbn [py_get];
    try reflexivity.
  destruct (dict_get (lit "content") d) as [content |].
  - destruct content as [| b | n | f | [| c s] | dc | dt | [| x l] | d'];
      cbn [py_first]; try reflexivity;
      apply (Hblock (fun o => match o with Ok a => _ | Raise e => _ end = (o, _)));
      reflexivity.
  - cbn [py_first].
    apply (Hblock (fun o => match o with Ok a => _ | Raise e => _ end = (o, _)));
      reflexivity.
Qed.

(** A response whose content is absent, or whose first block has no
    text, gives the empty text. *)
Lemma absent_text_gives_empty_text rt w finding entities event context
    answer text d t :
  respond w t (analysis_request rt w finding entities) = Ok answer ->
  py_getitem answer (lit "body") = Ok (PStr text) ->
  json_loads rt text = Some (PDict d) ->
  dict_get (lit "content") d = None
  \/ (exists block rest,
        dict_get (lit "content") d = Some (PList (PDict block :: rest))
        /\ dict_get (lit "text") block = None) ->
  invoke_bedrock_model rt w bedrock_runtime
    (convert_to_json_serializable rt finding)
    (convert_to_json_serializable rt entities) event context t
  = (Ok (PStr []), t ++ [analysis_request rt w finding entities]).
Proof.
  intros Hr Hb Hl Habsent.
  rewrite (invoke_bedrock_model_answered _ _ _ _ _ _ _ _ _ _ Hr Hb Hl).
  destruct Habsent as [Hc | (block & rest & Hc & Ht)]; cbn [py_get]; rewrite Hc.
  - reflexivity.
  - cbn [py_first py_get]. now rewrite Ht.
Qed.

(** C7, on the code.  A response of the model whose content is the empty
    list has no text, and the analysis does not return the empty text for
    it: taking the first block raises IndexError, and the run returns
    status 500. *)
Theorem empty_content_fails_the_run rt w event context bucket topic
    finding_id finding entities answer text d t :
  configured w bucket topic ->
  enriched w event finding_id finding entities t ->
  respond w t (analysis_request rt w finding entities) = Ok answer ->
  py_getitem answer (lit "body") = Ok (PStr text) ->
  json_loads rt text = Some (PDict d) ->
  dict_get (lit "content") d = Some (PList []) ->
  invoke_bedrock_model rt w bedrock_runtime
    (convert_to_json_serializable rt finding)
    (convert_to_json_serializable rt entities) event context t
  = (Raise IndexError, t ++ [analysis_request rt w finding entities])
  /\ lambda_handler rt w event context []
     = (Ok {| statusCode := 500;
              body := json_dumps rt
                        (PStr (lit "Error in processing: "
                               ++ str_of_exn rt IndexError)) |},
        t ++ [analysis_request rt w finding entities]).
Proof.
  intros Hcfg Hen Hr Hb Hl Hc.
  assert (Hai : invoke_bedrock_model rt w bedrock_runtime
                  (convert_to_json_serializable rt finding)
                  (convert_to_json_serializable rt entities) event context t
                = (Raise IndexError, t ++ [analysis_request rt w finding entities])).
  { rewrite (invoke_bedrock_model_answered _ _ _ _ _ _ _ _ _ _ Hr Hb Hl).
    cbn [py_get]. rewrite Hc. reflexivity. }
  split; [exact Hai |].
  rewrite (lambda_handler_process _ _ _ _ _ _ _ Hcfg).
  rewrite (process_enriched _ _ _ _ _ _ _ _ _ _ Hen).
  rewrite (bind_Raise _ _ _ _ _ Hai). reflexivity.
Qed.

Lemma empty_content_fails_the_run_witness :
  lambda_handler Sample.runtime
    (Sample.world_with Sample.environment (PFloat 6.0)
       (Sample.answer_of Sample.body_with_empty_content) (Ok PNone))
    Sample.EVENT Sample.context []
  = (Ok {| statusCode := 500;
           body := Sample.dumps
                     (PStr (lit "Error in processing: "
                            ++ str_of_exn Sample.runtime IndexError)) |},
     Sample.enrichment_requests
     ++ [analysis_request Sample.runtime
           (Sample.world_with Sample.environment (PFloat 6.0)
              (Sample.answer_of Sample.body_with_empty_content) (Ok PNone))
           (Sample.finding (PFloat 6.0)) Sample.MEMBER_DETAILS]).
Proof.
  apply (empty_content_fails_the_run Sample.runtime
           (Sample.world_with Sample.environment (PFloat 6.0)
              (Sample.answer_of Sample.body_with_empty_content) (Ok PNone))
           Sample.EVENT Sample.context Sample.S3_BUCKET_NAME Sample.SNS_TOPIC_ARN
           (PStr Sample.FINDING_ID) (Sample.finding (PFloat 6.0)) Sample.MEMBER_DETAILS
           (PDict [(lit "body", PStr Sample.body_with_empty_content)])
           Sample.body_with_empty_content
           [(lit "content", PList [])]).
  - repeat split; try reflexivity; discriminate.
  - apply sample_enriched. reflexivity.
  - reflexivity.
  - reflexivity.
  - reflexivity.
  - reflexivity.
Defined.

(** ** A run whose registration failed *)

(** When the model throttles and the registration of the retry fails,
    the run goes on without a text and returns status 500. *)
Lemma failed_registration_fails_the_run rt w event context bucket topic
    finding_id finding entities t :
  configured w bucket topic ->
  enriched w event finding_id finding entities t ->
  respond w t (analysis_request rt w finding entities)
  = Raise (ClientError (lit "ThrottlingException")) ->
  has_key event (lit "account") ->
  has_key event (lit "region") ->
  registration_fails rt w (t ++ [analysis_request rt w finding entities]) ->
  exists e t',
    lambda_handler rt w event context [] = (Ok (result_of rt (Raise e)), t').
Proof.
  intros Hcfg Hen Hthr Ha Hr Hfail.
  pose proof Hen as (detector_id & _ & _ & _ & _ & Hids & _).
  destruct (schedule_retry_swallows rt w event context finding_id
              detector_id _ Hids Ha Hr Hfail) as (t' & Hs).
  rewrite <- (invoke_bedrock_model_throttled _ _ _ _ _ _ _ Hthr) in Hs.
  destruct (generate_pdf_needs_text rt w PNone
              (convert_to_json_serializable rt finding)) as [e He];
    [discriminate |].
  exists e, t'.
  rewrite (lambda_handler_process _ _ _ _ _ _ _ Hcfg).
  rewrite (process_enriched _ _ _ _ _ _ _ _ _ _ Hen).
  rewrite (bind_Ok _ _ _ _ _ Hs). unfold after_analysis. cbn [eq_str].
  unfold bind, lift. rewrite He. reflexivity.
Qed.




(** The run of the sample event when the model throttles, at 11:40:01
    with a delay of 35 seconds: the rule is for the minute 11:40. *)
Example throttled_sample_run :
  lambda_handler Sample.runtime
    (Sample.world_with Sample.environment (PFloat 4.0) Sample.throttled (Ok PNone))
    Sample.EVENT Sample.context []
  = (Ok {| statusCode := 200;
           body := [dquote] ++ lit "Event scheduled." ++ [dquote] |},
     Sample.enrichment_requests
     ++ [ analysis_request Sample.runtime
            (Sample.world_with Sample.environment (PFloat 4.0) Sample.throttled
               (Ok PNone))
            (Sample.finding (PFloat 4.0)) Sample.MEMBER_DETAILS;
          {| client := events;
             op := put_rule
                     (lit "RetryLambdaInvocation-52fdfc07-2182-154f-163f-5f0f9a621d72")
                     (lit "cron(40 11 18 10 ? 2024)") (lit "ENABLED") |};
          {| client := events;
             op := put_targets
                     (lit "RetryLambdaInvocation-52fdfc07-2182-154f-163f-5f0f9a621d72")
                     [ {| Id := lit "52fdfc07-2182-154f-163f-5f0f9a621d72";
                          Arn := lit "arn:aws:lambda:us-east-1:123456789012:function:test";
                          Input :=
                            Sample.dumps
                              (PDict
                                 [ (lit "version", PStr (lit "0"));
                                   (lit "id", PStr (lit "sample-event-id"));
                                   (lit "detail-type", PStr (lit "GuardDuty Finding"));
                                   (lit "source", PStr (lit "aws.guardduty"));
                                   (lit "account", PStr (lit "123456789012"));
                                   (lit "time", PStr (lit "2024-10-18T11:40:01Z"));
                                   (lit "region", PStr (lit "us-east-1"));
                                   (lit "resources", PList []);
                                   (lit "detail",
                                     PDict
                                       [ (lit "schemaVersion", PStr (lit "2.0"));
                                         (lit "accountId", PStr (lit "123456789012"));
                                         (lit "region", PStr (lit "us-east-1"));
                                         (lit "partition", PStr (lit "aws"));
                                         (lit "id", PStr (lit "test_finding_id"));
                                         (lit "service",
                                           PDict [(lit "detectorId",
                                                    PStr (lit "sample-detector"))]);
                                         (lit "retryRuleName",
                                           PStr (lit "RetryLambdaInvocation-52fdfc07-2182-154f-163f-5f0f9a621d72")) ]) ]) |} ] |} ]).
Proof. vm_compute. reflexivity. Qed.


(** ** The calls of a rendering *)

Section RenderingCalls.

Variable rt : Runtime.
Variable w : World.
Hypothesis Hquiet : quiet rt.

Lemma pdf_call_quiet o log : pdf_call rt o log = (Ok tt, log ++ [o]).
Proof. unfold pdf_call. now rewrite Hquiet. Qed.

Lemma pdf_calls_quiet ops log : pdf_calls rt ops log = (Ok tt, log ++ ops).
Proof.
  revert log. induction ops as [| o ops IH]; intros log; cbn [pdf_calls].
  - unfold ret. now rewrite app_nil_r.
  - rewrite (bind_Ok _ _ _ _ _ (pdf_call_quiet o log)), IH.
    now rewrite <- app_assoc.
Qed.

Lemma render_lines_quiet lines log :
  for_each lines (fun line => pdf_calls rt (render_line line)) log
  = (Ok tt, log ++ flat_map render_line lines).
Proof.
  revert log. induction lines as [| line lines IH]; intros log;
    cbn [for_each flat_map].
  - unfold ret. now rewrite app_nil_r.
  - rewrite (bind_Ok _ _ _ _ _ (pdf_calls_quiet (render_line line) log)), IH.
    now rewrite <- app_assoc.
Qed.

Lemma render_sections_quiet sections log :
  for_each sections
    (fun section =>
       for_each (split newline section)
         (fun line => pdf_calls rt (render_line line)) ;;;
       pdf_call rt (ln 5)) log
  = (Ok tt,
     log ++ flat_map (fun section =>
                        flat_map render_line (split newline section) ++ [ln 5])
              sections).
Proof.
  revert log. induction sections as [| section sections IH]; intros log;
    cbn [for_each flat_map].
  - unfold ret. now rewrite app_nil_r.
  - assert (Hsection :
              (for_each (split newline section)
                 (fun line => pdf_calls rt (render_line line)) ;;;
               pdf_call rt (ln 5)) log
              = (Ok tt, log ++ flat_map render_line (split newline section) ++ [ln 5])).
    { rewrite (bind_Ok _ _ _ _ _ (render_lines_quiet (split newline section) log)).
      rewrite pdf_call_quiet. now rewrite <- app_assoc. }
    unfold bind at 1. cbv beta. rewrite Hsection, IH. now rewrite <- !app_assoc.
Qed.

Lemma snd_output log :
  snd ((document <- (fun log => (fpdf_output rt (now w) log, log)) ;;
        lift (match encode_latin1 document with
              | Some pdf_output => Ok pdf_output
              | None => Raise UnicodeEncodeError
              end)) log)
  = log.
Proof. unfold bind, lift. destruct (fpdf_output rt (now w) log); reflexivity. Qed.

(** The calls made on the [FPDF] object for a text and a finding, when
    the library raises on none of them: the calls of the first sections,
    which end with the heading of the analysis; then the calls for the
    lines of the text, which are those of [render_line], group by group;
    then the closing calls. *)
Lemma generate_pdf_calls_log text finding :
  exists opening,
    snd (generate_pdf_calls rt w (PStr text) (PDict finding) [])
    = opening
      ++ [cell 200 10 (PStr (lit "AI Insights")) true (lit "") (lit "")]
      ++ analysis_calls text ++ closing_calls.
Proof.
  unfold generate_pdf_calls, analysis_calls, closing_calls.
  repeat first
    [ rewrite (bind_Ok _ _ _ _ _ (pdf_call_quiet _ _))
    | rewrite (bind_lift _ _ _ _ (py_get_dict _ _ _)) ].
  cbn [py_strip].
  rewrite (bind_lift _ _ _ _ eq_refl).
  rewrite (bind_Ok _ _ _ _ _ (render_sections_quiet _ _)).
  repeat rewrite (bind_Ok _ _ _ _ _ (pdf_call_quiet _ _)).
  rewrite snd_output.
  match goal with
  | |- exists _, ((((((?opening ++ [cell _ _ (PStr (lit "AI Insights")) _ _ _])
                       ++ _) ++ _) ++ _) ++ _) ++ _) ++ _ = _ =>
      exists opening
  end.
  now rewrite <- !app_assoc.
Qed.

End RenderingCalls.

(** The analysis text of the scenario of the specification renders as
    two headings, each followed by its body line and a separator. *)
Example analysis_calls_scenario :
  analysis_calls
    (lit "Analysis:" ++ [newline] ++ lit "Breach detected." ++ [newline; newline]
     ++ lit "Remediation Actions:" ++ [newline] ++ lit "Rotate keys.")
  = heading 12 (lit "Analysis:") ++ paragraph (lit "Breach detected.") ++ [ln 5]
    ++ heading 12 (lit "Remediation Actions:") ++ paragraph (lit "Rotate keys.")
    ++ [ln 5].
Proof. vm_compute. reflexivity. Qed.

(** ** Conversions *)

(** Induction on a value, with the property for the members of a list
    and for the values of a dict. *)
Lemma pyval_nested_ind (P : pyval -> Prop) :
  P PNone -> (forall b, P (PBool b)) -> (forall n, P (PInt n)) ->
  (forall f, P (PFloat f)) -> (forall s, P (PStr s)) ->
  (forall d, P (PDecimal d)) -> (forall t, P (PDatetime t)) ->
  (forall l, Forall P l -> P (PList l)) ->
  (forall d, Forall (fun kv => P (snd kv)) d -> P (PDict d)) ->
  forall v, P v.
Proof.
  intros HNone HBool HInt HFloat HStr HDec HDate HList HDict.
  fix IH 1. intros [| b | n | f | s | d | t | l | d].
  - exact HNone.
  - apply HBool.
  - apply HInt.
  - apply HFloat.
  - apply HStr.
  - apply HDec.
  - apply HDate.
  - apply HList. induction l as [| x l IHl]; constructor; [apply IH | exact IHl].
  - apply HDict.
    induction d as [| [k x] d IHd]; constructor; [apply IH | exact IHd].
Qed.

Lemma json_clean_convert rt v :
  json_clean (convert_to_json_serializable rt v) = true.
Proof.
  induction v as [| | | | | | | l IH | d IH] using pyval_nested_ind;
    try reflexivity; cbn [convert_to_json_serializable json_clean].
  - rewrite forallb_forall. intros x Hx. apply in_map_iff in Hx.
    destruct Hx as [y [<- Hy]]. rewrite Forall_forall in IH. now apply IH.
  - rewrite forallb_forall. intros [k x] Hx. apply in_map_iff in Hx.
    destruct Hx as [[k' y] [E Hy]]. injection E as <- <-.
    rewrite Forall_forall in IH. now apply (IH (k', y)).
Qed.

(** X1. What [convert_to_json_serializable] returns has no Decimal and
    no datetime left, at any depth of lists and dicts: it is a value
    that [json.dumps] accepts. *)
Theorem convert_to_json_serializable_clean rt v :
  json_clean (convert_to_json_serializable rt v) = true.
Proof. apply json_clean_convert. Qed.

(** X2. A value that has no Decimal and no datetime is returned as it
    is by [convert_to_json_serializable]. *)
Theorem convert_to_json_serializable_keeps_clean rt v :
  json_clean v = true -> convert_to_json_serializable rt v = v.
Proof.
  induction v as [| | | | | | | l IH | d IH] using pyval_nested_ind;
    try reflexivity; try discriminate;
    cbn [convert_to_json_serializable json_clean]; intros H; f_equal.
  - induction l as [| x l IHl]; [reflexivity |].
    cbn [forallb] in H. apply andb_true_iff in H. destruct H as [Hx Hl].
    inversion IH; subst. cbn [List.map]. f_equal; auto.
  - induction d as [| [k x] d IHd]; [reflexivity |].
    cbn [forallb] in H. apply andb_true_iff in H. destruct H as [Hx Hd].
    inversion IH; subst. cbn [List.map]. f_equal; auto.
    f_equal. auto.
Qed.

Lemma convert_to_json_serializable_keeps_clean_witness :
  convert_to_json_serializable Sample.runtime (Sample.finding (PFloat 6.0))
  = Sample.finding (PFloat 6.0).
Proof.
  apply (convert_to_json_serializable_keeps_clean Sample.runtime
           (Sample.finding (PFloat 6.0))).
  reflexivity.
Defined.

Lemma dict_get_map (f : pyval -> pyval) k d :
  dict_get k (List.map (fun kv : str * pyval => let (key, value) := kv in
                                                (key, f value)) d)
  = option_map f (dict_get k d).
Proof.
  induction d as [| [k' x] d IH]; [reflexivity |].
  cbn [List.map dict_get]. destruct (str_eqb k' k); [reflexivity | exact IH].
Qed.

(** X3. Conversion keeps the shape of its argument: a dict keeps its
    keys, in order, a list keeps its length, a key is looked up in the
    converted dict as in the original (with the value converted, and
    the same KeyError or TypeError otherwise), and so is the first
    member. *)
Theorem convert_to_json_serializable_shape rt v k :
  py_getitem (convert_to_json_serializable rt v) k
  = outcome_map (convert_to_json_serializable rt) (py_getitem v k)
  /\ (forall d, v = PDict d ->
        exists d', convert_to_json_serializable rt v = PDict d' /\ keys d' = keys d)
  /\ (forall l, v = PList l ->
        exists l', convert_to_json_serializable rt v = PList l'
                   /\ List.length l' = List.length l
                   /\ py_first (PList l')
                      = outcome_map (convert_to_json_serializable rt) (py_first (PList l))).
Proof.
  split; [| split].
  - destruct v; try reflexivity.
    cbn [convert_to_json_serializable py_getitem]. rewrite dict_get_map.
    destruct (dict_get k d); reflexivity.
  - intros d ->. eexists. split; [reflexivity |].
    unfold keys. rewrite map_map. apply map_ext. now intros [k' x].
  - intros l ->. eexists. split; [reflexivity |]. split.
    + apply length_map.
    + destruct l; reflexivity.
Qed.

Lemma float_free_convert_to_string rt v : float_free (convert_to_string rt v) = true.
Proof.
  induction v as [| | | | | | | l IH | d IH] using pyval_nested_ind;
    try reflexivity; cbn [convert_to_string float_free].
  - rewrite forallb_forall. intros x Hx. apply in_map_iff in Hx.
    destruct Hx as [y [<- Hy]]. rewrite Forall_forall in IH. now apply IH.
  - rewrite forallb_forall. intros [k x] Hx. apply in_map_iff in Hx.
    destruct Hx as [[k' y] [E Hy]]. injection E as <- <-.
    rewrite Forall_forall in IH. now apply (IH (k', y)).
Qed.

Lemma json_clean_convert_to_string rt v :
  json_clean v = true -> json_clean (convert_to_string rt v) = true.
Proof.
  induction v as [| | | | | | | l IH | d IH] using pyval_nested_ind;
    try reflexivity; try discriminate;
    cbn [convert_to_string json_clean]; rewrite !forallb_forall; intros H.
  - intros x Hx. apply in_map_iff in Hx. destruct Hx as [y [<- Hy]].
    rewrite Forall_forall in IH. auto.
  - intros [k x] Hx. apply in_map_iff in Hx.
    destruct Hx as [[k' y] [E Hy]]. injection E as <- <-.
    rewrite Forall_forall in IH. apply (IH (k', y) Hy). exact (H (k', y) Hy).
Qed.

(** X4. What [convert_to_string] returns has no float left, at any
    depth; applied after [convert_to_json_serializable], it leaves only
    None, booleans, integers, texts, lists and dicts. *)
Theorem convert_to_string_no_float rt v :
  float_free (convert_to_string rt v) = true
  /\ float_free (convert_to_string rt (convert_to_json_serializable rt v)) = true
  /\ json_clean (convert_to_string rt (convert_to_json_serializable rt v)) = true.
Proof.
  split; [| split].
  - apply float_free_convert_to_string.
  - apply float_free_convert_to_string.
  - apply json_clean_convert_to_string, json_clean_convert.
Qed.

(** ** Reading the finding and the graph *)

(** The result with status 500 for an exception. *)
Lemma lambda_handler_fails rt w event context bucket topic e t' :
  configured w bucket topic ->
  process rt w event context bucket topic [] = (Raise e, t') ->
  lambda_handler rt w event context []
  = (Ok {| statusCode := 500;
           body := json_dumps rt (PStr (lit "Error in processing: " ++ str_of_exn rt e)) |},
     t').
Proof.
  intros Hcfg Hp. rewrite (lambda_handler_process _ _ _ _ _ _ _ Hcfg), Hp.
  reflexivity.
Qed.

(** X5. When the graph source lists no graph (an empty GraphList, or
    none in the answer), [get_graph_arn] raises the exception "No graphs
    found in Amazon Detective." after its one request. *)
Theorem get_graph_arn_without_graph w c graphs t :
  respond w t {| client := c; op := list_graphs |} = Ok (PDict graphs) ->
  dict_get (lit "GraphList") graphs = None
  \/ dict_get (lit "GraphList") graphs = Some (PList []) ->
  get_graph_arn w c t
  = (Raise (Exception (lit "No graphs found in Amazon Detective.")),
     t ++ [{| client := c; op := list_graphs |}]).
Proof.
  intros Hr Hnone. unfold get_graph_arn. rewrite try_except_reraise.
  unfold bind, call, lift. rewrite Hr. cbn [py_get].
  destruct Hnone as [-> | ->]; reflexivity.
Qed.

Lemma get_graph_arn_without_graph_witness :
  get_graph_arn
    {| environ := []; respond := fun _ _ => Ok (PDict [(lit "NextToken", PNone)]);
       utcnow := utcnow Sample.world; now := now Sample.world;
       random_source := 0; uuid4 := [] |}
    detective []
  = (Raise (Exception (lit "No graphs found in Amazon Detective.")),
     [{| client := detective; op := list_graphs |}]).
Proof.
  apply (get_graph_arn_without_graph
           {| environ := []; respond := fun _ _ => Ok (PDict [(lit "NextToken", PNone)]);
              utcnow := utcnow Sample.world; now := now Sample.world;
              random_source := 0; uuid4 := [] |}
           detective [(lit "NextToken", PNone)] []).
  - reflexivity.
  - left. reflexivity.
Defined.

(** X6. When the finding source answers with an empty list of findings,
    taking the first one raises IndexError: the handler returns status
    500 and has made no request but that one. *)
Theorem finding_not_found rt w event context bucket topic
    finding_id detector_id found :
  configured w bucket topic ->
  carries_ids event finding_id detector_id ->
  respond w [] {| client := guardduty; op := get_findings detector_id [finding_id] |}
  = Ok (PDict found) ->
  dict_get (lit "Findings") found = Some (PList []) ->
  lambda_handler rt w event context []
  = (Ok {| statusCode := 500;
           body := json_dumps rt
                     (PStr (lit "Error in processing: " ++ str_of_exn rt IndexError)) |},
     [ {| client := guardduty; op := get_findings detector_id [finding_id] |} ]).
Proof.
  intros Hcfg (detail & service & Hd & Hi & Hs & Hdet) Hr Hempty.
  apply (lambda_handler_fails _ _ _ _ _ _ _ _ Hcfg).
  assert (Hf : get_guardduty_finding w guardduty detector_id finding_id []
               = (Raise IndexError,
                  [ {| client := guardduty;
                       op := get_findings detector_id [finding_id] |} ])).
  { unfold get_guardduty_finding. rewrite try_except_reraise.
    unfold bind, call, lift. rewrite Hr. cbn [py_getitem]. rewrite Hempty.
    reflexivity. }
  unfold process. repeat step_lift. now rewrite (bind_Raise _ _ _ _ _ Hf).
Qed.

Lemma finding_not_found_witness :
  lambda_handler Sample.runtime
    {| environ := Sample.environment;
       respond := fun _ _ => Ok (PDict [(lit "Findings", PList [])]);
       utcnow := utcnow Sample.world; now := now Sample.world;
       random_source := 0; uuid4 := [] |}
    Sample.EVENT Sample.context []
  = (Ok {| statusCode := 500;
           body := Sample.dumps
                     (PStr (lit "Error in processing: "
                            ++ str_of_exn Sample.runtime IndexError)) |},
     [ {| client := guardduty;
          op := get_findings (PStr Sample.DETECTOR_ID) [PStr Sample.FINDING_ID] |} ]).
Proof.
  apply (finding_not_found Sample.runtime
           {| environ := Sample.environment;
              respond := fun _ _ => Ok (PDict [(lit "Findings", PList [])]);
              utcnow := utcnow Sample.world; now := now Sample.world;
              random_source := 0; uuid4 := [] |}
           Sample.EVENT Sample.context Sample.S3_BUCKET_NAME Sample.SNS_TOPIC_ARN
           (PStr Sample.FINDING_ID) (PStr Sample.DETECTOR_ID)
           [(lit "Findings", PList [])]).
  - repeat split; try reflexivity; discriminate.
  - do 2 eexists. repeat split; reflexivity.
  - reflexivity.
  - reflexivity.
Defined.

(** X7. [list_datasource_packages] never raises: it makes its one read
    and returns a value, which is None whenever the read raises or its
    answer has no DatasourcePackages; a value other than None is the
    DatasourcePackages of the answer. *)
Theorem list_datasource_packages_never_raises answer graph_arn t :
  exists v,
    list_datasource_packages answer graph_arn t
    = (Ok v, t ++ [ListDatasourcePackages graph_arn])
    /\ ((forall packages,
           answer t (ListDatasourcePackages graph_arn) = Ok packages ->
           exists e, py_getitem packages (lit "DatasourcePackages") = Raise e) ->
        v = PNone)
    /\ (v <> PNone ->
        exists packages,
          answer t (ListDatasourcePackages graph_arn) = Ok packages
          /\ py_getitem packages (lit "DatasourcePackages") = Ok v).
Proof.
  unfold list_datasource_packages, try_except, bind, read, lift, ret.
  destruct (answer t (ListDatasourcePackages graph_arn)) as [packages | e].
  - destruct (py_getitem packages (lit "DatasourcePackages")) as [v | e] eqn:E.
    + exists v. split; [reflexivity | split].
      * intros H. destruct (H packages eq_refl) as [e He]. congruence.
      * intros _. now exists packages.
    + exists PNone. split; [reflexivity | split; [reflexivity | congruence]].
  - exists PNone. split; [reflexivity | split; [reflexivity | congruence]].
Qed.

(** X8. [get_entity_details] asks for the members with the one account
    and returns the first member of the answer; when the answer has no
    member, it raises IndexError. *)
Theorem get_entity_details_first_member answer graph_arn account_id entity_data
    members t :
  answer t (GetMembers graph_arn [account_id]) = Ok (PDict entity_data) ->
  dict_get (lit "MemberDetails") entity_data = Some (PList members) ->
  get_entity_details answer graph_arn account_id t
  = (match members with
     | first :: _ => Ok first
     | [] => Raise IndexError
     end,
     t ++ [GetMembers graph_arn [account_id]]).
Proof.
  intros Ha Hm. unfold get_entity_details. rewrite try_except_reraise.
  unfold bind, read, lift. rewrite Ha. cbn [py_getitem]. rewrite Hm.
  destruct members; reflexivity.
Qed.

Lemma get_entity_details_first_member_witness :
  get_entity_details
    (fun _ _ => Ok (PDict [(lit "MemberDetails", PList [])]))
    (PStr (lit "test_graph_arn")) (PStr Sample.ACCOUNT_ID) []
  = (Raise IndexError,
     [GetMembers (PStr (lit "test_graph_arn")) [PStr Sample.ACCOUNT_ID]]).
Proof.
  apply (get_entity_details_first_member
           (fun _ _ => Ok (PDict [(lit "MemberDetails", PList [])]))
           (PStr (lit "test_graph_arn")) (PStr Sample.ACCOUNT_ID)
           [(lit "MemberDetails", PList [])] [] []).
  - reflexivity.
  - reflexivity.
Defined.

(** X9. [get_all_detective_entities] returns the empty list when the
    answer has no MemberDetails; when MemberDetails is there but is None
    (or a number), the length taken for the log message raises
    TypeError, and the function raises it. *)
Theorem get_all_detective_entities_without_members w c graph_arn members t :
  respond w t {| client := c; op := list_members graph_arn |} = Ok (PDict members) ->
  (dict_get (lit "MemberDetails") members = None ->
   get_all_detective_entities w c graph_arn t
   = (Ok (PList []), t ++ [{| client := c; op := list_members graph_arn |}]))
  /\ (forall v, dict_get (lit "MemberDetails") members = Some v ->
      py_len v = Raise TypeError ->
      get_all_detective_entities w c graph_arn t
      = (Raise TypeError, t ++ [{| client := c; op := list_members graph_arn |}])).
Proof.
  intros Hr. unfold get_all_detective_entities. rewrite try_except_reraise.
  unfold bind, call, lift, ret. rewrite Hr. cbn [py_get]. split.
  - intros ->. reflexivity.
  - intros v -> Hlen. now rewrite Hlen.
Qed.

Lemma get_all_detective_entities_without_members_witness :
  get_all_detective_entities
    {| environ := []; respond := fun _ _ => Ok (PDict [(lit "MemberDetails", PNone)]);
       utcnow := utcnow Sample.world; now := now Sample.world;
       random_source := 0; uuid4 := [] |}
    detective (PStr (lit "test_graph_arn")) []
  = (Raise TypeError,
     [{| client := detective; op := list_members (PStr (lit "test_graph_arn")) |}]).
Proof.
  destruct (get_all_detective_entities_without_members
              {| environ := [];
                 respond := fun _ _ => Ok (PDict [(lit "MemberDetails", PNone)]);
                 utcnow := utcnow Sample.world; now := now Sample.world;
                 random_source := 0; uuid4 := [] |}
              detective (PStr (lit "test_graph_arn")) [(lit "MemberDetails", PNone)] []
              eq_refl) as [_ H].
  apply (H PNone); reflexivity.
Defined.

(** ** The arguments of the analysis request *)

Lemma dict_get_set_same k v d : dict_get k (dict_set k v d) = Some v.
Proof.
  induction d as [| [k' x] d IH]; cbn [dict_set dict_get].
  - now rewrite str_eqb_refl.
  - destruct (str_eqb k' k) eqn:E; cbn [dict_get]; rewrite E; auto.
Qed.

Lemma dict_get_set_other k k' v d :
  k' <> k -> dict_get k' (dict_set k v d) = dict_get k' d.
Proof.
  intros Hne. induction d as [| [k0 x] d IH]; cbn [dict_set dict_get].
  - destruct (str_eqb k k') eqn:E; [| reflexivity].
    apply str_eqb_eq in E. congruence.
  - destruct (str_eqb k0 k) eqn:E; cbn [dict_get].
    + apply str_eqb_eq in E. subst k0.
      destruct (str_eqb k k') eqn:E'; [| reflexivity].
      apply str_eqb_eq in E'. congruence.
    + destruct (str_eqb k0 k'); [reflexivity | exact IH].
Qed.

Lemma keys_dict_set k v d : exists more, keys (dict_set k v d) = keys d ++ more.
Proof.
  induction d as [| [k' x] d [more IH]]; cbn [dict_set].
  - now exists [k].
  - destruct (str_eqb k' k).
    + exists []. now rewrite app_nil_r.
    + exists more. unfold keys in *. cbn [List.map fst]. now rewrite IH.
Qed.

Lemma startswith_app p s : startswith p s = true -> s = p ++ skipn (List.length p) s.
Proof.
  revert s. induction p as [| a p IH]; intros s H; [reflexivity |].
  destruct s as [| b s]; [discriminate |]. cbn [startswith] in H.
  apply andb_true_iff in H. destruct H as [Hab Hp]. apply N.eqb_eq in Hab.
  subst b. cbn [List.length skipn app]. f_equal. now apply IH.
Qed.

Lemma body_args_fold rt w finding entities :
  exists fixed,
    body_args rt w finding entities = fold_left (add_body_arg rt) (environ w) fixed
    /\ keys fixed = [lit "messages"; lit "max_tokens"; lit "temperature"]
    /\ dict_get (lit "max_tokens") fixed = Some (PInt 5000).
Proof. eexists. split; [reflexivity | split; reflexivity]. Qed.

Lemma fold_add_body_arg_keys rt env args :
  exists more, keys (fold_left (add_body_arg rt) env args) = keys args ++ more.
Proof.
  revert args. induction env as [| [key value] env IH]; intros args; cbn [fold_left].
  - exists []. now rewrite app_nil_r.
  - destruct (IH (add_body_arg rt args (key, value))) as [more E].
    unfold add_body_arg in *. destruct (startswith (lit "body_args_") key).
    + destruct (keys_dict_set (skipn 10 key) (parsed rt value) args) as [more' E'].
      exists (more' ++ more). now rewrite E, E', app_assoc.
    + now exists more.
Qed.

Lemma fold_add_body_arg_other rt env args arg :
  (forall key value, In (key, value) env ->
     startswith (lit "body_args_") key = true -> skipn 10 key <> arg) ->
  dict_get arg (fold_left (add_body_arg rt) env args) = dict_get arg args.
Proof.
  revert args. induction env as [| [key value] env IH]; intros args H;
    cbn [fold_left]; [reflexivity |].
  rewrite IH by (intros k v Hin; apply (H k v); now right).
  unfold add_body_arg. destruct (startswith (lit "body_args_") key) eqn:Hp;
    [| reflexivity].
  apply dict_get_set_other. intros E.
  now apply (H key value (or_introl eq_refl) Hp).
Qed.

Lemma fold_add_body_arg_get rt env args key value :
  NoDup (List.map fst env) ->
  In (key, value) env ->
  startswith (lit "body_args_") key = true ->
  dict_get (skipn 10 key) (fold_left (add_body_arg rt) env args)
  = Some (parsed rt value).
Proof.
  revert args. induction env as [| [k0 v0] env IH]; intros args Hnd Hin Hp;
    [destruct Hin |].
  cbn [List.map fst] in Hnd. inversion Hnd as [| ? ? Hnot Hnd']; subst.
  cbn [fold_left]. destruct Hin as [E | Hin].
  - injection E as -> ->. unfold add_body_arg at 2. rewrite Hp.
    rewrite fold_add_body_arg_other; [apply dict_get_set_same |].
    intros k v Hin Hk E. apply Hnot.
    apply startswith_app in Hp, Hk. change (List.length (lit "body_args_")) with 10%nat in *.
    assert (k = key) by congruence. subst k.
    change key with (fst (key, v)). now apply in_map.
  - now apply IH.
Qed.

(** X10. The body of the analysis request always has the arguments
    messages, max_tokens and temperature, first and in that order.  An
    environment variable named body_args_K sets the argument K to its
    value, parsed as JSON when it can be and as text otherwise, also
    when K is one of the three; without such a variable the arguments
    are the three, with max_tokens 5000. *)
Theorem body_args_from_environment rt w finding entities :
  (exists more,
      keys (body_args rt w finding entities)
      = [lit "messages"; lit "max_tokens"; lit "temperature"] ++ more)
  /\ (NoDup (List.map fst (environ w)) ->
      forall key value,
        In (key, value) (environ w) ->
        startswith (lit "body_args_") key = true ->
        dict_get (skipn 10 key) (body_args rt w finding entities)
        = Some (parsed rt value))
  /\ ((forall key value, In (key, value) (environ w) ->
         startswith (lit "body_args_") key = false) ->
      keys (body_args rt w finding entities)
      = [lit "messages"; lit "max_tokens"; lit "temperature"]
      /\ dict_get (lit "max_tokens") (body_args rt w finding entities)
         = Some (PInt 5000)).
Proof.
  destruct (body_args_fold rt w finding entities) as (fixed & -> & Hk & Hm).
  split; [| split].
  - destruct (fold_add_body_arg_keys rt (environ w) fixed) as [more E].
    exists more. now rewrite E, Hk.
  - intros Hnd key value Hin Hp. now apply fold_add_body_arg_get.
  - intros Hnone.
    assert (E : fold_left (add_body_arg rt) (environ w) fixed = fixed).
    { clear Hk Hm. revert fixed.
      induction (environ w) as [| [key value] env IH]; intros fixed;
        cbn [fold_left]; [reflexivity |].
      unfold add_body_arg at 2.
      rewrite (Hnone key value (or_introl eq_refl)).
      apply IH. intros k v Hin. apply (Hnone k v). now right. }
    rewrite E. auto.
Qed.

Lemma body_args_from_environment_witness :
  dict_get (lit "anthropic_version")
    (body_args Sample.runtime Sample.world (Sample.finding (PInt 6)) Sample.MEMBER_DETAILS)
  = Some (PStr (lit "dummy")).
Proof.
  destruct (body_args_from_environment Sample.runtime Sample.world
              (Sample.finding (PInt 6)) Sample.MEMBER_DETAILS) as (_ & H & _).
  apply (H ltac:(repeat constructor; simpl; intuition discriminate)
           (lit "body_args_anthropic_version") (lit "dummy")).
  - simpl. tauto.
  - reflexivity.
Defined.

(** ** More on the retry *)

(** X11. When the model throttles and the event has no account or no
    region, the scheduling call raises ValueError "Invalid event
    structure" before any request to the scheduler: no rule is created,
    and the handler returns status 500 with that message. *)
Theorem throttled_without_account rt w event context bucket topic
    finding_id finding entities d t :
  configured w bucket topic ->
  enriched w event finding_id finding entities t ->
  respond w t (analysis_request rt w finding entities)
  = Raise (ClientError (lit "ThrottlingException")) ->
  event = PDict d ->
  dict_get (lit "account") d = None \/ dict_get (lit "region") d = None ->
  lambda_handler rt w event context []
  = (Ok {| statusCode := 500;
           body := json_dumps rt
                     (PStr (lit "Error in processing: "
                            ++ lit "Invalid event structure")) |},
     t ++ [analysis_request rt w finding entities]).
Proof.
  intros Hcfg Hen Hthr -> Hmiss.
  assert (Hs : forall t0, schedule_retry rt w (PDict d) context t0
                          = (Raise (ValueError (lit "Invalid event structure")), t0)).
  { intros t0. unfold schedule_retry. cbv [bind lift try_except ret raise].
    cbn [py_getitem].
    destruct Hmiss as [Ha | Hr].
    - rewrite Ha. reflexivity.
    - rewrite Hr. destruct (dict_get (lit "account") d); reflexivity. }
  rewrite (lambda_handler_fails rt w _ context bucket topic
             (ValueError (lit "Invalid event structure"))
             (t ++ [analysis_request rt w finding entities]) Hcfg);
    [reflexivity |].
  rewrite (process_enriched _ _ _ _ _ _ _ _ _ _ Hen).
  apply bind_Raise.
  now rewrite (invoke_bedrock_model_throttled _ _ _ _ _ _ _ Hthr), Hs.
Qed.

(** X12. The event that the retry replays.  When the registration
    succeeds, the one target of the rule has the generated identifier,
    the ARN of this function in the region and account of the event,
    and as input the serialised replay: an event that carries the same
    finding and detector identifiers, the same account and region, under
    detail.retryRuleName the name of the rule just created, and that is
    itself replayable. *)
Theorem replayed_event_carries_marker rt w event context finding_id detector_id t :
  carries_ids event finding_id detector_id ->
  replayable event ->
  scheduler_accepts w ->
  exists replay account_id region,
    schedule_retry rt w event context t
    = (Ok (PStr (lit "rescheduled")),
       t ++ [ rule_request rt w (randint w 1 600);
              targets_request w
                [ {| Id := uuid4 w;
                     Arn := lit "arn:aws:lambda:" ++ fstr rt region ++ lit ":"
                            ++ fstr rt account_id ++ lit ":function:"
                            ++ function_name context;
                     Input := json_dumps rt replay |} ] ])
    /\ py_getitem event (lit "account") = Ok account_id
    /\ py_getitem event (lit "region") = Ok region
    /\ py_getitem replay (lit "account") = Ok account_id
    /\ py_getitem replay (lit "region") = Ok region
    /\ carries_ids replay finding_id detector_id
    /\ carries_marker replay (PStr (retry_rule_name (uuid4 w)))
    /\ replayable replay.
Proof.
  intros (detail & service & Hd & Hi & Hs & Hdet)
         ([a Ha] & [r Hr] & [v Hv] & [i Hid] & [dt Hdt] & [s Hsrc] & [tm Htm]
          & [rs Hrs] & detail' & Hd' & [sv Hsv] & [p Hp]) [Hrule Htargets].
  rewrite Hd in Hd'. injection Hd' as <-.
  unfold schedule_retry, rule_request, targets_request. run.
  match goal with
  | |- context [respond w ?h {| client := events; op := put_rule ?n ?e ?s |}] =>
      destruct (Hrule h n e s) as [r1 Hr1]; rewrite Hr1
  end.
  cbv beta iota zeta. run.
  match goal with
  | |- context [respond w ?h {| client := events; op := put_targets ?n ?ts |}] =>
      destruct (Htargets h n ts) as [r2 Hr2]; rewrite Hr2
  end.
  cbv beta iota zeta. eexists. exists a, r.
  split; [rewrite <- app_assoc; reflexivity |].
  repeat (split; [reflexivity || assumption |]).
  split; [| split].
  - do 2 eexists. repeat split; reflexivity.
  - eexists. repeat split; reflexivity.
  - unfold replayable, has_key.
    repeat (split; [eexists; reflexivity |]).
    eexists. repeat split; eexists; reflexivity.
Qed.

Lemma replayed_event_carries_marker_witness :
  exists replay account_id region,
    schedule_retry Sample.runtime
      (Sample.world_with Sample.environment (PFloat 4.0) Sample.throttled (Ok PNone))
      Sample.EVENT Sample.context []
    = (Ok (PStr (lit "rescheduled")),
       [] ++ [ rule_request Sample.runtime
                 (Sample.world_with Sample.environment (PFloat 4.0) Sample.throttled
                    (Ok PNone))
                 (randint (Sample.world_with Sample.environment (PFloat 4.0)
                             Sample.throttled (Ok PNone)) 1 600);
               targets_request
                 (Sample.world_with Sample.environment (PFloat 4.0) Sample.throttled
                    (Ok PNone))
                 [ {| Id := uuid4 Sample.world;
                      Arn := lit "arn:aws:lambda:" ++ fstr Sample.runtime region
                             ++ lit ":" ++ fstr Sample.runtime account_id
                             ++ lit ":function:" ++ function_name Sample.context;
                      Input := Sample.dumps replay |} ] ])
    /\ carries_marker replay (PStr (retry_rule_name (uuid4 Sample.world))).
Proof.
  destruct (replayed_event_carries_marker Sample.runtime
              (Sample.world_with Sample.environment (PFloat 4.0) Sample.throttled (Ok PNone))
              Sample.EVENT Sample.context
              (PStr Sample.FINDING_ID) (PStr Sample.DETECTOR_ID) [])
    as (replay & account_id & region & H & _ & _ & _ & _ & _ & Hm & _).
  - apply sample_carries_ids.
  - apply sample_replayable.
  - split; intros; eexists; reflexivity.
  - exists replay, account_id, region. split; assumption.
Defined.

(** X13. The rule is created before the replayed event is built: when
    the event has the fields that the scheduling call reads first but
    not all the fields to replay, and the scheduler accepts the rule,
    the rule is left without a target, and the call returns None. *)
Theorem rule_without_target rt w event context finding_id detector_id t :
  carries_ids event finding_id detector_id ->
  has_key event (lit "account") ->
  has_key event (lit "region") ->
  ~ replayable event ->
  (exists r, respond w t (rule_request rt w (randint w 1 600)) = Ok r) ->
  schedule_retry rt w event context t
  = (Ok PNone, t ++ [rule_request rt w (randint w 1 600)]).
Proof.
  intros (detail & service & Hd & Hi & Hs & Hdet) [a Ha] [r Hr] Hnot [r1 Hr1].
  unfold schedule_retry, rule_request in *. run.
  destruct (py_getitem event (lit "version")) as [v |] eqn:Hv; [| reflexivity].
  destruct (py_getitem event (lit "id")) as [i |] eqn:Hid; [| reflexivity].
  destruct (py_getitem event (lit "detail-type")) as [dt |] eqn:Hdt; [| reflexivity].
  destruct (py_getitem event (lit "source")) as [s |] eqn:Hsrc; [| reflexivity].
  destruct (py_getitem event (lit "time")) as [tm |] eqn:Htm; [| reflexivity].
  destruct (py_getitem event (lit "resources")) as [rs |] eqn:Hrs; [| reflexivity].
  destruct (py_getitem detail (lit "schemaVersion")) as [sv |] eqn:Hsv;
    [| reflexivity].
  destruct (py_getitem detail (lit "partition")) as [p |] eqn:Hp; [| reflexivity].
  destruct Hnot. unfold replayable, has_key.
  repeat (split; [eexists; eassumption |]).
  exists detail. repeat split; try assumption; eexists; eassumption.
Qed.

Lemma rule_without_target_witness :
  schedule_retry Sample.runtime
    (Sample.world_with Sample.environment (PFloat 4.0) Sample.throttled (Ok PNone))
    (PDict [ (lit "account", PStr Sample.ACCOUNT_ID);
             (lit "region", PStr Sample.REGION);
             (lit "detail", Sample.detail []) ])
    Sample.context []
  = (Ok PNone,
     [] ++ [rule_request Sample.runtime
              (Sample.world_with Sample.environment (PFloat 4.0) Sample.throttled
                 (Ok PNone))
              (randint (Sample.world_with Sample.environment (PFloat 4.0)
                          Sample.throttled (Ok PNone)) 1 600)]).
Proof.
  apply (rule_without_target Sample.runtime
           (Sample.world_with Sample.environment (PFloat 4.0) Sample.throttled (Ok PNone))
           (PDict [ (lit "account", PStr Sample.ACCOUNT_ID);
                    (lit "region", PStr Sample.REGION);
                    (lit "detail", Sample.detail []) ])
           Sample.context (PStr Sample.FINDING_ID) (PStr Sample.DETECTOR_ID) []).
  - do 2 eexists. repeat split; reflexivity.
  - eexists. reflexivity.
  - eexists. reflexivity.
  - intros (_ & _ & [v Hv] & _). discriminate.
  - eexists. reflexivity.
Defined.

(** X14. The handler takes the text "rescheduled" for the mark of a
    scheduled retry wherever it comes from: when the model itself
    answers with that text, the run returns status 200 with the body
    "Event scheduled.", having made no request to the scheduler, the
    object store or the notification topic. *)
Theorem model_text_rescheduled rt w event context bucket topic
    finding_id finding entities answer text d block rest t :
  configured w bucket topic ->
  enriched w event finding_id finding entities t ->
  respond w t (analysis_request rt w finding entities) = Ok answer ->
  py_getitem answer (lit "body") = Ok (PStr text) ->
  json_loads rt text = Some (PDict d) ->
  dict_get (lit "content") d = Some (PList (PDict block :: rest)) ->
  dict_get (lit "text") block = Some (PStr (lit "rescheduled")) ->
  lambda_handler rt w event context []
  = (Ok {| statusCode := 200;
           body := json_dumps rt (PStr (lit "Event scheduled.")) |},
     t ++ [analysis_request rt w finding entities]).
Proof.
  intros Hcfg Hen Hr Hb Hl Hc Ht.
  assert (Hai : invoke_bedrock_model rt w bedrock_runtime
                  (convert_to_json_serializable rt finding)
                  (convert_to_json_serializable rt entities) event context t
                = (Ok (PStr (lit "rescheduled")),
                   t ++ [analysis_request rt w finding entities])).
  { rewrite (invoke_bedrock_model_answered _ _ _ _ _ _ _ _ _ _ Hr Hb Hl).
    cbn [py_get]. rewrite Hc. cbn [py_first py_get]. now rewrite Ht. }
  rewrite (lambda_handler_process _ _ _ _ _ _ _ Hcfg).
  rewrite (process_enriched _ _ _ _ _ _ _ _ _ _ Hen).
  rewrite (bind_Ok _ _ _ _ _ Hai). unfold after_analysis, eq_str.
  now rewrite str_eqb_refl.
Qed.

Lemma sample_enriched_event severity model scheduler event :
  carries_ids event (PStr Sample.FINDING_ID) (PStr Sample.DETECTOR_ID) ->
  lt_4_0 severity = Ok false ->
  enriched (Sample.world_with Sample.environment severity model scheduler)
    event (PStr Sample.FINDING_ID) (Sample.finding severity)
    Sample.MEMBER_DETAILS Sample.enrichment_requests.
Proof.
  intros Hids H. exists (PStr Sample.DETECTOR_ID), severity, (PStr (lit "test_graph_arn")).
  do 2 eexists. split; [exact Hids |].
  repeat split; try reflexivity. assumption.
Defined.

Lemma throttled_without_account_witness :
  lambda_handler Sample.runtime
    (Sample.world_with Sample.environment (PFloat 4.0) Sample.throttled (Ok PNone))
    (PDict [(lit "region", PStr Sample.REGION); (lit "detail", Sample.detail [])])
    Sample.context []
  = (Ok {| statusCode := 500;
           body := Sample.dumps
                     (PStr (lit "Error in processing: "
                            ++ lit "Invalid event structure")) |},
     Sample.enrichment_requests
     ++ [analysis_request Sample.runtime
           (Sample.world_with Sample.environment (PFloat 4.0) Sample.throttled (Ok PNone))
           (Sample.finding (PFloat 4.0)) Sample.MEMBER_DETAILS]).
Proof.
  apply (throttled_without_account Sample.runtime
           (Sample.world_with Sample.environment (PFloat 4.0) Sample.throttled (Ok PNone))
           (PDict [(lit "region", PStr Sample.REGION); (lit "detail", Sample.detail [])])
           Sample.context Sample.S3_BUCKET_NAME Sample.SNS_TOPIC_ARN
           (PStr Sample.FINDING_ID) (Sample.finding (PFloat 4.0)) Sample.MEMBER_DETAILS
           [(lit "region", PStr Sample.REGION); (lit "detail", Sample.detail [])]).
  - repeat split; try reflexivity; discriminate.
  - apply sample_enriched_event; [| reflexivity].
    do 2 eexists. repeat split; reflexivity.
  - reflexivity.
  - reflexivity.
  - left. reflexivity.
Defined.

Lemma model_text_rescheduled_witness :
  lambda_handler
    (runtime_parsing
       (PDict [(lit "content", PList [PDict [(lit "text", PStr (lit "rescheduled"))]])]))
    (Sample.world_with Sample.environment (PInt 6)
       (Sample.answer_of (lit "{}")) (Ok PNone))
    Sample.EVENT Sample.context []
  = (Ok {| statusCode := 200;
           body := Sample.dumps (PStr (lit "Event scheduled.")) |},
     Sample.enrichment_requests
     ++ [analysis_request
           (runtime_parsing
              (PDict [(lit "content",
                        PList [PDict [(lit "text", PStr (lit "rescheduled"))]])]))
           (Sample.world_with Sample.environment (PInt 6)
              (Sample.answer_of (lit "{}")) (Ok PNone))
           (Sample.finding (PInt 6)) Sample.MEMBER_DETAILS]).
Proof.
  apply (model_text_rescheduled
           (runtime_parsing
              (PDict [(lit "content",
                        PList [PDict [(lit "text", PStr (lit "rescheduled"))]])]))
           (Sample.world_with Sample.environment (PInt 6)
              (Sample.answer_of (lit "{}")) (Ok PNone))
           Sample.EVENT Sample.context Sample.S3_BUCKET_NAME Sample.SNS_TOPIC_ARN
           (PStr Sample.FINDING_ID) (Sample.finding (PInt 6)) Sample.MEMBER_DETAILS
           (PDict [(lit "body", PStr (lit "{}"))]) (lit "{}")
           [(lit "content", PList [PDict [(lit "text", PStr (lit "rescheduled"))]])]
           [(lit "text", PStr (lit "rescheduled"))] []).
  - repeat split; try reflexivity; discriminate.
  - apply sample_enriched_event; [apply sample_carries_ids | reflexivity].
  - reflexivity.
  - reflexivity.
  - reflexivity.
  - reflexivity.
  - reflexivity.
Defined.

(** ** The results of the handler *)

Lemma returns_bind {S A B} (P : B -> Prop) (m : SE S A) (k : A -> SE S B) :
  (forall a, returns P (k a)) -> returns P (bind m k).
Proof.
  intros Hk t b t' H. unfold bind in H. destruct (m t) as [[a | e] t1].
  - exact (Hk a _ _ _ H).
  - discriminate.
Qed.

Lemma returns_ret {S A} (P : A -> Prop) (a : A) : P a -> returns P (@ret S A a).
Proof. intros H t b t' E. unfold ret in E. now injection E as <- _. Qed.

Lemma process_returns_200 rt w event context bucket topic :
  returns returned_ok (process rt w event context bucket topic).
Proof.
  unfold process.
  repeat first
    [ apply returns_ret; cbn [returned_ok statusCode]; reflexivity
    | apply returns_ret; exact I
    | apply returns_bind; intros
    | match goal with
      | |- returns _ (if ?b then _ else _) => destruct b
      end ].
Qed.

(** X15. Once the two configuration values are set, the handler, from
    its first statement, returns a result with status 200 or 500 for
    every event that is JSON data, whatever the services answer: no
    exception leaves it.  For an event that holds a Decimal or a
    datetime, the log of the event on the first line raises TypeError,
    which leaves the handler before any request. *)
Theorem lambda_handler_always_answers rt w event context bucket topic t :
  configured w bucket topic ->
  (json_clean event = true ->
   exists result t',
     lambda_handler_entry rt w event context t = (Ok result, t')
     /\ (statusCode result = 200 \/ statusCode result = 500))
  /\ (json_clean event = false ->
      lambda_handler_entry rt w event context t = (Raise TypeError, t)).
Proof.
  intros Hcfg. unfold lambda_handler_entry, received. split; intros Hevent.
  - rewrite Hevent. unfold bind at 1, ret at 1.
    rewrite (lambda_handler_process _ _ _ _ _ _ _ Hcfg).
    do 2 eexists. split; [reflexivity |].
    pose proof (process_returns_200 rt w event context bucket topic t) as H.
    destruct (process rt w event context bucket topic t) as [[[r | ai] | e] t'];
      cbn [fst result_of statusCode]; auto.
    left. exact (H (inl r) t' eq_refl).
  - rewrite Hevent. reflexivity.
Qed.

Lemma lambda_handler_always_answers_witness :
  (exists result t',
      lambda_handler_entry Sample.runtime
        (Sample.world_with Sample.environment PNone (Raise TypeError) (Raise TypeError))
        (PList []) Sample.context []
      = (Ok result, t')
      /\ (statusCode result = 200 \/ statusCode result = 500))
  /\ lambda_handler_entry Sample.runtime
       (Sample.world_with Sample.environment PNone (Raise TypeError) (Raise TypeError))
       (PDict [(lit "time", PDatetime (utcnow Sample.world))]) Sample.context []
     = (Raise TypeError, []).
Proof.
  split.
  - apply (lambda_handler_always_answers Sample.runtime
             (Sample.world_with Sample.environment PNone (Raise TypeError)
                (Raise TypeError))
             (PList []) Sample.context Sample.S3_BUCKET_NAME Sample.SNS_TOPIC_ARN []).
    + repeat split; try reflexivity; discriminate.
    + reflexivity.
  - apply (lambda_handler_always_answers Sample.runtime
             (Sample.world_with Sample.environment PNone (Raise TypeError)
                (Raise TypeError))
             (PDict [(lit "time", PDatetime (utcnow Sample.world))]) Sample.context
             Sample.S3_BUCKET_NAME Sample.SNS_TOPIC_ARN []).
    + repeat split; try reflexivity; discriminate.
    + reflexivity.
Defined.

(** X16. An event that does not carry detail.id and
    detail.service.detectorId is refused before any request: the handler
    returns status 500 and the trace of the run is empty. *)
Theorem invalid_event_makes_no_request rt w event context bucket topic :
  configured w bucket topic ->
  (forall finding_id detector_id, ~ carries_ids event finding_id detector_id) ->
  exists e,
    lambda_handler rt w event context []
    = (Ok {| statusCode := 500;
             body := json_dumps rt
                       (PStr (lit "Error in processing: " ++ str_of_exn rt e)) |},
       []).
Proof.
  intros Hcfg Hnot.
  assert (H : exists e, process rt w event context bucket topic [] = (Raise e, [])).
  { unfold process. unfold bind at 1, lift at 1.
    destruct (py_getitem event (lit "detail")) as [detail | e] eqn:Hd;
      [| now exists e].
    unfold bind at 1, lift at 1.
    destruct (py_getitem detail (lit "id")) as [finding_id | e] eqn:Hi;
      [| now exists e].
    unfold bind at 1, lift at 1. cbv beta iota.
    unfold bind at 1, lift at 1.
    destruct (py_getitem detail (lit "service")) as [service | e] eqn:Hs;
      [| now exists e].
    unfold bind at 1, lift at 1.
    destruct (py_getitem service (lit "detectorId")) as [detector_id | e] eqn:Hdet;
      [| now exists e].
    destruct (Hnot finding_id detector_id). now exists detail, service. }
  destruct H as [e He]. exists e.
  now apply (lambda_handler_fails _ _ _ _ _ _ _ _ Hcfg).
Qed.

Lemma invalid_event_makes_no_request_witness :
  exists e,
    lambda_handler Sample.runtime Sample.world
      (PDict [(lit "detail", PDict [(lit "id", PStr Sample.FINDING_ID)])])
      Sample.context []
    = (Ok {| statusCode := 500;
             body := Sample.dumps
                       (PStr (lit "Error in processing: "
                              ++ str_of_exn Sample.runtime e)) |},
       []).
Proof.
  apply (invalid_event_makes_no_request Sample.runtime Sample.world
           (PDict [(lit "detail", PDict [(lit "id", PStr Sample.FINDING_ID)])])
           Sample.context Sample.S3_BUCKET_NAME Sample.SNS_TOPIC_ARN).
  - repeat split; try reflexivity; discriminate.
  - intros finding_id detector_id (detail & service & Hd & _ & Hs & _).
    injection Hd as <-. discriminate.
Defined.

(** X17. A finding without Severity, or whose Severity is not a number,
    stops the run at the gate: the handler returns status 500 and has
    made no request but the fetch of the finding. *)
Theorem severity_must_be_a_number rt w event context bucket topic
    finding_id detector_id finding e t1 :
  configured w bucket topic ->
  carries_ids event finding_id detector_id ->
  get_guardduty_finding w guardduty detector_id finding_id [] = (Ok finding, t1) ->
  py_getitem finding (lit "Severity") = Raise e
  \/ (exists severity, py_getitem finding (lit "Severity") = Ok severity
                       /\ lt_4_0 severity = Raise e) ->
  lambda_handler rt w event context []
  = (Ok {| statusCode := 500;
           body := json_dumps rt
                     (PStr (lit "Error in processing: " ++ str_of_exn rt e)) |},
     [ {| client := guardduty; op := get_findings detector_id [finding_id] |} ]).
Proof.
  intros Hcfg (detail & service & Hd & Hi & Hs & Hdet) Hf Hsev.
  assert (Ht1 : t1 = [ {| client := guardduty;
                          op := get_findings detector_id [finding_id] |} ]).
  { apply (f_equal snd) in Hf. simpl in Hf.
    now rewrite get_guardduty_finding_requests in Hf. }
  subst t1. apply (lambda_handler_fails _ _ _ _ _ _ _ _ Hcfg).
  unfold process. repeat step_lift. step_call.
  destruct Hsev as [Hsev | (severity & Hsev & Hlt)].
  - unfold bind, lift. now rewrite Hsev.
  - step_lift. unfold bind, lift. now rewrite Hlt.
Qed.

Lemma severity_must_be_a_number_witness :
  lambda_handler Sample.runtime
    (Sample.world_with Sample.environment (PStr (lit "high"))
       (Sample.answer_of Sample.body_with_text) (Ok PNone))
    Sample.EVENT Sample.context []
  = (Ok {| statusCode := 500;
           body := Sample.dumps
                     (PStr (lit "Error in processing: "
                            ++ str_of_exn Sample.runtime TypeError)) |},
     [ {| client := guardduty;
          op := get_findings (PStr Sample.DETECTOR_ID) [PStr Sample.FINDING_ID] |} ]).
Proof.
  apply (severity_must_be_a_number Sample.runtime
           (Sample.world_with Sample.environment (PStr (lit "high"))
              (Sample.answer_of Sample.body_with_text) (Ok PNone))
           Sample.EVENT Sample.context Sample.S3_BUCKET_NAME Sample.SNS_TOPIC_ARN
           (PStr Sample.FINDING_ID) (PStr Sample.DETECTOR_ID)
           (Sample.finding (PStr (lit "high"))) TypeError
           [ {| client := guardduty;
                op := get_findings (PStr Sample.DETECTOR_ID) [PStr Sample.FINDING_ID] |} ]).
  - repeat split; try reflexivity; discriminate.
  - apply sample_carries_ids.
  - reflexivity.
  - right. eexists. split; reflexivity.
Defined.

(** ** A publication that fails *)

(** X18. When the upload of the report fails, no URL is asked for and no
    notification is sent: the handler returns status 500, and the
    request to put the object is the last of the run. *)
Theorem failed_upload_sends_nothing rt w event context bucket topic
    finding_id finding ai_insights pdf e t :
  configured w bucket topic ->
  analysed rt w event context finding_id finding ai_insights t ->
  generate_pdf rt w ai_insights (convert_to_json_serializable rt finding) = Ok pdf ->
  respond w t (put_request rt bucket finding_id pdf) = Raise e ->
  lambda_handler rt w event context []
  = (Ok {| statusCode := 500;
           body := json_dumps rt
                     (PStr (lit "Error in processing: " ++ str_of_exn rt e)) |},
     t ++ [put_request rt bucket finding_id pdf]).
Proof.
  intros Hcfg Han Hpdf Hput.
  apply (lambda_handler_fails _ _ _ _ _ _ _ _ Hcfg).
  rewrite (process_analysed _ _ _ _ _ _ _ _ _ _ _ Han Hpdf).
  unfold publish_and_clean. apply bind_Raise.
  unfold upload_pdf_to_s3. rewrite try_except_reraise.
  unfold put_request in *. unfold bind, call. now rewrite Hput.
Qed.

Lemma failed_upload_sends_nothing_witness :
  lambda_handler Sample.runtime
    {| environ := Sample.environment;
       respond := fun history r =>
         match op r with
         | put_object _ _ _ _ => Raise (ClientError (lit "AccessDenied"))
         | _ => respond Sample.world history r
         end;
       utcnow := utcnow Sample.world; now := now Sample.world;
       random_source := 0; uuid4 := [] |}
    Sample.EVENT Sample.context []
  = (Ok {| statusCode := 500;
           body := Sample.dumps
                     (PStr (lit "Error in processing: "
                            ++ str_of_exn Sample.runtime
                                 (ClientError (lit "AccessDenied")))) |},
     (Sample.enrichment_requests
      ++ [analysis_request Sample.runtime Sample.world
            (Sample.finding (PInt 6)) Sample.MEMBER_DETAILS])
     ++ [put_request Sample.runtime Sample.S3_BUCKET_NAME (PStr Sample.FINDING_ID)
           sample_pdf]).
Proof.
  apply (failed_upload_sends_nothing Sample.runtime
           {| environ := Sample.environment;
              respond := fun history r =>
                match op r with
                | put_object _ _ _ _ => Raise (ClientError (lit "AccessDenied"))
                | _ => respond Sample.world history r
                end;
              utcnow := utcnow Sample.world; now := now Sample.world;
              random_source := 0; uuid4 := [] |}
           Sample.EVENT Sample.context Sample.S3_BUCKET_NAME Sample.SNS_TOPIC_ARN
           (PStr Sample.FINDING_ID) (Sample.finding (PInt 6)) Sample.insights
           sample_pdf (ClientError (lit "AccessDenied"))).
  - repeat split; try reflexivity; discriminate.
  - exists Sample.MEMBER_DETAILS, Sample.enrichment_requests.
    split; [| split; reflexivity].
    exists (PStr Sample.DETECTOR_ID), (PInt 6), (PStr (lit "test_graph_arn")).
    do 2 eexists. split; [apply sample_carries_ids |]. repeat split; reflexivity.
  - reflexivity.
  - reflexivity.
Defined.

(** X19. When the notification fails after the upload, the report stays
    in the bucket and the handler returns status 500; the run stops
    there, so the retry rule of a replayed event is not cleaned. *)
Theorem failed_notification_keeps_report rt w event context bucket topic
    finding_id finding ai_insights pdf url r1 e t :
  configured w bucket topic ->
  analysed rt w event context finding_id finding ai_insights t ->
  generate_pdf rt w ai_insights (convert_to_json_serializable rt finding) = Ok pdf ->
  respond w t (put_request rt bucket finding_id pdf) = Ok r1 ->
  respond w (t ++ [put_request rt bucket finding_id pdf])
    (presign_request rt bucket finding_id) = Ok (PStr url) ->
  respond w (t ++ [ put_request rt bucket finding_id pdf;
                    presign_request rt bucket finding_id ])
    (notification_request rt topic url) = Raise e ->
  lambda_handler rt w event context []
  = (Ok {| statusCode := 500;
           body := json_dumps rt
                     (PStr (lit "Error in processing: " ++ str_of_exn rt e)) |},
     t ++ [ put_request rt bucket finding_id pdf;
            presign_request rt bucket finding_id;
            notification_request rt topic url ]).
Proof.
  intros Hcfg Han Hpdf Hput Hurl Hpub.
  apply (lambda_handler_fails _ _ _ _ _ _ _ _ Hcfg).
  rewrite (process_analysed _ _ _ _ _ _ _ _ _ _ _ Han Hpdf).
  unfold publish_and_clean.
  rewrite (bind_Ok _ _ _ _ _ (upload_pdf_to_s3_run _ _ _ _ _ _ _ _ Hput Hurl)).
  pose proof (send_sns_notification_run rt w topic url
                (t ++ [put_request rt bucket finding_id pdf;
                       presign_request rt bucket finding_id])) as Hsend.
  rewrite Hpub in Hsend. rewrite (bind_Raise _ _ _ _ _ Hsend).
  now rewrite <- app_assoc.
Qed.

Lemma failed_notification_keeps_report_witness :
  lambda_handler Sample.runtime
    {| environ := Sample.environment;
       respond := fun history r =>
         match op r with
         | publish _ _ _ _ => Raise (ClientError (lit "NotFound"))
         | _ => respond Sample.world history r
         end;
       utcnow := utcnow Sample.world; now := now Sample.world;
       random_source := 0; uuid4 := [] |}
    Sample.RETRY_EVENT Sample.context []
  = (Ok {| statusCode := 500;
           body := Sample.dumps
                     (PStr (lit "Error in processing: "
                            ++ str_of_exn Sample.runtime
                                 (ClientError (lit "NotFound")))) |},
     (Sample.enrichment_requests
      ++ [analysis_request Sample.runtime Sample.world
            (Sample.finding (PInt 6)) Sample.MEMBER_DETAILS])
     ++ [ put_request Sample.runtime Sample.S3_BUCKET_NAME (PStr Sample.FINDING_ID)
            sample_pdf;
          presign_request Sample.runtime Sample.S3_BUCKET_NAME (PStr Sample.FINDING_ID);
          notification_request Sample.runtime Sample.SNS_TOPIC_ARN
            (lit "https://dummyurl") ]).
Proof.
  apply (failed_notification_keeps_report Sample.runtime
           {| environ := Sample.environment;
              respond := fun history r =>
                match op r with
                | publish _ _ _ _ => Raise (ClientError (lit "NotFound"))
                | _ => respond Sample.world history r
                end;
              utcnow := utcnow Sample.world; now := now Sample.world;
              random_source := 0; uuid4 := [] |}
           Sample.RETRY_EVENT Sample.context Sample.S3_BUCKET_NAME Sample.SNS_TOPIC_ARN
           (PStr Sample.FINDING_ID) (Sample.finding (PInt 6)) Sample.insights
           sample_pdf (lit "https://dummyurl") PNone (ClientError (lit "NotFound"))).
  - repeat split; try reflexivity; discriminate.
  - exists Sample.MEMBER_DETAILS, Sample.enrichment_requests.
    split; [| split; reflexivity].
    exists (PStr Sample.DETECTOR_ID), (PInt 6), (PStr (lit "test_graph_arn")).
    do 2 eexists. split; [apply sample_carries_ids |]. repeat split; reflexivity.
  - reflexivity.
  - reflexivity.
  - reflexivity.
  - reflexivity.
Defined.

(** X20. When the analysis returns a value that is not a text (the text
    field of the answer is null, or a number), the rendering raises and
    the handler returns status 500 without any request to the object
    store or the notification topic. *)
Theorem analysis_must_be_a_text rt w event context bucket topic
    finding_id finding entities v t t' :
  configured w bucket topic ->
  enriched w event finding_id finding entities t ->
  invoke_bedrock_model rt w bedrock_runtime
    (convert_to_json_serializable rt finding)
    (convert_to_json_serializable rt entities) event context t
  = (Ok v, t') ->
  (forall s, v <> PStr s) ->
  exists e,
    lambda_handler rt w event context []
    = (Ok {| statusCode := 500;
             body := json_dumps rt
                       (PStr (lit "Error in processing: " ++ str_of_exn rt e)) |},
       t').
Proof.
  intros Hcfg Hen Hai Hnot.
  destruct (generate_pdf_needs_text rt w v (convert_to_json_serializable rt finding)
              Hnot) as [e He].
  exists e. apply (lambda_handler_fails _ _ _ _ _ _ _ _ Hcfg).
  rewrite (process_enriched _ _ _ _ _ _ _ _ _ _ Hen).
  rewrite (bind_Ok _ _ _ _ _ Hai). unfold after_analysis.
  assert (Hne : eq_str v (lit "rescheduled") = false).
  { destruct v; try reflexivity. now destruct (Hnot s). }
  rewrite Hne. unfold bind, lift. now rewrite He.
Qed.

Lemma analysis_must_be_a_text_witness :
  exists e,
    lambda_handler
      (runtime_parsing (PDict [(lit "content", PList [PDict [(lit "text", PNone)]])]))
      (Sample.world_with Sample.environment (PInt 6)
         (Sample.answer_of (lit "{}")) (Ok PNone))
      Sample.EVENT Sample.context []
    = (Ok {| statusCode := 500;
             body := Sample.dumps
                       (PStr (lit "Error in processing: "
                              ++ str_of_exn
                                   (runtime_parsing
                                      (PDict [(lit "content",
                                                PList [PDict [(lit "text", PNone)]])]))
                                   e)) |},
       Sample.enrichment_requests
       ++ [analysis_request
             (runtime_parsing
                (PDict [(lit "content", PList [PDict [(lit "text", PNone)]])]))
             (Sample.world_with Sample.environment (PInt 6)
                (Sample.answer_of (lit "{}")) (Ok PNone))
             (Sample.finding (PInt 6)) Sample.MEMBER_DETAILS]).
Proof.
  apply (analysis_must_be_a_text
           (runtime_parsing (PDict [(lit "content", PList [PDict [(lit "text", PNone)]])]))
           (Sample.world_with Sample.environment (PInt 6)
              (Sample.answer_of (lit "{}")) (Ok PNone))
           Sample.EVENT Sample.context Sample.S3_BUCKET_NAME Sample.SNS_TOPIC_ARN
           (PStr Sample.FINDING_ID) (Sample.finding (PInt 6)) Sample.MEMBER_DETAILS
           PNone Sample.enrichment_requests).
  - repeat split; try reflexivity; discriminate.
  - apply sample_enriched_event; [apply sample_carries_ids | reflexivity].
  - reflexivity.
  - intros s. discriminate.
Defined.

(** ** A run reschedules or publishes *)

Lemma process_stops_or_enriched rt w event context bucket topic :
  Forall (fun r => client r = guardduty \/ client r = detective)
    (snd (process rt w event context bucket topic []))
  \/ exists finding_id finding entities t,
       enriched w event finding_id finding entities t.
Proof.
  unfold process. unfold bind at 1, lift at 1.
  destruct (py_getitem event (lit "detail")) as [detail | e] eqn:Hd;
    [| left; constructor].
  unfold bind at 1, lift at 1.
  destruct (py_getitem detail (lit "id")) as [finding_id | e] eqn:Hi;
    [| left; constructor].
  unfold bind at 1, lift at 1. cbv beta iota.
  unfold bind at 1, lift at 1.
  destruct (py_getitem detail (lit "service")) as [service | e] eqn:Hs;
    [| left; constructor].
  unfold bind at 1, lift at 1.
  destruct (py_getitem service (lit "detectorId")) as [detector_id | e] eqn:Hdet;
    [| left; constructor].
  unfold bind at 1.
  pose proof (get_guardduty_finding_requests w guardduty detector_id finding_id [])
    as Ht1.
  destruct (get_guardduty_finding w guardduty detector_id finding_id [])
    as [[finding | e] t1] eqn:Hf; cbn [snd] in Ht1; subst t1;
    [| left; repeat constructor].
  unfold bind at 1, lift at 1.
  destruct (py_getitem finding (lit "Severity")) as [severity | e] eqn:Hsev;
    [| left; repeat constructor].
  unfold bind at 1, lift at 1.
  destruct (lt_4_0 severity) as [[|] | e] eqn:Hlow;
    [left; repeat constructor | | left; repeat constructor].
  unfold bind at 1.
  match goal with
  | |- context [get_graph_arn w detective ?t] =>
      pose proof (get_graph_arn_requests w detective t) as Ht2;
      destruct (get_graph_arn w detective t) as [[graph_arn | e] t2] eqn:Hg
  end; cbn [snd] in Ht2; subst t2;
    [| left; cbn [snd app]; repeat (apply Forall_cons; [simpl; tauto |]);
       apply Forall_nil].
  unfold bind at 1.
  match goal with
  | |- context [get_all_detective_entities w detective graph_arn ?t] =>
      pose proof (get_all_detective_entities_requests w detective graph_arn t) as Ht3;
      destruct (get_all_detective_entities w detective graph_arn t)
        as [[entities | e] t3] eqn:He
  end; cbn [snd] in Ht3; subst t3;
    [| left; cbn [snd app]; repeat (apply Forall_cons; [simpl; tauto |]);
       apply Forall_nil].
  right. exists finding_id, finding, entities. eexists.
  exists detector_id, severity, graph_arn. do 2 eexists.
  split; [now exists detail, service |].
  repeat split; eassumption.
Qed.

(** X21. A run never both asks the scheduler for a retry and publishes:
    whatever the event and the answers of the services, either no
    request of the run goes to the scheduler, or none goes to the object
    store or to the notification topic. *)
Theorem reschedules_or_publishes rt w event context bucket topic :
  configured w bucket topic ->
  Forall (fun r => client r <> events) (snd (lambda_handler rt w event context []))
  \/ Forall (fun r => client r <> s3 /\ client r <> sns)
       (snd (lambda_handler rt w event context [])).
Proof.
  intros Hcfg. rewrite (lambda_handler_process _ _ _ _ _ _ _ Hcfg). cbn [snd].
  destruct (process_stops_or_enriched rt w event context bucket topic)
    as [Hstop | (finding_id & finding & entities & t & Hen)].
  { left. eapply Forall_impl; [| exact Hstop]. simpl.
    intros r [-> | ->]; discriminate. }
  rewrite (process_enriched _ _ _ _ _ _ _ _ _ _ Hen).
  destruct (invoke_bedrock_model_requests rt w finding entities event context t)
    as [rest [E F]].
  assert (Hquiet : Forall (fun r => client r <> s3 /\ client r <> sns)
                     (t ++ [analysis_request rt w finding entities] ++ rest)).
  { destruct (enriched_requests _ _ _ _ _ _ Hen) as (d & g & ->).
    apply Forall_app. split.
    - repeat (apply Forall_cons; [simpl; split; discriminate |]). apply Forall_nil.
    - apply Forall_cons; [simpl; split; discriminate |].
      eapply Forall_impl; [| exact F]. simpl. intros r ->. split; discriminate. }
  unfold bind.
  destruct (invoke_bedrock_model rt w bedrock_runtime _ _ event context t)
    as [[v | e] t4] eqn:Hai; cbn [snd] in E; subst t4; [| right; exact Hquiet].
  destruct (eq_str v (lit "rescheduled")) eqn:Hne.
  { right. unfold after_analysis. rewrite Hne. exact Hquiet. }
  destruct (generate_pdf rt w v (convert_to_json_serializable rt finding))
    as [pdf | e] eqn:Hpdf.
  2: { right. unfold after_analysis. rewrite Hne. unfold bind, lift.
       rewrite Hpdf. exact Hquiet. }
  left.
  assert (Han : analysed rt w event context finding_id finding v
                  (t ++ [analysis_request rt w finding entities] ++ rest)).
  { exists entities, t. auto. }
  destruct (analysed_requests _ _ _ _ _ _ _ _ _ Han Hpdf)
    as (d & g & entities' & Ht4).
  destruct (after_analysis_emits rt w event bucket topic finding_id
              (convert_to_json_serializable rt finding) v
              (t ++ [analysis_request rt w finding entities] ++ rest))
    as [rest' [E' F']].
  rewrite E', Ht4. apply Forall_app. split.
  - repeat (apply Forall_cons; [simpl; discriminate |]). apply Forall_nil.
  - eapply Forall_impl; [| exact F']. simpl. intros r [-> | ->]; discriminate.
Qed.

Lemma reschedules_or_publishes_witness :
  Forall (fun r => client r <> events)
    (snd (lambda_handler Sample.runtime Sample.world Sample.RETRY_EVENT
            Sample.context []))
  \/ Forall (fun r => client r <> s3 /\ client r <> sns)
       (snd (lambda_handler Sample.runtime Sample.world Sample.RETRY_EVENT
               Sample.context [])).
Proof.
  apply (reschedules_or_publishes Sample.runtime Sample.world Sample.RETRY_EVENT
           Sample.context Sample.S3_BUCKET_NAME Sample.SNS_TOPIC_ARN).
  repeat split; try reflexivity; discriminate.
Defined.

(** ** The document *)

Section DocumentCalls.

Variable rt : Runtime.
Variable w : World.
Hypothesis Hquiet : quiet rt.

Lemma generate_pdf_calls_run text finding :
  generate_pdf_calls rt w (PStr text) (PDict finding) []
  = (match fpdf_output rt (now w) (document_calls rt w text finding) with
     | Ok document =>
         match encode_latin1 document with
         | Some pdf_output => Ok pdf_output
         | None => Raise UnicodeEncodeError
         end
     | Raise e => Raise e
     end,
     document_calls rt w text finding).
Proof.
  unfold generate_pdf_calls.
  repeat first
    [ rewrite (bind_Ok _ _ _ _ _ (pdf_call_quiet rt Hquiet _ _))
    | rewrite (bind_lift _ _ _ _ (py_get_dict _ _ _)) ].
  cbn [py_strip].
  rewrite (bind_lift _ _ _ _ eq_refl).
  rewrite (bind_Ok _ _ _ _ _ (render_sections_quiet rt Hquiet _ _)).
  repeat rewrite (bind_Ok _ _ _ _ _ (pdf_call_quiet rt Hquiet _ _)).
  unfold bind, lift.
  match goal with
  | |- context [fpdf_output rt (now w) ?log] =>
      replace log with (document_calls rt w text finding)
  end.
  - destruct (fpdf_output rt (now w) (document_calls rt w text finding));
      reflexivity.
  - unfold document_calls, opening_calls, analysis_calls, closing_calls, field.
    now rewrite <- !app_assoc.
Qed.

End DocumentCalls.

(** X22. When the PDF library raises on no call, [generate_pdf] makes,
    for a text and a finding, the calls of the opening (title, time,
    summary of the finding, links), then those of [render_line] for each
    line of each group of lines of the trimmed text, with a separator
    after each group, then the closing calls; its result is the
    serialisation of these calls, encoded in Latin-1. *)
Theorem generate_pdf_document rt w text finding :
  quiet rt ->
  generate_pdf rt w (PStr text) (PDict finding)
  = match fpdf_output rt (now w)
            (opening_calls rt w finding ++ analysis_calls text ++ closing_calls) with
    | Ok document =>
        match encode_latin1 document with
        | Some pdf_output => Ok pdf_output
        | None => Raise UnicodeEncodeError
        end
    | Raise e => Raise e
    end.
Proof.
  intros Hquiet. unfold generate_pdf.
  now rewrite (generate_pdf_calls_run rt w Hquiet).
Qed.

Lemma generate_pdf_document_witness :
  generate_pdf Sample.runtime Sample.world Sample.insights (Sample.finding (PInt 6))
  = match fpdf_output Sample.runtime (now Sample.world)
            (opening_calls Sample.runtime Sample.world
               [ (lit "Id", PStr Sample.FINDING_ID);
                 (lit "Severity", PInt 6);
                 (lit "Type", PStr (lit "UnauthorizedAccess:EC2/SSHBruteForce"));
                 (lit "AccountId", PStr Sample.ACCOUNT_ID);
                 (lit "Region", PStr Sample.REGION) ]
             ++ analysis_calls (lit "Test AI Insights") ++ closing_calls) with
    | Ok document =>
        match encode_latin1 document with
        | Some pdf_output => Ok pdf_output
        | None => Raise UnicodeEncodeError
        end
    | Raise e => Raise e
    end.
Proof.
  apply (generate_pdf_document Sample.runtime Sample.world (lit "Test AI Insights")).
  intros log o. reflexivity.
Defined.

(** X23. A finding without Region and without Id is rendered with two
    different defaults: the summary shows N/A for both, and the two
    links are made for the region us-east-1 and the identifier
    "unknown". *)
Theorem missing_fields_defaults rt w text finding :
  quiet rt ->
  dict_get (lit "Region") finding = None ->
  dict_get (lit "Id") finding = None ->
  let calls := snd (generate_pdf_calls rt w (PStr text) (PDict finding) []) in
  In (cell 200 10 (PStr (lit "View Finding in GuardDuty Console")) true (lit "")
        (lit "https://us-east-1.console.aws.amazon.com/guardduty/home?region=us-east-1#/findings?search=id%3Dunknown&macros=current"))
     calls
  /\ In (cell 200 10 (PStr (lit "View Finding in Detective Console")) true (lit "")
           (lit "https://us-east-1.console.aws.amazon.com/detective/home?region=us-east-1#search?searchType=Finding&searchText=unknown"))
        calls
  /\ exists type severity account_id,
       In (multi_cell 0 10
             (PStr (lit "Finding Type: " ++ type ++ [newline]
                    ++ lit "Finding ID: " ++ lit "N/A" ++ [newline]
                    ++ lit "Severity: " ++ severity ++ [newline]
                    ++ lit "Account ID: " ++ account_id ++ [newline]
                    ++ lit "Region: " ++ lit "N/A" ++ [newline])))
          calls.
Proof.
  intros Hquiet Hr Hi. cbv zeta.
  rewrite (generate_pdf_calls_run rt w Hquiet). cbn [snd].
  unfold document_calls.
  assert (Hg : guardduty_link rt (field finding (lit "Region") (PStr (lit "us-east-1")))
                 (field finding (lit "Id") (PStr (lit "unknown")))
               = lit "https://us-east-1.console.aws.amazon.com/guardduty/home?region=us-east-1#/findings?search=id%3Dunknown&macros=current").
  { unfold field. rewrite Hr, Hi. vm_compute. reflexivity. }
  assert (Hd : detective_link rt (field finding (lit "Region") (PStr (lit "us-east-1")))
                 (field finding (lit "Id") (PStr (lit "unknown")))
               = lit "https://us-east-1.console.aws.amazon.com/detective/home?region=us-east-1#search?searchType=Finding&searchText=unknown").
  { unfold field. rewrite Hr, Hi. vm_compute. reflexivity. }
  split; [| split].
  - apply in_or_app. left. unfold opening_calls. rewrite Hg.
    cbn [In]. do 18 right. left. reflexivity.
  - apply in_or_app. left. unfold opening_calls. rewrite Hd.
    cbn [In]. do 19 right. left. reflexivity.
  - exists (fstr rt (field finding (lit "Type") (PStr (lit "N/A")))),
           (fstr rt (field finding (lit "Severity") (PStr (lit "N/A")))),
           (fstr rt (field finding (lit "AccountId") (PStr (lit "N/A")))).
    apply in_or_app. left. unfold opening_calls, field. rewrite Hr, Hi.
    cbn [fstr In]. do 12 right. left. reflexivity.
Qed.

Lemma missing_fields_defaults_witness :
  In (cell 200 10 (PStr (lit "View Finding in GuardDuty Console")) true (lit "")
        (lit "https://us-east-1.console.aws.amazon.com/guardduty/home?region=us-east-1#/findings?search=id%3Dunknown&macros=current"))
     (snd (generate_pdf_calls Sample.runtime Sample.world
             (PStr (lit "Test AI Insights")) (PDict []) [])).
Proof.
  pose proof (missing_fields_defaults Sample.runtime Sample.world
                (lit "Test AI Insights") []) as H.
  cbv zeta in H. destruct H as [H _].
  - intros log o. reflexivity.
  - reflexivity.
  - reflexivity.
  - exact H.
Defined.

(** ** The lines of the analysis *)

Lemma lstrip_all_space s : forallb is_space s = true -> lstrip s = [].
Proof.
  induction s as [| c s IH]; [reflexivity |]. cbn [forallb lstrip].
  intros H. apply andb_true_iff in H. destruct H as [-> H]. auto.
Qed.






(** X25. A text of whitespace only, or empty, still renders: in a
    rendering that returns a document, the calls between those of the
    opening and those of the closing are one empty paragraph and one
    separator. *)
Theorem blank_analysis_renders_empty_paragraph rt w text guardduty_finding pdf calls :
  forallb is_space text = true ->
  generate_pdf_calls rt w (PStr text) guardduty_finding [] = (Ok pdf, calls) ->
  exists finding,
    guardduty_finding = PDict finding
    /\ calls
       = opening_calls rt w finding
         ++ [ set_font (lit "Arial") (lit "") 10; multi_cell 0 10 (PStr []); ln 5 ]
         ++ closing_calls.
Proof.
  intros Hblank H.
  destruct (generate_pdf_calls_Ok rt w _ _ _ _ H) as (text' & finding & Ht & -> & ->).
  injection Ht as <-. exists finding. split; [reflexivity |].
  unfold document_calls, analysis_calls, strip.
  rewrite (lstrip_all_space _ Hblank). reflexivity.
Qed.

Lemma blank_analysis_renders_empty_paragraph_witness :
  snd (generate_pdf_calls Sample.runtime Sample.world
         (PStr [space; newline; 9%N; newline]) (Sample.finding (PInt 6)) [])
  = opening_calls Sample.runtime Sample.world
      [ (lit "Id", PStr Sample.FINDING_ID);
        (lit "Severity", PInt 6);
        (lit "Type", PStr (lit "UnauthorizedAccess:EC2/SSHBruteForce"));
        (lit "AccountId", PStr Sample.ACCOUNT_ID);
        (lit "Region", PStr Sample.REGION) ]
    ++ [ set_font (lit "Arial") (lit "") 10; multi_cell 0 10 (PStr []); ln 5 ]
    ++ closing_calls.
Proof.
  destruct (generate_pdf_calls Sample.runtime Sample.world
              (PStr [space; newline; 9%N; newline]) (Sample.finding (PInt 6)) [])
    as [[pdf | e] calls] eqn:Hrun.
  - destruct (blank_analysis_renders_empty_paragraph Sample.runtime Sample.world
                [space; newline; 9%N; newline] (Sample.finding (PInt 6)) pdf calls)
      as (finding & Hf & Hcalls).
    + reflexivity.
    + exact Hrun.
    + injection Hf as <-. exact Hcalls.
  - vm_compute in Hrun. discriminate.
Defined.
